(** * The import/merge engine of fcc-physics-events

    A shallow embedding of
      - [backend/app/utils/uuid_utils.py]            (identifier derivation),
      - [backend/app/storage/database_modules/data_import.py]
                                                    (import orchestration, merge policy),
      - [backend/app/storage/json_data_parser.py]    (the dataset record),
    followed by the properties of the specification proved about it.

    Conventions.
      - A Python [str] is a Rocq [string]; its characters are code points
        below 256.
      - A Python [dict] is an insertion-ordered association list with unique
        keys ([PyDict]).
      - A Python [int] is a [Z].
      - Code that talks to the outside world (database statements, schema
        discovery, clock, random source, logger) runs in a state-and-exception
        monad over an abstract platform ([Platform]); [Pg] is an in-memory
        instance of it. *)

From Stdlib Require Import ZArith QArith String Ascii List DecimalString SpecFloat Lia.
From stdpp Require Import base option list strings sorting gmap.
Import ListNotations.

Local Set Warnings "-register-all".

Local Open Scope string_scope.
Local Open Scope list_scope.
Local Open Scope Z_scope.

(* ===================================================================== *)
(** * Python strings *)
(* ===================================================================== *)

Module PyStr.

(** [str(n)] for an integer. *)
Definition str_of_int (z : Z) : string := NilZero.string_of_int (Z.to_int z).

(** [sep.join(parts)] *)
Fixpoint join (sep : string) (parts : list string) : string :=
  match parts with
  | [] => EmptyString
  | [p] => p
  | p :: rest => (p ++ sep ++ join sep rest)%string
  end.

(** [s.startswith(p)] *)
Definition startswith (s p : string) : bool := String.prefix p s.

(** [s.endswith(p)] *)
Definition endswith (s p : string) : bool :=
  String.prefix (String.rev p) (String.rev s).

(** [needle in hay] *)
Fixpoint contains (needle hay : string) : bool :=
  String.prefix needle hay ||
  match hay with
  | EmptyString => false
  | String _ rest => contains needle rest
  end.

(** [c.isspace()] on the code points below 256. *)
Definition isspace (c : ascii) : bool :=
  let n := N_of_ascii c in
  ((9 <=? n) && (n <=? 13) || (28 <=? n) && (n <=? 32)
   || (n =? 133) || (n =? 160))%N.

Fixpoint lstrip_by (p : ascii -> bool) (s : string) : string :=
  match s with
  | EmptyString => EmptyString
  | String c rest => if p c then lstrip_by p rest else s
  end.

Definition rstrip_by (p : ascii -> bool) (s : string) : string :=
  String.rev (lstrip_by p (String.rev s)).

(** [s.strip()] *)
Definition strip (s : string) : string :=
  rstrip_by isspace (lstrip_by isspace s).

(** [s.rstrip(chars)] *)
Definition rstrip_chars (chars s : string) : string :=
  rstrip_by (fun c => existsb (Ascii.eqb c) (list_ascii_of_string chars)) s.

(** [s[:n]] for [n >= 0] *)
Definition take (n : nat) (s : string) : string := String.substring 0 n s.

End PyStr.

(* ===================================================================== *)
(** * Python dictionaries *)
(* ===================================================================== *)

Module PyDict.

(** Items in insertion order; the keys of a dictionary are pairwise
    different ([wf]). *)
Definition dict (V : Type) : Type := list (string * V).

Definition keys {V} (d : dict V) : list string := map fst d.
Definition values {V} (d : dict V) : list V := map snd d.
Definition wf {V} (d : dict V) : Prop := NoDup (keys d).

(** [d.get(k)] / [d[k]] *)
Fixpoint get {V} (d : dict V) (k : string) : option V :=
  match d with
  | [] => None
  | (k', v) :: rest => if String.eqb k' k then Some v else get rest k
  end.

(** [k in d] *)
Definition mem {V} (d : dict V) (k : string) : bool :=
  match get d k with Some _ => true | None => false end.

(** [d[k] = v]: an existing key keeps its position. *)
Fixpoint set {V} (d : dict V) (k : string) (v : V) : dict V :=
  match d with
  | [] => [(k, v)]
  | (k', v') :: rest =>
      if String.eqb k' k then (k', v) :: rest else (k', v') :: set rest k v
  end.

(** [d.update(other)] *)
Definition update {V} (d other : dict V) : dict V :=
  fold_left (fun acc kv => set acc (fst kv) (snd kv)) other d.

(** [{k: v for k, v in d.items() if keep(v)}] *)
Definition filter_values {V} (keep : V -> bool) (d : dict V) : dict V :=
  List.filter (fun kv => keep (snd kv)) d.

End PyDict.

Import PyDict.

(* ===================================================================== *)
(** * The [uuid] module of the Python library: name-based identifiers *)
(* ===================================================================== *)

Module Uuid.

(** A [uuid.UUID] is its 128-bit integer ([UUID.int]). *)
Definition UUID : Type := Z.

(** Big-endian bytes of an integer, and back. *)
Fixpoint be_bytes (n : nat) (x : Z) : list Z :=
  match n with
  | O => []
  | S n' => Z.land (Z.shiftr x (8 * Z.of_nat n')) 255 :: be_bytes n' x
  end.

Definition be_int (bs : list Z) : Z :=
  fold_left (fun acc b => Z.lor (Z.shiftl acc 8) b) bs 0.

(** [name.encode("utf-8")] for code points below 256. *)
Definition utf8_char (c : ascii) : list Z :=
  let n := Z.of_N (N_of_ascii c) in
  if n <? 128 then [n]
  else [Z.lor 192 (Z.shiftr n 6); Z.lor 128 (Z.land n 63)].

Definition utf8 (s : string) : list Z :=
  flat_map utf8_char (list_ascii_of_string s).

(** ** SHA-1 on 32-bit words held in [Z] *)

Definition mask32 : Z := 4294967295.
Definition add32 (a b : Z) : Z := Z.land (a + b) mask32.
Definition rotl32 (n x : Z) : Z :=
  Z.land (Z.lor (Z.shiftl x n) (Z.shiftr x (32 - n))) mask32.
Definition not32 (x : Z) : Z := Z.lxor x mask32.

Definition pad (msg : list Z) : list Z :=
  let len := Z.of_nat (length msg) in
  msg ++ [128] ++ repeat 0 (Z.to_nat ((55 - len) mod 64)) ++ be_bytes 8 (8 * len).

Fixpoint chunks {A} (fuel n : nat) (l : list A) : list (list A) :=
  match fuel, l with
  | O, _ | _, [] => []
  | S fuel', _ => firstn n l :: chunks fuel' n (skipn n l)
  end.

Definition words_of_block (block : list Z) : list Z :=
  map be_int (chunks 16 4 block).

Fixpoint schedule (n : nat) (w : list Z) : list Z :=
  match n with
  | O => w
  | S n' =>
      let i := length w in
      let x := Z.lxor (Z.lxor (nth (i - 3) w 0) (nth (i - 8) w 0))
                      (Z.lxor (nth (i - 14) w 0) (nth (i - 16) w 0)) in
      schedule n' (w ++ [rotl32 1 x])
  end.

Record state := State { ha : Z; hb : Z; hc : Z; hd : Z; he : Z }.

Definition round (s : state) (iw : nat * Z) : state :=
  let '(i, w) := iw in
  let '(State a b c d e) := s in
  let '(f, k) :=
    if (i <? 20)%nat then (Z.lor (Z.land b c) (Z.land (not32 b) d), 1518500249)
    else if (i <? 40)%nat then (Z.lxor (Z.lxor b c) d, 1859775393)
    else if (i <? 60)%nat then
      (Z.lor (Z.lor (Z.land b c) (Z.land b d)) (Z.land c d), 2400959708)
    else (Z.lxor (Z.lxor b c) d, 3395469782) in
  let temp := add32 (add32 (add32 (add32 (rotl32 5 a) f) e) k) w in
  State temp a (rotl32 30 b) c d.

Definition compress (h : state) (block : list Z) : state :=
  let w := schedule 64 (words_of_block block) in
  let s := fold_left round (combine (seq 0 80) w) h in
  State (add32 (ha h) (ha s)) (add32 (hb h) (hb s)) (add32 (hc h) (hc s))
        (add32 (hd h) (hd s)) (add32 (he h) (he s)).

Definition initial : state :=
  State 1732584193 4023233417 2562383102 271733878 3285377520.

Definition sha1 (msg : list Z) : list Z :=
  let padded := pad msg in
  let s := fold_left compress (chunks (length padded) 64 padded) initial in
  flat_map (be_bytes 4) [ha s; hb s; hc s; hd s; he s].

(** ** [uuid.uuid5] and [str(UUID)] *)

(** [uuid.NAMESPACE_DNS], 6ba7b810-9dad-11d1-80b4-00c04fd430c8 *)
Definition NAMESPACE_DNS : UUID := 143098242404177361603877621312831893704.

Definition uuid5 (namespace : UUID) (name : string) : UUID :=
  let hash := sha1 (be_bytes 16 namespace ++ utf8 name) in
  let i := be_int (firstn 16 hash) in
  let i := Z.land i (Z.lnot (Z.shiftl 49152 48)) in
  let i := Z.lor i (Z.shiftl 32768 48) in
  let i := Z.land i (Z.lnot (Z.shiftl 61440 64)) in
  Z.lor i (Z.shiftl 5 76).

Definition hex_digit (d : Z) : ascii :=
  nth (Z.to_nat d) (list_ascii_of_string "0123456789abcdef") "0"%char.

Fixpoint hex (n : nat) (x : Z) : string :=
  match n with
  | O => EmptyString
  | S n' => String (hex_digit (Z.land (Z.shiftr x (4 * Z.of_nat n')) 15)) (hex n' x)
  end.

(** [str(u)]: 8-4-4-4-12 lower-case hexadecimal digits. *)
Definition to_str (u : UUID) : string :=
  let h := hex 32 u in
  (String.substring 0 8 h ++ "-" ++ String.substring 8 4 h ++ "-" ++
   String.substring 12 4 h ++ "-" ++ String.substring 16 4 h ++ "-" ++
   String.substring 20 12 h)%string.

End Uuid.

(* ===================================================================== *)
(** * [uuid_utils.py] *)
(* ===================================================================== *)

(** What the code reads from the application configuration
    ([app.utils.config], [database.config]); the configuration loader is not
    part of the sources. *)
Record Config := {
  (** [config.get("database.entity_uuid_namespace", ...)], [None] when unset *)
  cfg_entity_uuid_namespace : option string;
  (** [config["application"]["main_table"]] *)
  cfg_main_table : string;
  (** [config["application"]["batch_size"]] *)
  cfg_batch_size : Z;
  (** [config["navigation"]["order"]], [None] when the lookup raises *)
  cfg_navigation_order : option (list string)
}.

(** [sorted(keys)] on strings: ascending code-point order. *)
Definition sorted (l : list string) : list string := merge_sort String.le l.

Definition ENTITY_UUID_NAMESPACE (config : Config) : Uuid.UUID :=
  Uuid.uuid5 Uuid.NAMESPACE_DNS
    (default "entity_uuid_namespace.v01" (cfg_entity_uuid_namespace config)).

(** [generate_dataset_uuid(dataset_name, **foreign_key_ids)].  The loop reads
    [foreign_key_ids[key]] for keys taken from the dictionary itself, so the
    lookup always succeeds. *)
Definition generate_dataset_uuid (config : Config) (dataset_name : string)
    (foreign_key_ids : dict (option Z)) : string :=
  let sorted_keys := sorted (keys foreign_key_ids) in
  let foreign_key_parts :=
    fold_left
      (fun parts key =>
         let value := default None (get foreign_key_ids key) in
         let value_str :=
           match value with Some n => PyStr.str_of_int n | None => "0" end in
         parts ++ [value_str])
      sorted_keys [] in
  let foreign_keys_str := PyStr.join "," foreign_key_parts in
  let uuid_name := (dataset_name ++ "," ++ foreign_keys_str)%string in
  let dataset_uuid := Uuid.uuid5 (ENTITY_UUID_NAMESPACE config) uuid_name in
  Uuid.to_str dataset_uuid.

(** The canonical string as the specification words it: entries sorted by key
    name, each value rendered in decimal or as the sentinel, joined with
    commas, after the dataset name and a comma. *)
Module CanonicalSpec.

Definition key_le (a b : string * option Z) : Prop := String.le (fst a) (fst b).

Definition entries_sorted_by_key (fks : dict (option Z)) : dict (option Z) :=
  merge_sort key_le fks.

Definition render (v : option Z) : string :=
  match v with Some n => PyStr.str_of_int n | None => "0" end.

Definition canonical_string (name : string) (fks : dict (option Z)) : string :=
  (name ++ "," ++
   PyStr.join "," (map (fun kv => render (snd kv)) (entries_sorted_by_key fks)))%string.

End CanonicalSpec.

(* ===================================================================== *)
(** * JSON values and the metadata merge policy *)
(* ===================================================================== *)

(** What [json.loads] produces: [None], [bool], [int], [float], [str], [list],
    [dict]. *)
Inductive json : Type :=
| JNull
| JBool (b : bool)
| JInt (n : Z)
| JFloat (f : spec_float)
| JStr (s : string)
| JList (l : list json)
| JObj (o : list (string * json)).

(** [bool(v)] *)
Definition truthy (v : json) : bool :=
  match v with
  | JNull => false
  | JBool b => b
  | JInt n => negb (n =? 0)
  | JFloat f => match f with S754_zero _ => false | _ => true end
  | JStr s => negb (String.eqb s EmptyString)
  | JList l => match l with [] => false | _ => true end
  | JObj o => match o with [] => false | _ => true end
  end.

(** [v] equal to the empty string *)
Definition eq_empty_str (v : json) : bool :=
  match v with JStr s => String.eqb s EmptyString | _ => false end.

(** [v is None] *)
Definition is_none (v : json) : bool :=
  match v with JNull => true | _ => false end.

(** [v == []] *)
Definition eq_empty_list (v : json) : bool :=
  match v with JList [] => true | _ => false end.

Definition _filter_empty_metadata_values (metadata : dict json) : dict json :=
  filter_values
    (fun v => negb (eq_empty_str v) && negb (is_none v) && negb (eq_empty_list v))
    metadata.

(** [key.startswith("__") and key.endswith("__lock__")] *)
Definition is_lock_key (key : string) : bool :=
  PyStr.startswith key "__" && PyStr.endswith key "__lock__".

(** [f"__{key}__lock__"] *)
Definition lock_field_name (key : string) : string :=
  ("__" ++ key ++ "__lock__")%string.

Definition _merge_metadata_respecting_locks
    (existing_metadata new_metadata : dict json) : dict json :=
  fold_left
    (fun merged_metadata kv =>
       let '(key, value) := kv in
       if is_lock_key key then set merged_metadata key value
       else
         let is_locked :=
           default (JBool false) (get existing_metadata (lock_field_name key)) in
         if negb (truthy is_locked) then set merged_metadata key value
         else merged_metadata)
    new_metadata existing_metadata.

(* ===================================================================== *)
(** * [json_data_parser.py]: the dataset record *)
(* ===================================================================== *)

Record FccDataset := {
  process_name : option string;
  n_events : option Z;
  path : option string;
  size : option Z;
  description : option string;
  comment : option string;
  status : option string;
  accelerator : option string;
  stage : option string;
  campaign : option string;
  detector : option string;
  file_type : option string;
  raw_metadata : dict json
}.

Record DatasetCollection := { processes : list FccDataset }.

Definition set_if_present {A} (inj : A -> json) (key : string) (field : option A)
    (metadata : dict json) : dict json :=
  match field with Some v => set metadata key (inj v) | None => metadata end.

(** [FccDataset.get_all_metadata] *)
Definition get_all_metadata (self : FccDataset) : dict json :=
  let metadata : dict json := [] in
  let metadata := set_if_present JInt "n-events" (n_events self) metadata in
  let metadata := set_if_present JStr "path" (path self) metadata in
  let metadata := set_if_present JInt "size" (size self) metadata in
  let metadata := set_if_present JStr "description" (description self) metadata in
  let metadata := set_if_present JStr "comment" (comment self) metadata in
  let metadata := set_if_present JStr "status" (status self) metadata in
  update metadata (raw_metadata self).

(** The value of a data attribute, as far as the reference lookup looks at it. *)
Inductive attr_value := AttrNone | AttrStr (s : string) | AttrInt (n : Z).

Definition attr_of_str (o : option string) : attr_value :=
  match o with Some s => AttrStr s | None => AttrNone end.
Definition attr_of_int (o : option Z) : attr_value :=
  match o with Some n => AttrInt n | None => AttrNone end.

(** [getattr(dataset_data, field_name)] when [hasattr(dataset_data, field_name)],
    for the scalar data fields of the record.  Other attribute names (the
    [raw_metadata] dictionary and what the record inherits from its base
    classes) are outside the model and count as absent. *)
Definition getattr_opt (dataset_data : FccDataset) (field_name : string)
    : option attr_value :=
  if String.eqb field_name "process_name" then Some (attr_of_str (process_name dataset_data))
  else if String.eqb field_name "n_events" then Some (attr_of_int (n_events dataset_data))
  else if String.eqb field_name "path" then Some (attr_of_str (path dataset_data))
  else if String.eqb field_name "size" then Some (attr_of_int (size dataset_data))
  else if String.eqb field_name "description" then Some (attr_of_str (description dataset_data))
  else if String.eqb field_name "comment" then Some (attr_of_str (comment dataset_data))
  else if String.eqb field_name "status" then Some (attr_of_str (status dataset_data))
  else if String.eqb field_name "accelerator" then Some (attr_of_str (accelerator dataset_data))
  else if String.eqb field_name "stage" then Some (attr_of_str (stage dataset_data))
  else if String.eqb field_name "campaign" then Some (attr_of_str (campaign dataset_data))
  else if String.eqb field_name "detector" then Some (attr_of_str (detector dataset_data))
  else if String.eqb field_name "file_type" then Some (attr_of_str (file_type dataset_data))
  else None.

(** The block shared by the three reference lookups of [data_import.py]:
    [[
      entity_name = None
      if hasattr(dataset_data, field_name):
          field_value = getattr(dataset_data, field_name)
          if field_value and str(field_value).strip():
              entity_name = str(field_value).strip()
    ]] *)
Definition entity_name_of (dataset_data : FccDataset) (field_name : string)
    : option string :=
  match getattr_opt dataset_data field_name with
  | Some (AttrStr s) =>
      if negb (String.eqb s EmptyString) && negb (String.eqb (PyStr.strip s) EmptyString)
      then Some (PyStr.strip s) else None
  | Some (AttrInt n) =>
      if negb (n =? 0) && negb (String.eqb (PyStr.strip (PyStr.str_of_int n)) EmptyString)
      then Some (PyStr.strip (PyStr.str_of_int n)) else None
  | _ => None
  end.

(* ===================================================================== *)
(** * Exceptions, log records and the effect monad *)
(* ===================================================================== *)

(** The exception classes the code raises or tells apart.  [JSONDecodeError]
    is a [ValueError] in Python; [OtherError] stands for any exception of a
    collaborator that no handler of the code names. *)
Inductive exn_kind :=
| ValueError | JSONDecodeError | RuntimeError | KeyError | AttributeError
| TypeError | UniqueViolationError | OtherError.

(** An exception with [str(e)]. *)
Record exn := Exn { exn_kind_of : exn_kind; exn_msg : string }.

Inductive outcome (A : Type) : Type :=
| Ok (a : A)
| Raise (e : exn).
Arguments Ok {A} a.
Arguments Raise {A} e.

Inductive level := INFO | WARNING | ERROR.
Definition log_entry : Type := level * string.

(** A computation over a platform state [W] and the log written so far
    (newest record last). *)
Definition M (W A : Type) : Type :=
  W * list log_entry -> outcome A * (W * list log_entry).

Section Monad.
Context {W : Type}.

Definition ret {A} (a : A) : M W A := fun st => (Ok a, st).

Definition bind {A B} (m : M W A) (k : A -> M W B) : M W B :=
  fun st =>
    match m st with
    | (Ok a, st') => k a st'
    | (Raise e, st') => (Raise e, st')
    end.

Definition raise {A} (kind : exn_kind) (msg : string) : M W A :=
  fun st => (Raise (Exn kind msg), st).

Definition reraise {A} (e : exn) : M W A := fun st => (Raise e, st).

(** [try: m  except Exception as e: ...] with the result made explicit; what
    [m] did before raising stays done. *)
Definition attempt {A} (m : M W A) : M W (outcome A) :=
  fun st => let '(r, st') := m st in (Ok r, st').

(** [logger.info / warning / error] *)
Definition logger (lvl : level) (msg : string) : M W unit :=
  fun '(w, l) => (Ok tt, (w, l ++ [(lvl, msg)])).

(** A call into the platform. *)
Definition perform {A} (op : W -> outcome A * W) : M W A :=
  fun '(w, l) => let '(r, w') := op w in (r, (w', l)).

Definition perform_total {A} (op : W -> A * W) : M W A :=
  fun '(w, l) => let '(a, w') := op w in (Ok a, (w', l)).

End Monad.

Notation "x <- m ;; k" := (bind m (fun x => k))
  (at level 100, m at next level, right associativity).
Notation "m ;;; k" := (bind m (fun _ => k))
  (at level 100, right associativity).

Section Loops.
Context {W : Type}.

(** [for x in l: acc = f(acc, x)] *)
Fixpoint foldM {A B} (f : B -> A -> M W B) (l : list A) (b : B) : M W B :=
  match l with
  | [] => ret b
  | x :: rest => b' <- f b x ;; foldM f rest b'
  end.

(** [for x in l: f(x)] *)
Fixpoint forM_ {A} (f : A -> M W unit) (l : list A) : M W unit :=
  match l with
  | [] => ret tt
  | x :: rest => f x ;;; forM_ f rest
  end.

End Loops.

(** [range(start, stop, step)]; [None] is the [ValueError] of a zero step. *)
Definition py_range (start stop step : Z) : option (list Z) :=
  if step =? 0 then None
  else
    let count :=
      if 0 <? step
      then (if start <? stop then (stop - start + step - 1) / step else 0)
      else (if stop <? start then (start - stop - step - 1) / (- step) else 0) in
    Some (map (fun i => start + Z.of_nat i * step) (seq 0 (Z.to_nat count))).

(** [l[a:b]] for [0 <= a], [0 <= b] *)
Definition slice {A} (l : list A) (a b : Z) : list A :=
  firstn (Z.to_nat (b - a)) (skipn (Z.to_nat a) l).

(* ===================================================================== *)
(** * The platform: connection, schema discovery, clock, random source *)
(* ===================================================================== *)

(** A value bound to a statement parameter or held in an [entity_dict]. *)
Inductive pyval :=
| PyNone
| PyInt (n : Z)
| PyStr (s : string)
| PyMetadata (d : dict json)       (** a metadata dictionary *)
| PyJsonText (d : dict json).      (** [json.dumps(d)] *)

(** What [conn.fetchval("SELECT metadata ...")] hands back. *)
Inductive fetched :=
| FetchedNone                      (** no row, or SQL NULL *)
| FetchedText (j : json)           (** a [str]: the JSON text of [j] *)
| FetchedDict (d : dict json)      (** a [dict] (a JSON codec is installed) *)
| FetchedOther (truth : bool).     (** any other value, with its truth value *)

(** One assignment of the [ON CONFLICT (uuid) DO UPDATE SET] list. *)
Inductive set_clause :=
| SetUnlessLocked (col lock_key : string)
    (** [col = CASE WHEN COALESCE((t.metadata->'lock_key')::boolean, false)
              THEN t.col ELSE EXCLUDED.col END] *)
| SetNow (col : string).
    (** [col = NOW()] *)

(** [INSERT INTO table (columns) VALUES ($1, ...) ON CONFLICT (conflict)
     DO UPDATE SET clauses] *)
Record upsert_query := {
  q_table : string;
  q_columns : list string;
  q_conflict : string;
  q_set : list set_clause
}.

Class Platform (W : Type) := {
  (** entering [database.session()] and [conn.transaction()] *)
  tx_begin : W -> outcome unit * W;
  (** leaving the transaction block normally *)
  tx_commit : W -> outcome unit * W;
  (** leaving it by an exception: from the state at entry and the state
      reached, the state after the rollback *)
  tx_rollback : W -> W -> W;
  (** [conn.fetchrow("SELECT id_column FROM table WHERE name ILIKE $1", name)]:
      the identifier of the row found *)
  conn_fetchrow_id : string -> string -> string -> W -> outcome (option Z) * W;
  (** [conn.fetchval("INSERT INTO table (columns) VALUES (...) RETURNING
      id_column", *values)] *)
  conn_insert_returning :
    string -> list (string * pyval) -> string -> W -> outcome (option Z) * W;
  (** [conn.fetchval("SELECT metadata FROM table WHERE uuid = $1", uuid)] *)
  conn_fetchval_metadata : string -> pyval -> W -> outcome fetched * W;
  (** [conn.execute(query, *values)] for the upsert *)
  conn_execute_upsert : upsert_query -> list pyval -> W -> outcome unit * W;
  (** [get_schema_discovery(conn)] then
      [analyze_navigation_structure(main_table)["navigation_tables"]], as the
      table name found for each entity key *)
  analyze_navigation_structure : string -> W -> outcome (dict string) * W;
  (** [datetime.now().strftime("%Y%m%d_%H%M%S")] *)
  datetime_now : W -> string * W;
  (** [str(uuid.uuid4())] *)
  uuid4 : W -> string * W
}.

(** The decoders in front of the import: the JSON reader of the Python
    library and the validation of the record classes by pydantic. *)
Class Codec := {
  (** [json.loads(content)] *)
  json_loads : string -> outcome json;
  (** [DatasetCollection.model_validate(raw_data)] *)
  model_validate : json -> outcome DatasetCollection
}.

(** How a transaction block ended. *)
Inductive tx_outcome (A : Type) :=
| Committed (a : A)
| Aborted (e : exn)            (** entering or the body raised: rolled back *)
| CommitFailed (a : A) (e : exn).  (** the body ran to its end, the commit raised *)
Arguments Committed {A} a.
Arguments Aborted {A} e.
Arguments CommitFailed {A} a e.

Section Transactions.
Context {W : Type} `{Platform W}.

(** [[
      try:
          async with database.session() as conn:
              async with conn.transaction():
                  body
      except Exception as e: ...
    ]] *)
Definition try_transaction {A} (body : M W A) : M W (tx_outcome A) :=
  fun '(w, l) =>
    match tx_begin w with
    | (Raise e, w1) => (Ok (Aborted e), (w1, l))
    | (Ok _, w1) =>
        match body (w1, l) with
        | (Raise e, (w2, l2)) => (Ok (Aborted e), (tx_rollback w1 w2, l2))
        | (Ok a, (w2, l2)) =>
            match tx_commit w2 with
            | (Ok _, w3) => (Ok (Committed a), (w3, l2))
            | (Raise e, w3) => (Ok (CommitFailed a e), (w3, l2))
            end
        end
    end.

End Transactions.

(* ===================================================================== *)
(** * [data_import.py] *)
(* ===================================================================== *)

(** One entry of the navigation entity structure. *)
Record entity_info := {
  table_name : string;
  field_name : string;
  foreign_key_column : string
}.

(** [s.add(x)] on a set kept as a duplicate-free list.  Python iterates a set
    in an order of its own; the model iterates in insertion order. *)
Definition set_add (s : list string) (x : string) : list string :=
  if existsb (String.eqb x) s then s else s ++ [x].

Definition entity_key_mappings : dict string :=
  [ ("accelerator", "accelerator_id"); ("stage", "stage_id");
    ("campaign", "campaign_id"); ("detector", "detector_id");
    ("file_type", "file_type_id") ].

Section DataImport.
Context {W : Type} `{Platform W} `{Codec}.

(** The [database] object, as far as the import reads it: its configuration.
    Its sessions are the transactions of the platform. *)
Variable database : Config.

(** ** Reference entities *)

(** [_get_or_create_entity(conn, model, table_name, name=..., [accelerator_id=...])].
    The model instance built from the keyword arguments dumps, with
    [exclude_unset=True], exactly the arguments that were passed. *)
Definition _get_or_create_entity (table_name name : string)
    (accelerator_id : option Z) : M W Z :=
  if String.eqb name EmptyString then
    raise ValueError "A 'name' is required to find or create an entity."
  else
    let id_column := (PyStr.rstrip_chars "s" table_name ++ "_id")%string in
    record <- perform (conn_fetchrow_id table_name id_column name) ;;
    match record with
    | Some id => ret id
    | None =>
        let data :=
          ("name", PyStr name) ::
          match accelerator_id with
          | Some a => [("accelerator_id", PyInt a)]
          | None => []
          end in
        r <- attempt
               (new_id <- perform (conn_insert_returning table_name data id_column) ;;
                match new_id with
                | None =>
                    raise RuntimeError
                      ("Failed to create entity in " ++ table_name ++
                       " with name " ++ name)%string
                | Some id => ret id
                end) ;;
        match r with
        | Ok id => ret id
        | Raise e =>
            match exn_kind_of e with
            | UniqueViolationError =>
                record <- perform (conn_fetchrow_id table_name id_column name) ;;
                match record with
                | Some id => ret id
                | None =>
                    raise RuntimeError
                      ("Failed to create or find entity in " ++ table_name ++
                       " with name " ++ name)%string
                end
            | _ => reraise e
            end
        end
    end.

Definition structure_entry (entity_key table : string) : entity_info :=
  {| table_name := table;
     field_name := entity_key;
     foreign_key_column := (entity_key ++ "_id")%string |}.

(** The loop of the first [try] block: the table name found by schema
    discovery, else the plural of the entity key. *)
Definition structure_from_schema (navigation_order : list string)
    (navigation_tables : dict string) : dict entity_info :=
  fold_left
    (fun entity_structure entity_key =>
       let table := (entity_key ++ "s")%string in
       let table :=
         match get navigation_tables entity_key with
         | Some discovered => discovered
         | None => table
         end in
       set entity_structure entity_key (structure_entry entity_key table))
    navigation_order [].

(** The loop of the second [try] block: naming convention only. *)
Definition structure_from_config (navigation_order : list string)
    : dict entity_info :=
  fold_left
    (fun entity_structure entity_key =>
       set entity_structure entity_key
           (structure_entry entity_key (entity_key ++ "s")%string))
    navigation_order [].

Definition _get_navigation_entity_structure : M W (dict entity_info) :=
  r <- attempt
         (let main_table := cfg_main_table database in
          match cfg_navigation_order database with
          | None => raise KeyError "'navigation'"
          | Some navigation_order =>
              navigation_tables <- perform (analyze_navigation_structure main_table) ;;
              ret (structure_from_schema navigation_order navigation_tables)
          end) ;;
  match r with
  | Ok entity_structure => ret entity_structure
  | Raise e =>
      logger ERROR ("Failed to get dynamic navigation structure: " ++ exn_msg e)%string ;;;
      match cfg_navigation_order database with
      | Some navigation_order =>
          let entity_structure := structure_from_config navigation_order in
          logger INFO
            ("Using config-only navigation structure with " ++
             PyStr.str_of_int (Z.of_nat (length entity_structure)) ++ " entities")%string ;;;
          ret entity_structure
      | None =>
          logger ERROR
            "Failed to build navigation structure from config: 'navigation'" ;;;
          ret []
      end
  end.

(** The first loop of [_preprocess_batch_navigation_entities]: the names
    used in the batch, per entity key. *)
Definition collect_unique_entities (entity_structure : dict entity_info)
    (batch : list FccDataset) : dict (list string) :=
  fold_left
    (fun unique_entities dataset_data =>
       fold_left
         (fun unique_entities item =>
            let '(entity_key, info) := item in
            match entity_name_of dataset_data (field_name info) with
            | Some entity_name =>
                let names := default [] (get unique_entities entity_key) in
                set unique_entities entity_key (set_add names entity_name)
            | None => unique_entities
            end)
         entity_structure unique_entities)
    batch [].

Definition _preprocess_batch_navigation_entities (batch : list FccDataset)
    : M W (dict (dict Z)) :=
  entity_structure <- _get_navigation_entity_structure ;;
  match entity_structure with
  | [] => ret []
  | _ =>
      let unique_entities := collect_unique_entities entity_structure batch in
      foldM
        (fun navigation_cache item =>
           let '(entity_key, names) := item in
           match get entity_structure entity_key with
           | None => raise KeyError entity_key
           | Some info =>
               let navigation_cache := set navigation_cache entity_key [] in
               foldM
                 (fun navigation_cache name =>
                    entity_id <- _get_or_create_entity (table_name info) name None ;;
                    let by_name := default [] (get navigation_cache entity_key) in
                    ret (set navigation_cache entity_key (set by_name name entity_id)))
                 names navigation_cache
           end)
        unique_entities []
  end.

Definition _get_entity_name_for_dataset (dataset_data : FccDataset)
    (field_name : string) : option string :=
  if String.eqb field_name EmptyString then None
  else entity_name_of dataset_data field_name.

Definition _get_foreign_key_ids_from_cache (dataset_data : FccDataset)
    (navigation_cache : dict (dict Z)) : dict (option Z) :=
  fold_left
    (fun foreign_key_ids item =>
       let '(entity_key, foreign_key_col) := item in
       match get navigation_cache entity_key with
       | Some by_name =>
           match _get_entity_name_for_dataset dataset_data entity_key with
           | Some entity_name =>
               match get by_name entity_name with
               | Some id => set foreign_key_ids foreign_key_col (Some id)
               | None => set foreign_key_ids foreign_key_col None
               end
           | None => set foreign_key_ids foreign_key_col None
           end
       | None => set foreign_key_ids foreign_key_col None
       end)
    entity_key_mappings [].

(** The [try] block of [_create_navigation_entities]: the loop stops at the
    first exception, which is logged; the keys assigned so far stay. *)
Fixpoint create_navigation_loop (dataset_name : string) (dataset_data : FccDataset)
    (items : dict entity_info) (foreign_key_ids : dict (option Z))
    : M W (dict (option Z)) :=
  match items with
  | [] => ret foreign_key_ids
  | (entity_key, info) :: rest =>
      match entity_name_of dataset_data (field_name info) with
      | None => create_navigation_loop dataset_name dataset_data rest foreign_key_ids
      | Some entity_name =>
          let accelerator_id := default None (get foreign_key_ids "accelerator_id") in
          let dependent :=
            if String.eqb entity_key "detector" &&
               match accelerator_id with Some a => negb (a =? 0) | None => false end
            then accelerator_id else None in
          r <- attempt (_get_or_create_entity (table_name info) entity_name dependent) ;;
          match r with
          | Ok id =>
              create_navigation_loop dataset_name dataset_data rest
                (set foreign_key_ids (foreign_key_column info) (Some id))
          | Raise e =>
              logger WARNING
                ("Could not create navigation entities for " ++ dataset_name ++ ": " ++
                 exn_msg e ++ ". " ++
                 "Will store dataset with null foreign key references.")%string ;;;
              ret foreign_key_ids
          end
      end
  end.

Definition _create_navigation_entities (dataset_data : FccDataset)
    (dataset_name : string) : M W (dict (option Z)) :=
  entity_structure <- _get_navigation_entity_structure ;;
  let foreign_key_ids : dict (option Z) :=
    fold_left (fun d info => set d (foreign_key_column info) None)
              (values entity_structure) [] in
  match entity_structure with
  | [] =>
      logger WARNING
        ("No navigation entity structure available for " ++ dataset_name ++
         ". Skipping navigation entity creation.")%string ;;;
      ret foreign_key_ids
  | _ => create_navigation_loop dataset_name dataset_data entity_structure foreign_key_ids
  end.

(** ** The main entity *)

Definition _generate_dataset_name (dataset_data : FccDataset) (idx : Z) : M W string :=
  match process_name dataset_data with
  | Some dataset_name =>
      if negb (String.eqb dataset_name EmptyString) then ret dataset_name
      else
        timestamp <- perform_total datetime_now ;;
        u <- perform_total uuid4 ;;
        let short_uuid := PyStr.take 8 u in
        let dataset_name :=
          ("unnamed_dataset_" ++ timestamp ++ "_" ++ short_uuid ++ "_" ++
           PyStr.str_of_int idx)%string in
        logger WARNING
          ("Dataset at index " ++ PyStr.str_of_int idx ++
           " has no process_name. Using fallback name: " ++ dataset_name)%string ;;;
        ret dataset_name
  | None =>
      timestamp <- perform_total datetime_now ;;
      u <- perform_total uuid4 ;;
      let short_uuid := PyStr.take 8 u in
      let dataset_name :=
        ("unnamed_dataset_" ++ timestamp ++ "_" ++ short_uuid ++ "_" ++
         PyStr.str_of_int idx)%string in
      logger WARNING
        ("Dataset at index " ++ PyStr.str_of_int idx ++
         " has no process_name. Using fallback name: " ++ dataset_name)%string ;;;
      ret dataset_name
  end.

(** [_parse_existing_metadata], applied to a result that passed the
    truth test of the caller. *)
Definition _parse_existing_metadata (metadata_result : fetched) : json :=
  match metadata_result with
  | FetchedText j => j
  | FetchedDict d => JObj d
  | _ => JObj []
  end.

(** [bool(existing_metadata_result)]: JSON text is never the empty string. *)
Definition fetched_truthy (metadata_result : fetched) : bool :=
  match metadata_result with
  | FetchedNone => false
  | FetchedText _ => true
  | FetchedDict d => match d with [] => false | _ => true end
  | FetchedOther truth => truth
  end.

(** [_filter_empty_metadata_values(_merge_metadata_respecting_locks(existing,
    new))] for whatever [json.loads] gave as [existing]: anything but a
    dictionary ends in the exception of the first operation it lacks. *)
Definition merge_and_filter (existing_metadata : json) (new_metadata : dict json)
    : outcome (dict json) :=
  match existing_metadata with
  | JObj d =>
      Ok (_filter_empty_metadata_values
            (_merge_metadata_respecting_locks d new_metadata))
  | JList _ =>
      match new_metadata with
      | [] => Raise (Exn AttributeError "'list' object has no attribute 'items'")
      | (key, _) :: _ =>
          if is_lock_key key
          then Raise (Exn TypeError "list indices must be integers or slices, not str")
          else Raise (Exn AttributeError "'list' object has no attribute 'get'")
      end
  | JStr _ => Raise (Exn AttributeError "'str' object has no attribute 'copy'")
  | JInt _ => Raise (Exn AttributeError "'int' object has no attribute 'copy'")
  | JFloat _ => Raise (Exn AttributeError "'float' object has no attribute 'copy'")
  | JBool _ => Raise (Exn AttributeError "'bool' object has no attribute 'copy'")
  | JNull => Raise (Exn AttributeError "'NoneType' object has no attribute 'copy'")
  end.

Definition _merge_metadata_with_locked_fields (entity_dict : dict pyval)
    (main_table : string) : M W (dict pyval) :=
  match get entity_dict "metadata" with
  | None | Some PyNone => ret entity_dict
  | Some new_value =>
      existing_metadata_result <-
        perform (conn_fetchval_metadata main_table
                   (default PyNone (get entity_dict "uuid"))) ;;
      match new_value with
      | PyMetadata new_metadata =>
          if fetched_truthy existing_metadata_result then
            let existing_metadata := _parse_existing_metadata existing_metadata_result in
            match merge_and_filter existing_metadata new_metadata with
            | Ok filtered_metadata =>
                ret (set entity_dict "metadata" (PyJsonText filtered_metadata))
            | Raise e => reraise e
            end
          else
            let filtered_metadata := _filter_empty_metadata_values new_metadata in
            ret (set entity_dict "metadata" (PyJsonText filtered_metadata))
      | _ => raise AttributeError "object has no attribute 'items'"
      end
  end.

(** [_upsert_entity(conn, entity_dict, main_table)], as the import calls it:
    [user_info] is left at [None], so the attribution clauses are not
    generated. *)
Definition _upsert_entity (entity_dict : dict pyval) (main_table : string)
    : M W unit :=
  let columns := keys entity_dict in
  let values := values entity_dict in
  let update_clauses :=
    fold_left
      (fun update_clauses col =>
         if negb (String.eqb col "uuid")
         then update_clauses ++ [SetUnlessLocked col (lock_field_name col)]
         else update_clauses)
      columns [] in
  let update_clauses := update_clauses ++ [SetNow "updated_at"] in
  let query :=
    {| q_table := main_table; q_columns := columns;
       q_conflict := "uuid"; q_set := update_clauses |} in
  perform (conn_execute_upsert query values).

Definition pyval_of_id (v : option Z) : pyval :=
  match v with Some n => PyInt n | None => PyNone end.

Definition _create_main_entity (name : string) (metadata_dict : dict json)
    (foreign_key_ids : dict (option Z)) (main_table : string) : M W unit :=
  let dataset_uuid := generate_dataset_uuid database name foreign_key_ids in
  let entity_dict : dict pyval :=
    [("name", PyStr name); ("metadata", PyMetadata metadata_dict)] in
  let entity_dict :=
    update entity_dict (map (fun kv => (fst kv, pyval_of_id (snd kv))) foreign_key_ids) in
  let entity_dict := set entity_dict "uuid" (PyStr dataset_uuid) in
  entity_dict <- _merge_metadata_with_locked_fields entity_dict main_table ;;
  _upsert_entity entity_dict main_table.

Definition _create_main_entity_with_conflict_resolution (dataset_name : string)
    (metadata_dict : dict json) (foreign_key_ids : dict (option Z))
    (main_table : string) : M W unit :=
  r <- attempt (_create_main_entity dataset_name metadata_dict foreign_key_ids main_table) ;;
  match r with
  | Ok _ => ret tt
  | Raise e =>
      logger ERROR
        ("Failed to create/update entity for " ++ dataset_name ++ ": " ++ exn_msg e)%string ;;;
      reraise e
  end.

Definition _process_single_entity (dataset_data : FccDataset) (idx : Z)
    (main_table : string) (navigation_cache : dict (dict Z)) : M W unit :=
  dataset_name <- _generate_dataset_name dataset_data idx ;;
  logger INFO ("Processing: " ++ dataset_name)%string ;;;
  let foreign_key_ids := _get_foreign_key_ids_from_cache dataset_data navigation_cache in
  let metadata_dict := get_all_metadata dataset_data in
  _create_main_entity_with_conflict_resolution
    dataset_name metadata_dict foreign_key_ids main_table.

Definition _process_single_dataset (dataset_data : FccDataset) (idx : Z)
    (main_table : string) : M W unit :=
  dataset_name <- _generate_dataset_name dataset_data idx ;;
  logger INFO ("Processing: " ++ dataset_name)%string ;;;
  foreign_key_ids <- _create_navigation_entities dataset_data dataset_name ;;
  let metadata_dict := get_all_metadata dataset_data in
  _create_main_entity_with_conflict_resolution
    dataset_name metadata_dict foreign_key_ids main_table.

(** ** Batches *)

Definition _process_batch_all_or_nothing (batch : list FccDataset)
    (batch_indices : list Z) (main_table : string) : M W (Z * Z) :=
  r <- try_transaction
         (navigation_cache <- _preprocess_batch_navigation_entities batch ;;
          forM_
            (fun item =>
               let '(idx, dataset_data) := item in
               _process_single_entity dataset_data idx main_table navigation_cache)
            (combine batch_indices batch)) ;;
  match r with
  | Committed _ => ret (Z.of_nat (length batch), 0)
  | Aborted e | CommitFailed _ e =>
      logger ERROR ("Batch transaction failed: " ++ exn_msg e)%string ;;;
      ret (0, Z.of_nat (length batch))
  end.

Definition _process_batch_individually (batch : list FccDataset)
    (batch_indices : list Z) (main_table : string) : M W (Z * Z) :=
  foldM
    (fun counts item =>
       let '(processed_count, failed_count) := counts in
       let '(idx, dataset_data) := item in
       r <- try_transaction (_process_single_dataset dataset_data idx main_table) ;;
       match r with
       | Committed _ => ret (processed_count + 1, failed_count)
       | Aborted e =>
           logger ERROR
             ("Failed to process dataset at index " ++ PyStr.str_of_int idx ++ ": " ++
              exn_msg e)%string ;;;
           ret (processed_count, failed_count + 1)
       | CommitFailed _ e =>
           logger ERROR
             ("Failed to process dataset at index " ++ PyStr.str_of_int idx ++ ": " ++
              exn_msg e)%string ;;;
           ret (processed_count + 1, failed_count + 1)
       end)
    (combine batch_indices batch) (0, 0).

(** The body of the loop over [range(0, len(datasets), batch_size)]. *)
Definition process_chunk (datasets : list FccDataset) (batch_size : Z)
    (main_table : string) (totals : Z * Z) (batch_start : Z) : M W (Z * Z) :=
  let '(total_processed, total_failed) := totals in
  let len := Z.of_nat (length datasets) in
  let batch_end := Z.min (batch_start + batch_size) len in
  let batch := slice datasets batch_start batch_end in
  let batch_indices := default [] (py_range batch_start batch_end 1) in
  let batch_no := PyStr.str_of_int (batch_start / batch_size + 1) in
  logger INFO
    ("Processing batch " ++ batch_no ++ ": datasets " ++
     PyStr.str_of_int (batch_start + 1) ++ "-" ++ PyStr.str_of_int batch_end ++
     " of " ++ PyStr.str_of_int len)%string ;;;
  first <- _process_batch_all_or_nothing batch batch_indices main_table ;;
  let '(batch_processed, batch_failed) := first in
  counts <-
    (if (0 <? batch_failed) && (batch_processed =? 0) then
       logger WARNING
         ("Batch failed, falling back to individual processing for batch " ++
          batch_no)%string ;;;
       _process_batch_individually batch batch_indices main_table
     else ret (batch_processed, batch_failed)) ;;
  let '(batch_processed, batch_failed) := counts in
  logger INFO
    ("Batch " ++ batch_no ++ " completed: " ++ PyStr.str_of_int batch_processed ++
     " processed, " ++ PyStr.str_of_int batch_failed ++ " failed")%string ;;;
  ret (total_processed + batch_processed, total_failed + batch_failed).

Definition _process_entity_collection_with_recovery
    (collection : DatasetCollection) (main_table : string) : M W (Z * Z) :=
  let batch_size := cfg_batch_size database in
  let datasets := processes collection in
  match py_range 0 (Z.of_nat (length datasets)) batch_size with
  | None => raise ValueError "range() arg 3 must not be zero"
  | Some starts => foldM (process_chunk datasets batch_size main_table) starts (0, 0)
  end.

(** ** The entry point *)

Definition _parse_json_content (json_content : string) : outcome DatasetCollection :=
  let body : outcome DatasetCollection :=
    match json_loads json_content with
    | Raise e => Raise e
    | Ok raw_data =>
        match raw_data with
        | JObj o =>
            match get o "processes" with
            | None =>
                Raise (Exn ValueError
                  "JSON does not contain 'processes' key - skipping incompatible format")
            | Some (JList _) => model_validate raw_data
            | Some _ =>
                Raise (Exn ValueError
                  "'processes' value must be a list - skipping incompatible format")
            end
        | _ => Raise (Exn ValueError "JSON root must be an object")
        end
    end in
  match body with
  | Ok collection => Ok collection
  | Raise e =>
      match exn_kind_of e with
      | JSONDecodeError => Raise (Exn ValueError "Invalid JSON format")
      | _ => Raise (Exn ValueError ("Invalid data format: " ++ exn_msg e)%string)
      end
  end.

Definition _log_import_results (processed_count failed_count : Z) : M W unit :=
  if 0 <? failed_count then
    logger WARNING
      ("Import completed with " ++ PyStr.str_of_int failed_count ++ " failures out of " ++
       PyStr.str_of_int (processed_count + failed_count) ++ " total datasets")%string
  else
    logger INFO
      ("Successfully processed all " ++ PyStr.str_of_int processed_count ++
       " datasets")%string.

(** [total_datasets / 2] is Python's true division; on record counts it is
    the exact quotient, taken here in [Q]. *)
Definition _validate_import_success (processed_count failed_count : Z) : M W unit :=
  let total_datasets := processed_count + failed_count in
  if (0 <? total_datasets) &&
     negb (Qle_bool (inject_Z failed_count) (inject_Z total_datasets / 2)%Q)
  then
    raise RuntimeError
      ("Import failed: " ++ PyStr.str_of_int failed_count ++ "/" ++
       PyStr.str_of_int total_datasets ++ " datasets could not be processed")%string
  else ret tt.

Definition import_data (json_content : string) : M W unit :=
  match _parse_json_content json_content with
  | Raise e =>
      if PyStr.contains "skipping incompatible format" (exn_msg e) then
        logger INFO ("Skipping incompatible JSON format: " ++ exn_msg e)%string
      else reraise e
  | Ok collection =>
      let main_table := cfg_main_table database in
      counts <- _process_entity_collection_with_recovery collection main_table ;;
      let '(processed_count, failed_count) := counts in
      _log_import_results processed_count failed_count ;;;
      _validate_import_success processed_count failed_count ;;;
      logger INFO "Import operation completed successfully"
  end.

End DataImport.

(* ===================================================================== *)
(** * [json_data_parser.py]: field validators, metadata extraction, registry *)
(* ===================================================================== *)

(** [re.sub(r"\s+", " ", s)]: every maximal run of whitespace becomes one
    space.  [in_run] tells that the character before was whitespace. *)
Fixpoint sub_whitespace_from (in_run : bool) (s : string) : string :=
  match s with
  | EmptyString => EmptyString
  | String c rest =>
      if PyStr.isspace c then
        if in_run then sub_whitespace_from true rest
        else String " " (sub_whitespace_from true rest)
      else String c (sub_whitespace_from false rest)
  end.

Definition re_sub_whitespace (s : string) : string := sub_whitespace_from false s.

Section Validators.

(** [str(v)] for a value that is neither [None] nor a string (a number, a
    boolean, a list, an object): the text Python prints for it. *)
Variable py_str : json -> string.

(** [FccDataset.handle_string_fields], the validator in front of the
    string fields. *)
Definition handle_string_fields (v : json) : option string :=
  match v with
  | JNull => None
  | JStr s =>
      if String.eqb s EmptyString || String.eqb (PyStr.strip s) EmptyString then None
      else
        let normalized := re_sub_whitespace (PyStr.strip s) in
        if negb (String.eqb normalized EmptyString) then Some normalized else None
  | _ => Some (py_str v)
  end.

(** [FccDataset.handle_path_field] *)
Definition handle_path_field (v : json) : option string :=
  match v with
  | JNull => None
  | JStr s =>
      if String.eqb s EmptyString || String.eqb (PyStr.strip s) EmptyString then None
      else Some (PyStr.strip s)
  | _ => Some (PyStr.strip (py_str v))
  end.

End Validators.

(** The keys [FccDataset.extract_metadata] leaves to the fields of the
    model. *)
Definition core_fields : list string :=
  [ "process-name"; "n-events"; "path"; "size"; "description"; "comment"; "status";
    "accelerator"; "stage"; "campaign"; "detector"; "file-type" ].

(** [FccDataset.extract_metadata], the model validator that runs before the
    fields are read. *)
Definition extract_metadata (data : json) : json :=
  match data with
  | JObj data =>
      let processed_data := data in
      let raw_metadata :=
        fold_left
          (fun raw_metadata kv =>
             let '(key, value) := kv in
             if negb (existsb (String.eqb key) core_fields) then
               if negb (String.eqb key "files") then set raw_metadata key value
               else raw_metadata
             else raw_metadata)
          data [] in
      JObj (set processed_data "raw_metadata" (JObj raw_metadata))
  | _ => data
  end.

(** [_detect_fcc_format(raw_data)]:
    [["processes" in raw_data and isinstance(raw_data["processes"], list)]].
    On a list or a string the membership test is Python's own (an element
    equal to the key, a substring), and the subscript that follows raises;
    on the other values the membership test raises. *)
Definition _detect_fcc_format (raw_data : json) : outcome bool :=
  match raw_data with
  | JObj o =>
      match get o "processes" with
      | Some (JList _) => Ok true
      | Some _ => Ok false
      | None => Ok false
      end
  | JList l =>
      if existsb (fun x => match x with
                           | JStr s => String.eqb s "processes"
                           | _ => false
                           end) l
      then Raise (Exn TypeError "list indices must be integers or slices, not str")
      else Ok false
  | JStr s =>
      if PyStr.contains "processes" s
      then Raise (Exn TypeError "string indices must be integers, not 'str'")
      else Ok false
  | JNull => Raise (Exn TypeError "argument of type 'NoneType' is not iterable")
  | JBool _ => Raise (Exn TypeError "argument of type 'bool' is not iterable")
  | JInt _ => Raise (Exn TypeError "argument of type 'int' is not iterable")
  | JFloat _ => Raise (Exn TypeError "argument of type 'float' is not iterable")
  end.

(** The classes the module registers when it is loaded. *)
Inductive model_class := FccDataset_class | DatasetCollection_class.

Section Registry.

(** The registered classes, and a detection function as far as the registry
    looks at it: the truth of what it returns, or the exception it raises. *)
Variable C : Type.

Record EntityTypeRegistry := {
  _entity_classes : dict C;
  _collection_classes : dict C;
  _detection_rules : list ((json -> outcome bool) * C)
}.

Definition empty_registry : EntityTypeRegistry :=
  {| _entity_classes := []; _collection_classes := []; _detection_rules := [] |}.

Definition register_entity_class (name : string) (entity_class : C)
    (cls : EntityTypeRegistry) : EntityTypeRegistry :=
  {| _entity_classes := set (_entity_classes cls) name entity_class;
     _collection_classes := _collection_classes cls;
     _detection_rules := _detection_rules cls |}.

Definition register_collection_class (name : string) (collection_class : C)
    (cls : EntityTypeRegistry) : EntityTypeRegistry :=
  {| _entity_classes := _entity_classes cls;
     _collection_classes := set (_collection_classes cls) name collection_class;
     _detection_rules := _detection_rules cls |}.

Definition register_detection_rule (detection_func : json -> outcome bool)
    (collection_class : C) (cls : EntityTypeRegistry) : EntityTypeRegistry :=
  {| _entity_classes := _entity_classes cls;
     _collection_classes := _collection_classes cls;
     _detection_rules := _detection_rules cls ++ [(detection_func, collection_class)] |}.

(** The loop of [detect_collection_class] over the rules. *)
Fixpoint first_match (rules : list ((json -> outcome bool) * C)) (raw_data : json)
    : option C :=
  match rules with
  | [] => None
  | (detection_func, collection_class) :: rest =>
      match detection_func raw_data with
      | Ok true => Some collection_class
      | Ok false => first_match rest raw_data
      | Raise _ => first_match rest raw_data
      end
  end.

Definition detect_collection_class (raw_data : json) (cls : EntityTypeRegistry)
    : option C :=
  first_match (_detection_rules cls) raw_data.

Definition get_entity_class (name : string) (cls : EntityTypeRegistry) : option C :=
  get (_entity_classes cls) name.

Definition get_collection_class (name : string) (cls : EntityTypeRegistry) : option C :=
  get (_collection_classes cls) name.

Definition get_default_collection_class (cls : EntityTypeRegistry) : option C :=
  match _collection_classes cls with
  | [] => None
  | (_, collection_class) :: _ => Some collection_class
  end.

End Registry.

Arguments _entity_classes {C} _.
Arguments _collection_classes {C} _.
Arguments _detection_rules {C} _.
Arguments empty_registry {C}.
Arguments register_entity_class {C} _ _ _.
Arguments register_collection_class {C} _ _ _.
Arguments register_detection_rule {C} _ _ _.
Arguments first_match {C} _ _.
Arguments detect_collection_class {C} _ _.
Arguments get_entity_class {C} _ _.
Arguments get_collection_class {C} _ _.
Arguments get_default_collection_class {C} _.

(** The registry after the module is loaded: the three registrations at its
    end. *)
Definition loaded_registry : EntityTypeRegistry model_class :=
  register_detection_rule _detect_fcc_format DatasetCollection_class
    (register_collection_class "DatasetCollection" DatasetCollection_class
       (register_entity_class "FccDataset" FccDataset_class empty_registry)).

(* ===================================================================== *)
(** * An in-memory relational engine *)
(* ===================================================================== *)

(** A sequential model of the engine behind the connection: reference tables
    with an identifier sequence each, main tables keyed by [uuid], and the
    statements of [data_import.py] executed on them.  The schema (which tables
    exist, their constraints) is data of the model, since the DDL is not part
    of the sources.  A failed statement leaves the tables as they were; the
    engine's refusal of further statements in a failed transaction is not
    modelled. *)
Module Pg.

Inductive sqlval :=
| SqlInt (n : Z)
| SqlText (s : string)
| SqlJsonb (j : json)
| SqlTimestamp (t : Z).

(** A row: the columns that are not NULL. *)
Abbreviation row := (gmap string sqlval).

Record ref_table := {
  t_id_column : string;
  t_next_id : Z;             (** the sequence behind the identifier column *)
  t_rows : list row          (** in insertion order *)
}.

Record world := {
  ref_tables : gmap string ref_table;
  main_tables : gmap string (gmap string row);
  clock : Z;                                   (** [NOW()] *)
  (** CHECK constraint of a main table *)
  main_check : row -> bool;
  (** what schema discovery finds; [None]: discovery raises *)
  navigation_tables : option (dict string);
  (** the readings of the wall clock and of the random source still to come *)
  time_source : list string;
  uuid4_source : list string
}.

Definition with_ref_tables (w : world) (t : gmap string ref_table) : world :=
  {| ref_tables := t; main_tables := main_tables w; clock := clock w;
     main_check := main_check w; navigation_tables := navigation_tables w;
     time_source := time_source w; uuid4_source := uuid4_source w |}.

Definition with_main_tables (w : world) (m : gmap string (gmap string row)) : world :=
  {| ref_tables := ref_tables w; main_tables := m; clock := clock w;
     main_check := main_check w; navigation_tables := navigation_tables w;
     time_source := time_source w; uuid4_source := uuid4_source w |}.

(** ** [ILIKE] *)

Definition lower (c : ascii) : ascii :=
  let n := N_of_ascii c in
  if ((65 <=? n) && (n <=? 90))%N then ascii_of_N (n + 32) else c.

Definition lower_str (s : string) : list ascii :=
  map lower (list_ascii_of_string s).

(** The escape character of [LIKE], the backslash. *)
Definition escape : ascii := ascii_of_N 92.

(** [LIKE] with [%], [_] and the escape character. *)
Fixpoint like (p : list ascii) : list ascii -> bool :=
  match p with
  | [] => fun t => match t with [] => true | _ => false end
  | c :: p' =>
      if Ascii.eqb c "%" then
        fix star (t : list ascii) : bool :=
          like p' t || match t with [] => false | _ :: t' => star t' end
      else if Ascii.eqb c "_" then
        fun t => match t with [] => false | _ :: t' => like p' t' end
      else if Ascii.eqb c escape then
        match p' with
        | [] => fun _ => false
        | c2 :: p'' =>
            fun t => match t with [] => false | x :: t' => Ascii.eqb x c2 && like p'' t' end
        end
      else
        fun t => match t with [] => false | x :: t' => Ascii.eqb x c && like p' t' end
  end.

(** A pattern that ends in an unpaired escape character is an error. *)
Fixpoint ends_with_escape (p : list ascii) : bool :=
  match p with
  | [] => false
  | c :: p' =>
      if Ascii.eqb c escape then
        match p' with [] => true | _ :: p'' => ends_with_escape p'' end
      else ends_with_escape p'
  end.

Definition ilike (text pattern : string) : bool :=
  like (lower_str pattern) (lower_str text).

Definition name_of (r : row) : option string :=
  match r !! "name" with Some (SqlText s) => Some s | _ => None end.

Definition int_of (r : row) (col : string) : option Z :=
  match r !! col with Some (SqlInt n) => Some n | _ => None end.

(** ** Statements on reference tables *)

Definition fetchrow_id (table id_column name : string) (w : world)
    : outcome (option Z) * world :=
  match ref_tables w !! table with
  | None => (Raise (Exn OtherError ("relation does not exist: " ++ table)%string), w)
  | Some t =>
      if negb (String.eqb id_column (t_id_column t)) then
        (Raise (Exn OtherError ("column does not exist: " ++ id_column)%string), w)
      else if ends_with_escape (list_ascii_of_string name) then
        (Raise (Exn OtherError "LIKE pattern must not end with escape character"), w)
      else
        match List.find
                (fun r => match name_of r with Some n => ilike n name | None => false end)
                (t_rows t) with
        | Some r => (Ok (int_of r id_column), w)
        | None => (Ok None, w)
        end
  end.

Definition sql_of (v : pyval) : option sqlval :=
  match v with
  | PyNone => None
  | PyInt n => Some (SqlInt n)
  | PyStr s => Some (SqlText s)
  | PyMetadata d => Some (SqlJsonb (JObj d))
  | PyJsonText d => Some (SqlJsonb (JObj d))
  end.

(** The row a statement proposes: parameters bound to columns, NULLs left out. *)
Definition row_of (columns : list string) (values : list pyval) : row :=
  fold_left
    (fun r cv => match sql_of (snd cv) with
                 | Some v => <[fst cv := v]> r
                 | None => delete (fst cv) r
                 end)
    (combine columns values) ∅.

(** Modelled from the spec: within one reference table the name is unique
    case-insensitively (the unique index behind [UniqueViolationError]). *)
Definition name_taken (t : ref_table) (name : string) : bool :=
  existsb
    (fun r => match name_of r with
              | Some n => if decide (lower_str n = lower_str name) then true else false
              | None => false
              end)
    (t_rows t).

Definition insert_returning (table : string) (data : list (string * pyval))
    (id_column : string) (w : world) : outcome (option Z) * world :=
  match ref_tables w !! table with
  | None => (Raise (Exn OtherError ("relation does not exist: " ++ table)%string), w)
  | Some t =>
      if negb (String.eqb id_column (t_id_column t)) then
        (Raise (Exn OtherError ("column does not exist: " ++ id_column)%string), w)
      else
        let proposed := row_of (map fst data) (map snd data) in
        match name_of proposed with
        | None => (Raise (Exn OtherError "null value in column name"), w)
        | Some name =>
            let id := t_next_id t in
            if name_taken t name then
              (Raise (Exn UniqueViolationError
                        "duplicate key value violates unique constraint"),
               with_ref_tables w
                 (<[table := {| t_id_column := t_id_column t; t_next_id := id + 1;
                                t_rows := t_rows t |}]> (ref_tables w)))
            else
              (Ok (Some id),
               with_ref_tables w
                 (<[table := {| t_id_column := t_id_column t; t_next_id := id + 1;
                                t_rows := t_rows t ++ [<[id_column := SqlInt id]> proposed] |}]>
                    (ref_tables w)))
        end
  end.

(** ** Statements on a main table *)

Definition fetchval_metadata (table : string) (uuid : pyval) (w : world)
    : outcome fetched * world :=
  match main_tables w !! table with
  | None => (Raise (Exn OtherError ("relation does not exist: " ++ table)%string), w)
  | Some rows =>
      match uuid with
      | PyStr u =>
          match rows !! u with
          | Some r =>
              match r !! "metadata" with
              | Some (SqlJsonb j) => (Ok (FetchedText j), w)
              | _ => (Ok FetchedNone, w)
              end
          | None => (Ok FetchedNone, w)
          end
      | _ => (Ok FetchedNone, w)
      end
  end.

(** [COALESCE((t.metadata->'lock_key')::boolean, false)] on the stored row;
    [None] when the cast fails. *)
Definition lock_check (old : row) (lock_key : string) : option bool :=
  match old !! "metadata" with
  | Some (SqlJsonb (JObj o)) =>
      match get o lock_key with
      | None => Some false
      | Some (JBool b) => Some b
      | Some _ => None
      end
  | _ => Some false
  end.

(** The [DO UPDATE SET] list: every right-hand side reads the stored row
    and the proposed one. *)
Fixpoint apply_set (now : Z) (old proposed : row) (clauses : list set_clause)
    (acc : row) : option row :=
  match clauses with
  | [] => Some acc
  | SetUnlessLocked col lock_key :: rest =>
      match lock_check old lock_key with
      | None => None
      | Some true => apply_set now old proposed rest acc
      | Some false =>
          apply_set now old proposed rest
            (match proposed !! col with
             | Some v => <[col := v]> acc
             | None => delete col acc
             end)
      end
  | SetNow col :: rest =>
      apply_set now old proposed rest (<[col := SqlTimestamp now]> acc)
  end.

Definition execute_upsert (query : upsert_query) (values : list pyval) (w : world)
    : outcome unit * world :=
  match main_tables w !! q_table query with
  | None =>
      (Raise (Exn OtherError ("relation does not exist: " ++ q_table query)%string), w)
  | Some rows =>
      let proposed := row_of (q_columns query) values in
      match proposed !! q_conflict query with
      | Some (SqlText u) =>
          if negb (main_check w proposed) then
            (Raise (Exn OtherError "new row violates check constraint"), w)
          else
            match rows !! u with
            | None =>
                (Ok tt, with_main_tables w (<[q_table query := <[u := proposed]> rows]>
                                              (main_tables w)))
            | Some old =>
                match apply_set (clock w) old proposed (q_set query) old with
                | None =>
                    (Raise (Exn OtherError "cannot cast jsonb value to type boolean"), w)
                | Some updated =>
                    if negb (main_check w updated) then
                      (Raise (Exn OtherError "new row violates check constraint"), w)
                    else
                      (Ok tt, with_main_tables w (<[q_table query := <[u := updated]> rows]>
                                                    (main_tables w)))
                end
            end
      | _ => (Raise (Exn OtherError "null value in column uuid"), w)
      end
  end.

(** ** Transactions, discovery, clock and random source *)

Definition begin (w : world) : outcome unit * world :=
  (Ok tt,
   {| ref_tables := ref_tables w; main_tables := main_tables w; clock := clock w + 1;
      main_check := main_check w; navigation_tables := navigation_tables w;
      time_source := time_source w; uuid4_source := uuid4_source w |}).

Definition commit (w : world) : outcome unit * world := (Ok tt, w).

(** The rows go back to what they were; sequences, clock and the consumed
    readings do not. *)
Definition rollback (at_begin reached : world) : world :=
  {| ref_tables :=
       map_imap
         (fun name t =>
            Some {| t_id_column := t_id_column t;
                    t_next_id := match ref_tables reached !! name with
                                 | Some t' => t_next_id t'
                                 | None => t_next_id t
                                 end;
                    t_rows := t_rows t |})
         (ref_tables at_begin);
     main_tables := main_tables at_begin;
     clock := clock reached;
     main_check := main_check reached;
     navigation_tables := navigation_tables reached;
     time_source := time_source reached;
     uuid4_source := uuid4_source reached |}.

Definition discover (main_table : string) (w : world) : outcome (dict string) * world :=
  match navigation_tables w with
  | Some found => (Ok found, w)
  | None => (Raise (Exn OtherError "schema discovery failed"), w)
  end.

Definition now (w : world) : string * world :=
  match time_source w with
  | [] => ("19700101_000000", w)
  | t :: rest =>
      (t, {| ref_tables := ref_tables w; main_tables := main_tables w; clock := clock w;
             main_check := main_check w; navigation_tables := navigation_tables w;
             time_source := rest; uuid4_source := uuid4_source w |})
  end.

Definition random_uuid (w : world) : string * world :=
  match uuid4_source w with
  | [] => ("00000000-0000-4000-8000-000000000000", w)
  | u :: rest =>
      (u, {| ref_tables := ref_tables w; main_tables := main_tables w; clock := clock w;
             main_check := main_check w; navigation_tables := navigation_tables w;
             time_source := time_source w; uuid4_source := rest |})
  end.

End Pg.

#[export] Instance pg_platform : Platform Pg.world := {|
  tx_begin := Pg.begin;
  tx_commit := Pg.commit;
  tx_rollback := Pg.rollback;
  conn_fetchrow_id := Pg.fetchrow_id;
  conn_insert_returning := Pg.insert_returning;
  conn_fetchval_metadata := Pg.fetchval_metadata;
  conn_execute_upsert := Pg.execute_upsert;
  analyze_navigation_structure := Pg.discover;
  datetime_now := Pg.now;
  uuid4 := Pg.random_uuid
|}.

(* ===================================================================== *)
(** * A scripted connection *)
(* ===================================================================== *)

(** A connection that answers each statement with the next reply of a script
    and records what it was asked, the way a test double does.  It shows the
    code under replies a sequential engine does not give: a concurrent
    creator, a failing commit. *)
Module Scripted.

Inductive call :=
| Begin | Commit | Rollback
| Fetchrow (table id_column name : string)
| Insert (table : string) (data : list (string * pyval)) (id_column : string)
| FetchMetadata (table : string) (uuid : pyval)
| Upsert (query : upsert_query) (values : list pyval)
| Discover (main_table : string).

Record world := {
  tx_replies : list (outcome unit);              (** to begin and commit *)
  id_replies : list (outcome (option Z));        (** to lookups and inserts *)
  metadata_replies : list (outcome fetched);
  upsert_replies : list (outcome unit);
  discover_replies : list (outcome (dict string));
  trace : list call                              (** oldest call first *)
}.

Definition next {A} (dflt : A) (l : list A) : A * list A :=
  match l with [] => (dflt, []) | x :: rest => (x, rest) end.

Definition answer_tx (c : call) (w : world) : outcome unit * world :=
  let '(r, rest) := next (Ok tt) (tx_replies w) in
  (r, {| tx_replies := rest; id_replies := id_replies w;
         metadata_replies := metadata_replies w; upsert_replies := upsert_replies w;
         discover_replies := discover_replies w; trace := trace w ++ [c] |}).

Definition answer_id (c : call) (w : world) : outcome (option Z) * world :=
  let '(r, rest) := next (Ok None) (id_replies w) in
  (r, {| tx_replies := tx_replies w; id_replies := rest;
         metadata_replies := metadata_replies w; upsert_replies := upsert_replies w;
         discover_replies := discover_replies w; trace := trace w ++ [c] |}).

Definition answer_metadata (c : call) (w : world) : outcome fetched * world :=
  let '(r, rest) := next (Ok FetchedNone) (metadata_replies w) in
  (r, {| tx_replies := tx_replies w; id_replies := id_replies w;
         metadata_replies := rest; upsert_replies := upsert_replies w;
         discover_replies := discover_replies w; trace := trace w ++ [c] |}).

Definition answer_upsert (c : call) (w : world) : outcome unit * world :=
  let '(r, rest) := next (Ok tt) (upsert_replies w) in
  (r, {| tx_replies := tx_replies w; id_replies := id_replies w;
         metadata_replies := metadata_replies w; upsert_replies := rest;
         discover_replies := discover_replies w; trace := trace w ++ [c] |}).

Definition answer_discover (c : call) (w : world) : outcome (dict string) * world :=
  let '(r, rest) := next (Ok []) (discover_replies w) in
  (r, {| tx_replies := tx_replies w; id_replies := id_replies w;
         metadata_replies := metadata_replies w; upsert_replies := upsert_replies w;
         discover_replies := rest; trace := trace w ++ [c] |}).

Definition rolled_back (at_begin reached : world) : world :=
  {| tx_replies := tx_replies reached; id_replies := id_replies reached;
     metadata_replies := metadata_replies reached;
     upsert_replies := upsert_replies reached;
     discover_replies := discover_replies reached;
     trace := trace reached ++ [Rollback] |}.

Definition idle : world :=
  {| tx_replies := []; id_replies := []; metadata_replies := [];
     upsert_replies := []; discover_replies := []; trace := [] |}.

End Scripted.

#[export] Instance scripted_platform : Platform Scripted.world := {|
  tx_begin := Scripted.answer_tx Scripted.Begin;
  tx_commit := Scripted.answer_tx Scripted.Commit;
  tx_rollback := Scripted.rolled_back;
  conn_fetchrow_id t c n := Scripted.answer_id (Scripted.Fetchrow t c n);
  conn_insert_returning t d c := Scripted.answer_id (Scripted.Insert t d c);
  conn_fetchval_metadata t u := Scripted.answer_metadata (Scripted.FetchMetadata t u);
  conn_execute_upsert q v := Scripted.answer_upsert (Scripted.Upsert q v);
  analyze_navigation_structure t := Scripted.answer_discover (Scripted.Discover t);
  datetime_now w := ("20250101_120000", w);
  uuid4 w := ("12345678-1234-4234-8234-123456789abc", w)
|}.

(* ===================================================================== *)
(** * Sample data *)
(* ===================================================================== *)

Module Sample.

Definition config : Config :=
  {| cfg_entity_uuid_namespace := None;
     cfg_main_table := "datasets";
     cfg_batch_size := 5;
     cfg_navigation_order :=
       Some ["accelerator"; "stage"; "campaign"; "detector"; "file_type"] |}.

Definition empty_ref (id_column : string) : Pg.ref_table :=
  {| Pg.t_id_column := id_column; Pg.t_next_id := 1; Pg.t_rows := [] |}.

(** A database with the five reference tables and an empty main table;
    [check] is the CHECK constraint of the main table. *)
Definition fresh (check : Pg.row -> bool) : Pg.world :=
  {| Pg.ref_tables :=
       list_to_map
         [ ("accelerators", empty_ref "accelerator_id");
           ("stages", empty_ref "stage_id");
           ("campaigns", empty_ref "campaign_id");
           ("detectors", empty_ref "detector_id");
           ("file_types", empty_ref "file_type_id") ];
     Pg.main_tables := {[ "datasets" := ∅ ]};
     Pg.clock := 0;
     Pg.main_check := check;
     Pg.navigation_tables := Some [];
     Pg.time_source := ["20250101_120000"; "20250101_120001"];
     Pg.uuid4_source := ["0a0a0a0a-0000-4000-8000-000000000000";
                         "0b0b0b0b-0000-4000-8000-000000000000"] |}.

Definition no_check : Pg.row -> bool := fun _ => true.

(** The row of a dataset as the import writes it, without foreign keys. *)
Definition dataset_row (u name : string) (metadata : dict json) : Pg.row :=
  {[ "name" := Pg.SqlText name;
     "metadata" := Pg.SqlJsonb (JObj metadata);
     "uuid" := Pg.SqlText u ]}.

(** [fresh check] with one stored dataset. *)
Definition stored (check : Pg.row -> bool) (u name : string) (metadata : dict json)
    : Pg.world :=
  Pg.with_main_tables (fresh check)
    {[ "datasets" := {[ u := dataset_row u name metadata ]} ]}.

Definition dataset (name : option string) (acc det : option string)
    (extra : dict json) : FccDataset :=
  {| process_name := name; n_events := None; path := None; size := None;
     description := None; comment := None; status := None;
     accelerator := acc; stage := None; campaign := None; detector := det;
     file_type := None; raw_metadata := extra |}.

(** ** A decoder for a handful of documents

    [decode] knows the documents below by name and rejects every other
    content the way [json.loads] rejects text that is not JSON; [validate]
    accepts a list of objects and reads the process name, the status and the
    reference names that are strings, keeping the other fields as raw
    metadata. *)

Definition str_field (o : dict json) (key : string) : option string :=
  match get o key with Some (JStr s) => Some s | _ => None end.

Definition core_fields : list string :=
  ["process-name"; "n-events"; "path"; "size"; "description"; "comment"; "status";
   "accelerator"; "stage"; "campaign"; "detector"; "file-type"].

Definition validate_item (item : json) : option FccDataset :=
  match item with
  | JObj o =>
      Some {| process_name := str_field o "process-name"; n_events := None;
              path := str_field o "path"; size := None;
              description := str_field o "description";
              comment := str_field o "comment"; status := str_field o "status";
              accelerator := str_field o "accelerator"; stage := str_field o "stage";
              campaign := str_field o "campaign"; detector := str_field o "detector";
              file_type := str_field o "file-type";
              raw_metadata :=
                List.filter
                  (fun kv => negb (existsb (String.eqb (fst kv)) core_fields)
                             && negb (String.eqb (fst kv) "files")) o |}
  | _ => None
  end.

Fixpoint validate_items (items : list json) : option (list FccDataset) :=
  match items with
  | [] => Some []
  | item :: rest =>
      match validate_item item, validate_items rest with
      | Some d, Some ds => Some (d :: ds)
      | _, _ => None
      end
  end.

Definition validate (raw : json) : outcome DatasetCollection :=
  match raw with
  | JObj o =>
      match get o "processes" with
      | Some (JList items) =>
          match validate_items items with
          | Some ds => Ok {| processes := ds |}
          | None =>
              Raise (Exn ValueError
                "1 validation error for DatasetCollection: Input should be a valid dictionary")
          end
      | _ => Raise (Exn ValueError "1 validation error for DatasetCollection: Field required")
      end
  | _ => Raise (Exn ValueError "1 validation error for DatasetCollection")
  end.

Definition process (name : string) (fields : dict json) : json :=
  JObj (("process-name", JStr name) :: fields).

Definition ten_processes : list json :=
  map (fun n => process ("p" ++ PyStr.str_of_int n)%string [("status", JStr "done")])
      [1; 2; 3; 4; 5; 6; 7; 8; 9; 10].

Definition documents : dict json :=
  [ ("list.json", JList []);
    ("other.json", JObj [("experiments", JList [])]);
    ("scalar.json", JObj [("processes", JInt 1)]);
    ("items.json", JObj [("processes", JList [JInt 1])]);
    ("ten.json", JObj [("processes", JList ten_processes)]);
    ("unnamed.json", JObj [("processes", JList [JObj [("status", JStr "done")]])]) ].

Definition decode (content : string) : outcome json :=
  match get documents content with
  | Some j => Ok j
  | None => Raise (Exn JSONDecodeError "Expecting value: line 1 column 1 (char 0)")
  end.

(** ** A batch with one bad record *)

(** A CHECK constraint that rejects the name [p3]. *)
Definition reject_p3 : Pg.row -> bool :=
  fun r => match Pg.name_of r with
           | Some n => negb (String.eqb n "p3")
           | None => true
           end.

Definition five : list FccDataset :=
  map (fun n => dataset (Some ("p" ++ PyStr.str_of_int n)%string)
                        (Some "FCC-ee") (Some "IDEA") [("status", JStr "done")])
      [1; 2; 3; 4; 5].


(** ** Degraded reference resolution *)



Definition p1 : FccDataset :=
  dataset (Some "p1") (Some "FCC-ee") (Some "IDEA") [("status", JStr "done")].



(** The foreign keys of a record when nothing could be resolved, as the batch
    path writes them. *)
Definition all_null : dict (option Z) :=
  [("accelerator_id", None); ("stage_id", None); ("campaign_id", None);
   ("detector_id", None); ("file_type_id", None)].

(** ** Locked records *)

(** The identifier of the dataset [p1] without foreign keys. *)
Definition p1_uuid : string := generate_dataset_uuid config "p1" [].


(** [p1] stored with a locked status. *)
Definition status_locked : Pg.world :=
  stored no_check p1_uuid "p1" [("__status__lock__", JBool true); ("status", JStr "A")].

(** The same, with the metadata column locked as a whole. *)
Definition metadata_locked : Pg.world :=
  stored no_check p1_uuid "p1"
    [("__metadata__lock__", JBool true); ("__status__lock__", JBool true);
     ("status", JStr "A")].

(** ** Scripts for the scripted connection *)

Definition scripted (ids : list (outcome (option Z))) : Scripted.world :=
  {| Scripted.tx_replies := []; Scripted.id_replies := ids;
     Scripted.metadata_replies := []; Scripted.upsert_replies := [];
     Scripted.discover_replies := []; Scripted.trace := [] |}.


(** the lookup finds the row *)
Definition found : Scripted.world := scripted [Ok (Some 7)].

End Sample.

#[export] Instance sample_codec : Codec := {|
  json_loads := Sample.decode;
  model_validate := Sample.validate
|}.

(* ===================================================================== *)
(** * Notions used in the statements *)
(* ===================================================================== *)

(** The parts the loop of [generate_dataset_uuid] appends for the keys [ks]. *)
Definition rendered_parts (fks : dict (option Z)) (ks : list string) : list string :=
  map (fun key => match default None (get fks key) with
                  | Some n => PyStr.str_of_int n
                  | None => "0"
                  end) ks.

(** An empty value: the empty string, null, or the empty list. *)
Definition is_empty_value (v : json) : bool :=
  match v with
  | JStr s => String.eqb s EmptyString
  | JNull => true
  | JList [] => true
  | _ => false
  end.

(** The field [key] is locked in [existing]: its control key holds a value
    that Python takes as true. *)
Definition locked (existing : dict json) (key : string) : bool :=
  truthy (default (JBool false) (get existing (lock_field_name key))).

(** Running a computation from a platform state with an empty log. *)
Definition run {W A} (m : M W A) (w : W) : outcome A * (W * list log_entry) :=
  m (w, []).

(** What the statements of [_get_or_create_entity] are called with. *)
Definition id_column_of (table_name : string) : string :=
  (PyStr.rstrip_chars "s" table_name ++ "_id")%string.

Definition insert_data (name : string) (accelerator_id : option Z)
    : list (string * pyval) :=
  ("name", PyStr name) ::
  match accelerator_id with
  | Some a => [("accelerator_id", PyInt a)]
  | None => []
  end.

(** Counts are not negative. *)
Definition nonneg (counts : Z * Z) : Prop := 0 <= fst counts /\ 0 <= snd counts.

(** What one record adds to the counts of the individual pass. *)
Definition processed_by {A} (r : tx_outcome A) : Z :=
  match r with Committed _ | CommitFailed _ _ => 1 | Aborted _ => 0 end.

Definition failed_by {A} (r : tx_outcome A) : Z :=
  match r with Committed _ => 0 | Aborted _ | CommitFailed _ _ => 1 end.

(** The log record of a failed individual attempt, if it failed. *)
Definition failure_log {A} (idx : Z) (r : tx_outcome A) : list log_entry :=
  match r with
  | Committed _ => []
  | Aborted e | CommitFailed _ e =>
      [(ERROR, ("Failed to process dataset at index " ++ PyStr.str_of_int idx ++ ": " ++
                exn_msg e)%string)]
  end.

(** The log records of [process_chunk]. *)
Definition batch_number (batch_start batch_size : Z) : string :=
  PyStr.str_of_int (batch_start / batch_size + 1).

Definition chunk_started (datasets : list FccDataset) (batch_start batch_size : Z)
    : log_entry :=
  (INFO,
   ("Processing batch " ++ batch_number batch_start batch_size ++ ": datasets " ++
    PyStr.str_of_int (batch_start + 1) ++ "-" ++
    PyStr.str_of_int (Z.min (batch_start + batch_size) (Z.of_nat (length datasets))) ++
    " of " ++ PyStr.str_of_int (Z.of_nat (length datasets)))%string).

Definition fallback_started (batch_start batch_size : Z) : log_entry :=
  (WARNING,
   ("Batch failed, falling back to individual processing for batch " ++
    batch_number batch_start batch_size)%string).

Definition chunk_completed (batch_start batch_size processed failed : Z) : log_entry :=
  (INFO,
   ("Batch " ++ batch_number batch_start batch_size ++ " completed: " ++
    PyStr.str_of_int processed ++ " processed, " ++ PyStr.str_of_int failed ++
    " failed")%string).

(** The records and the indices of the chunk that starts at [batch_start]. *)
Definition chunk_of (datasets : list FccDataset) (batch_start batch_size : Z)
    : list FccDataset :=
  slice datasets batch_start
        (Z.min (batch_start + batch_size) (Z.of_nat (length datasets))).

Definition chunk_indices (datasets : list FccDataset) (batch_start batch_size : Z)
    : list Z :=
  default []
    (py_range batch_start
              (Z.min (batch_start + batch_size) (Z.of_nat (length datasets))) 1).

(** The rows of a reference table of the engine. *)
Definition ref_rows (w : Pg.world) (table : string) : option (list Pg.row) :=
  Pg.t_rows <$> Pg.ref_tables w !! table.

(** The dependent field a detector is created with: the accelerator resolved
    before it for the same record, when there is one. *)
Definition dependent_accelerator (entity_key : string) (foreign_key_ids : dict (option Z))
    : option Z :=
  let accelerator_id := default None (get foreign_key_ids "accelerator_id") in
  if String.eqb entity_key "detector" &&
     match accelerator_id with Some a => negb (a =? 0) | None => false end
  then accelerator_id else None.

(** The warning of [_create_navigation_entities] for the exception [e]. *)
Definition resolution_warning (dataset_name : string) (e : exn) : log_entry :=
  (WARNING,
   ("Could not create navigation entities for " ++ dataset_name ++ ": " ++
    exn_msg e ++ ". " ++
    "Will store dataset with null foreign key references.")%string).

(** The [accelerator_id] column of the rows of the table of detectors. *)
Definition detector_accelerators (w : Pg.world) : option (list (option Pg.sqlval)) :=
  (fun rows => map (fun r : Pg.row => r !! "accelerator_id") rows)
    <$> ref_rows w "detectors".

(** ** Stored records and single imports on the engine *)

(** The rows of the main table [t]. *)
Definition main_rows (w : Pg.world) (t : string) : gmap string Pg.row :=
  default ∅ (Pg.main_tables w !! t).

(** The metadata object stored under the identifier [u]. *)
Definition stored_metadata (w : Pg.world) (t u : string) : option (dict json) :=
  match main_rows w t !! u with
  | Some r =>
      match r !! "metadata" with
      | Some (Pg.SqlJsonb (JObj d)) => Some d
      | _ => None
      end
  | None => None
  end.

(** The stored value of a metadata field. *)
Definition stored_field (w : Pg.world) (t u field : string) : option json :=
  match stored_metadata w t u with
  | Some d => get d field
  | None => None
  end.

(** One record of an automated import that targets the identity
    [(name, fks)], in a transaction of its own: the state it leaves. *)
Definition import_entity (config : Config) (name : string) (fks : dict (option Z))
    (t : string) (metadata : dict json) (w : Pg.world) : Pg.world :=
  fst (snd (try_transaction
              (_create_main_entity_with_conflict_resolution config name metadata fks t)
              (w, []))).

(** A sequence of such imports, oldest first. *)
Definition import_sequence (config : Config) (name : string) (fks : dict (option Z))
    (t : string) (imports : list (dict json)) (w : Pg.world) : Pg.world :=
  fold_left (fun w metadata => import_entity config name fks t metadata w) imports w.

(** The import does not unset the lock of [field]: it leaves the control key
    out, or gives it a true value. *)
Definition keeps_lock (field : string) (new : dict json) : Prop :=
  match get new (lock_field_name field) with
  | Some v => truthy v = true
  | None => True
  end.

(** Foreign-key columns carry the suffix the code gives them. *)
Definition fk_columns (fks : dict (option Z)) : Prop :=
  Forall (fun k => PyStr.endswith k "_id" = true) (keys fks).

(** The [entity_dict] of [_create_main_entity] before the merge. *)
Definition entity_dict_of (config : Config) (name : string) (metadata : pyval)
    (fks : dict (option Z)) : dict pyval :=
  set (update [("name", PyStr name); ("metadata", metadata)]
              (map (fun kv => (fst kv, pyval_of_id (snd kv))) fks))
      "uuid" (PyStr (generate_dataset_uuid config name fks)).

(** No column of the upsert is locked in the stored metadata [d]. *)
Definition columns_unlocked (d : dict json) (fks : dict (option Z)) : Prop :=
  forall column,
    In column ("name" :: "metadata" :: keys fks) ->
    get d (lock_field_name column) = None.

(** The SET list [_upsert_entity] generates for the columns [columns]. *)
Definition update_clauses (columns : list string) : list set_clause :=
  fold_left
    (fun update_clauses col =>
       if negb (String.eqb col "uuid")
       then update_clauses ++ [SetUnlessLocked col (lock_field_name col)]
       else update_clauses)
    columns [] ++ [SetNow "updated_at"].

(** The [entity_dict] after the merge with the stored metadata [existing]. *)
Definition merged_entity_dict (config : Config) (name : string)
    (existing metadata : dict json) (fks : dict (option Z)) : dict pyval :=
  set (entity_dict_of config name (PyMetadata metadata) fks) "metadata"
      (PyJsonText (_filter_empty_metadata_values
                     (_merge_metadata_respecting_locks existing metadata))).

(** The row the upsert proposes for it. *)
Definition proposed_row (config : Config) (name : string)
    (existing metadata : dict json) (fks : dict (option Z)) : Pg.row :=
  let entity_dict := merged_entity_dict config name existing metadata fks in
  Pg.row_of (keys entity_dict) (values entity_dict).

(** The record stored under [u] holds [value] for [field], under a lock. *)
Definition record_locked (w : Pg.world) (t u field : string) (value : option json)
    : Prop :=
  exists d,
    stored_metadata w t u = Some d /\ wf d /\ locked d field = true
    /\ get d field = value.

(** The state an import of [json_content] leaves. *)
Definition imported (config : Config) (json_content : string) (w : Pg.world) : Pg.world :=
  fst (snd (import_data config json_content (w, []))).

(** The number of rows of the main table [t]. *)
Definition row_count (w : Pg.world) (t : string) : nat := base.size (main_rows w t).

(** The record carries a non-empty process name. *)
Definition named (dataset_data : FccDataset) : bool :=
  match process_name dataset_data with
  | Some dataset_name => negb (String.eqb dataset_name EmptyString)
  | None => false
  end.



(** The loop over the records of a batch in [_process_batch_all_or_nothing],
    given the resolved references. *)
Definition batch_loop (config : Config) (main_table : string)
    (navigation_cache : dict (dict Z)) (items : list (Z * FccDataset))
    : M Pg.world unit :=
  forM_
    (fun item =>
       let '(idx, dataset_data) := item in
       _process_single_entity config dataset_data idx main_table navigation_cache)
    items.

(** ** Notions used for the further properties *)

(** What a pass may report for [n] records: neither count above [n], the two
    together at least [n], and exactly [n] where commits do not raise. *)
Definition accounts_for {W : Type} `{Platform W} (n : nat) (counts : Z * Z) : Prop :=
  0 <= fst counts <= Z.of_nat n /\ 0 <= snd counts <= Z.of_nat n
  /\ Z.of_nat n <= fst counts + snd counts
  /\ ((forall w, exists w', tx_commit w = (Ok tt, w')) ->
      fst counts + snd counts = Z.of_nat n).

(** The identifier the batch cache holds for the reference of a record in
    the category [entity_key], if any. *)
Definition cached_id (dataset_data : FccDataset) (navigation_cache : dict (dict Z))
    (entity_key : string) : option Z :=
  match get navigation_cache entity_key with
  | Some by_name =>
      match _get_entity_name_for_dataset dataset_data entity_key with
      | Some entity_name => get by_name entity_name
      | None => None
      end
  | None => None
  end.

(** A configuration with another chunk size. *)
Definition with_batch_size (config : Config) (batch_size : Z) : Config :=
  {| cfg_entity_uuid_namespace := cfg_entity_uuid_namespace config;
     cfg_main_table := cfg_main_table config;
     cfg_batch_size := batch_size;
     cfg_navigation_order := cfg_navigation_order config |}.

(** The metadata entry [get_all_metadata] derives from a core field of the
    record, by metadata key. *)
Definition core_metadata_field (self : FccDataset) (key : string) : option json :=
  if String.eqb key "n-events" then JInt <$> n_events self
  else if String.eqb key "path" then JStr <$> path self
  else if String.eqb key "size" then JInt <$> size self
  else if String.eqb key "description" then JStr <$> description self
  else if String.eqb key "comment" then JStr <$> comment self
  else if String.eqb key "status" then JStr <$> status self
  else None.

(** The metadata stored after [new] is imported over [existing]. *)
Definition stored_after (existing new : dict json) : dict json :=
  _filter_empty_metadata_values (_merge_metadata_respecting_locks existing new).

(** No entry of the metadata holds an empty value. *)
Definition no_empty_values (d : dict json) : Prop :=
  Forall (fun kv => is_empty_value (snd kv) = false) d.

(** Every metadata object stored in the main table [t] is free of empty
    values. *)
Definition table_clean (w : Pg.world) (t : string) : Prop :=
  forall u d, stored_metadata w t u = Some d -> no_empty_values d.

(** The [ERROR] record of [_create_main_entity_with_conflict_resolution]. *)
Definition creation_error (dataset_name : string) (e : exn) : log_entry :=
  (ERROR,
   ("Failed to create/update entity for " ++ dataset_name ++ ": " ++ exn_msg e)%string).

(** A lower-case hexadecimal digit. *)
Definition is_hex_digit (c : ascii) : bool :=
  existsb (Ascii.eqb c) (list_ascii_of_string "0123456789abcdef").

(** The last character of a string. *)
Fixpoint last_char (s : string) : option ascii :=
  match s with
  | EmptyString => None
  | String c EmptyString => Some c
  | String _ rest => last_char rest
  end.

(** A string that neither starts nor ends with whitespace. *)
Definition trimmed (s : string) : Prop :=
  match s with
  | EmptyString => True
  | String c _ =>
      PyStr.isspace c = false
      /\ exists z, last_char s = Some z /\ PyStr.isspace z = false
  end.

(** The name [n] is among the names collected for the category [k]. *)
Definition collected (unique_entities : dict (list string)) (k n : string) : Prop :=
  exists names, get unique_entities k = Some names /\ In n names.

(** The cache holds an identifier for the name [n] of the category [k]. *)
Definition cached (navigation_cache : dict (dict Z)) (k n : string) : Prop :=
  exists by_name id, get navigation_cache k = Some by_name /\ get by_name n = Some id.

(* ===================================================================== *)
(** * Properties *)
(* ===================================================================== *)

(** ** Dictionaries *)

Module PyDictFacts.

Section Facts.
Context {V : Type}.
Implicit Types (d : dict V) (k : string) (v : V).

Lemma get_set_eq d k v : get (set d k v) k = Some v.
Proof.
  induction d as [|[k' v'] d IH]; simpl.
  - by rewrite String.eqb_refl.
  - destruct (String.eqb k' k) eqn:E; simpl; rewrite E; [done | apply IH].
Qed.

Lemma get_set_ne d k k' v : k <> k' -> get (set d k v) k' = get d k'.
Proof.
  intros Hne. induction d as [|[k0 v0] d IH]; simpl.
  - destruct (String.eqb_spec k k'); [contradiction | done].
  - destruct (String.eqb_spec k0 k) as [->|Hk]; simpl.
    + destruct (String.eqb_spec k k'); [contradiction | done].
    + destruct (String.eqb_spec k0 k'); [done | apply IH].
Qed.

Lemma get_None d k : get d k = None <-> ~ In k (keys d).
Proof.
  induction d as [|[k' v'] d IH]; simpl; [tauto|].
  destruct (String.eqb_spec k' k) as [->|Hk]; [split; [discriminate | tauto]|].
  rewrite IH. tauto.
Qed.

Lemma get_Some_In d k v : get d k = Some v -> In (k, v) d.
Proof.
  induction d as [|[k' v'] d IH]; simpl; [discriminate|].
  destruct (String.eqb_spec k' k) as [->|Hk]; [intros [= ->]; by left | auto].
Qed.

Lemma get_In d k v : wf d -> In (k, v) d -> get d k = Some v.
Proof.
  unfold wf. induction d as [|[k' v'] d IH]; simpl; [tauto|].
  intros Hnd [[= -> ->]|Hin].
  - by rewrite String.eqb_refl.
  - apply NoDup_cons in Hnd as [Hk' Hnd].
    destruct (String.eqb_spec k' k) as [->|Hk]; [|auto].
    exfalso. apply Hk'. apply list_elem_of_In.
    change k with (fst (k, v)). by apply in_map.
Qed.

Lemma keys_set d k v :
  keys (set d k v) = if mem d k then keys d else keys d ++ [k].
Proof.
  unfold mem. induction d as [|[k' v'] d IH]; simpl; [done|].
  destruct (String.eqb_spec k' k) as [->|Hk]; simpl; [done|].
  rewrite IH. by destruct (get d k).
Qed.

Lemma wf_set d k v : wf d -> wf (set d k v).
Proof.
  unfold wf. rewrite keys_set. unfold mem.
  destruct (get d k) eqn:E; [done|].
  intros Hnd. apply NoDup_app. split; [done|]. split.
  - intros x Hx ->%list_elem_of_singleton.
    apply get_None in E. apply E. by apply list_elem_of_In.
  - apply NoDup_singleton.
Qed.

Lemma wf_nil : wf (@nil (string * V)).
Proof. apply NoDup_nil_2. Qed.

Lemma wf_filter_values (p : V -> bool) d : wf d -> wf (filter_values p d).
Proof.
  unfold wf, filter_values, keys. induction d as [|[k v] d IH]; simpl; [done|].
  intros [Hk Hnd]%NoDup_cons. destruct (p v); simpl; [|auto].
  apply NoDup_cons. split; [|auto].
  intros Hin. apply Hk. apply list_elem_of_In in Hin. apply list_elem_of_In.
  apply in_map_iff in Hin as [[k' v'] [Hfst Hin]]. simpl in Hfst. subst k'.
  apply filter_In in Hin as [Hin _].
  change k with (fst (k, v')). by apply in_map.
Qed.

Lemma get_filter_values (p : V -> bool) d k :
  wf d ->
  get (filter_values p d) k =
  match get d k with
  | Some v => if p v then Some v else None
  | None => None
  end.
Proof.
  unfold wf, filter_values. induction d as [|[k' v'] d IH]; simpl; [done|].
  intros [Hk Hnd]%NoDup_cons.
  destruct (String.eqb_spec k' k) as [->|Hne].
  - destruct (p v') eqn:Ep; simpl; [by rewrite String.eqb_refl|].
    rewrite IH by done.
    assert (get d k = None) as ->; [|done].
    apply get_None. intros Hin. apply Hk. by apply list_elem_of_In.
  - destruct (p v'); simpl; [|auto].
    destruct (String.eqb_spec k' k); [contradiction | auto].
Qed.

(** Two dictionaries with the same items in another order answer every
    lookup alike. *)
Lemma get_Permutation d d' k : wf d -> d ≡ₚ d' -> get d k = get d' k.
Proof.
  intros Hwf Hperm.
  assert (wf d') as Hwf'.
  { unfold wf, keys in *. by rewrite <- Hperm. }
  destruct (get d k) as [v|] eqn:E.
  - symmetry. apply get_In; [done|].
    apply list_elem_of_In. rewrite <- Hperm. apply list_elem_of_In.
    by apply get_Some_In.
  - symmetry. apply get_None. apply get_None in E.
    intros Hin. apply E. apply list_elem_of_In. unfold keys.
    rewrite Hperm. by apply list_elem_of_In.
Qed.

End Facts.

End PyDictFacts.

Import PyDictFacts.

(** ** Identifier derivation *)

Section UuidFacts.

Lemma fold_left_snoc_map {A B} (f : A -> B) (l : list A) (acc : list B) :
  fold_left (fun parts x => parts ++ [f x]) l acc = acc ++ map f l.
Proof.
  revert acc. induction l as [|x l IH]; intros acc; simpl.
  - by rewrite app_nil_r.
  - rewrite IH. by rewrite <- app_assoc.
Qed.

#[local] Instance key_le_trans : Transitive CanonicalSpec.key_le.
Proof. intros a b c. unfold CanonicalSpec.key_le. apply transitivity. Qed.

#[local] Instance key_le_total : Total CanonicalSpec.key_le.
Proof. intros a b. unfold CanonicalSpec.key_le. apply total, _. Qed.

Lemma StronglySorted_keys (es : dict (option Z)) :
  StronglySorted CanonicalSpec.key_le es -> StronglySorted String.le (keys es).
Proof.
  induction 1 as [|kv es Hs IH Hall]; simpl; constructor; [done|].
  apply Forall_forall. intros k Hk.
  apply list_elem_of_In, in_map_iff in Hk as [kv' [<- Hin]].
  rewrite Forall_forall in Hall. apply Hall. by apply list_elem_of_In.
Qed.

(** Sorting the keys and sorting the entries by key visit the keys in the
    same order. *)
Lemma sorted_keys_entries (fks : dict (option Z)) :
  sorted (keys fks) = keys (CanonicalSpec.entries_sorted_by_key fks).
Proof.
  unfold sorted, CanonicalSpec.entries_sorted_by_key.
  apply (StronglySorted_unique String.le).
  - apply StronglySorted_merge_sort; apply _.
  - apply StronglySorted_keys, StronglySorted_merge_sort; apply _.
  - rewrite merge_sort_Permutation. unfold keys.
    by rewrite (merge_sort_Permutation CanonicalSpec.key_le).
Qed.

Lemma sorted_Permutation (l l' : list string) : l ≡ₚ l' -> sorted l = sorted l'.
Proof.
  intros Hp. unfold sorted. apply (StronglySorted_unique String.le).
  - apply StronglySorted_merge_sort; apply _.
  - apply StronglySorted_merge_sort; apply _.
  - by rewrite !merge_sort_Permutation.
Qed.

Lemma generate_dataset_uuid_eq (config : Config) (name : string) (fks : dict (option Z)) :
  generate_dataset_uuid config name fks =
  Uuid.to_str (Uuid.uuid5 (ENTITY_UUID_NAMESPACE config)
    (name ++ "," ++ PyStr.join "," (rendered_parts fks (sorted (keys fks))))%string).
Proof.
  unfold generate_dataset_uuid, rendered_parts.
  rewrite fold_left_snoc_map. reflexivity.
Qed.

(** The rendered parts depend on the dictionary through its lookups only. *)
Lemma uuid_ext (config : Config) (name : string) (fks fks' : dict (option Z)) :
  keys fks ≡ₚ keys fks' ->
  (forall k, get fks k = get fks' k) ->
  generate_dataset_uuid config name fks = generate_dataset_uuid config name fks'.
Proof.
  intros Hkeys Hget. rewrite !generate_dataset_uuid_eq.
  rewrite (sorted_Permutation _ _ Hkeys).
  assert (rendered_parts fks (sorted (keys fks')) =
          rendered_parts fks' (sorted (keys fks'))) as ->; [|reflexivity].
  apply map_ext. intros k. rewrite Hget. reflexivity.
Qed.

Lemma rendered_parts_entries (fks : dict (option Z)) :
  wf fks ->
  rendered_parts fks (sorted (keys fks)) =
  map (fun kv => CanonicalSpec.render (snd kv)) (CanonicalSpec.entries_sorted_by_key fks).
Proof.
  intros Hwf. rewrite sorted_keys_entries. unfold rendered_parts, keys.
  rewrite map_map. apply map_ext_in. intros [k v] Hin. simpl.
  assert (get fks k = Some v) as ->; [|reflexivity].
  apply get_In; [exact Hwf|].
  apply list_elem_of_In. apply list_elem_of_In in Hin.
  unfold CanonicalSpec.entries_sorted_by_key in Hin.
  rewrite merge_sort_Permutation in Hin. exact Hin.
Qed.

End UuidFacts.

(** C1.  For every dataset name and every mapping of foreign-key names to
    integers or null, [generate_dataset_uuid] is the UUID5 hash, under the
    namespace fixed by the configured version string, of the canonical
    string: entries sorted by key name, each value in decimal or ["0"] for
    null, joined with commas, after the dataset name and a comma.  The result
    is a function of the name and the mapping alone, so deriving twice gives
    the same identifier; it does not change when the mapping is iterated in
    another order, nor between two dictionaries that hold the same entries. *)
Theorem generate_dataset_uuid_canonical
    (config : Config) (name : string) (fks : dict (option Z)) :
  wf fks ->
  generate_dataset_uuid config name fks =
    Uuid.to_str (Uuid.uuid5 (ENTITY_UUID_NAMESPACE config)
                            (CanonicalSpec.canonical_string name fks))
  /\ (forall fks', fks' ≡ₚ fks ->
        generate_dataset_uuid config name fks' = generate_dataset_uuid config name fks)
  /\ (forall fks', keys fks' ≡ₚ keys fks ->
        (forall k, get fks' k = get fks k) ->
        generate_dataset_uuid config name fks' = generate_dataset_uuid config name fks).
Proof.
  intros Hwf. split; [|split].
  - rewrite generate_dataset_uuid_eq. unfold CanonicalSpec.canonical_string.
    rewrite (rendered_parts_entries fks Hwf). reflexivity.
  - intros fks' Hp. apply uuid_ext.
    + unfold keys. rewrite Hp. reflexivity.
    + intros k. symmetry. apply get_Permutation; [exact Hwf | symmetry; exact Hp].
  - intros fks' Hk Hg. apply uuid_ext; assumption.
Qed.

Lemma generate_dataset_uuid_canonical_witness :
  let fks := [("campaign_id", Some 1); ("detector_id", None); ("accelerator_id", Some 2)] in
  wf fks /\
  generate_dataset_uuid Sample.config "my_dataset" fks =
    Uuid.to_str (Uuid.uuid5 (ENTITY_UUID_NAMESPACE Sample.config) "my_dataset,2,1,0").
Proof.
  intros fks.
  assert (wf fks) as Hwf.
  { apply NoDup_ListNoDup. repeat constructor; simpl; intuition discriminate. }
  split; [exact Hwf|].
  destruct (generate_dataset_uuid_canonical Sample.config "my_dataset" fks Hwf) as [-> _].
  assert (CanonicalSpec.canonical_string "my_dataset" fks = "my_dataset,2,1,0") as ->
    by (vm_compute; reflexivity).
  reflexivity.
Defined.

(** ** The metadata merge policy *)

Section MergeFacts.

Lemma keep_is_nonempty (v : json) :
  negb (eq_empty_str v) && negb (is_none v) && negb (eq_empty_list v)
  = negb (is_empty_value v).
Proof. destruct v as [| | | | |[|]|]; simpl; try reflexivity; by destruct (String.eqb _ _). Qed.

(** One pass of the merge loop over [items], started from [merged]. *)
Lemma merge_loop_get (existing items merged : dict json) (key : string) :
  wf items ->
  get (fold_left
         (fun merged_metadata kv =>
            let '(key, value) := kv in
            if is_lock_key key then set merged_metadata key value
            else
              let is_locked :=
                default (JBool false) (get existing (lock_field_name key)) in
              if negb (truthy is_locked) then set merged_metadata key value
              else merged_metadata)
         items merged) key =
  match get items key with
  | Some value =>
      if is_lock_key key then Some value
      else if locked existing key then get merged key else Some value
  | None => get merged key
  end.
Proof.
  unfold wf. revert merged.
  induction items as [|[k0 v0] items IH]; intros merged Hnd; [reflexivity|].
  apply NoDup_cons in Hnd as [Hk0 Hnd]. simpl fold_left. rewrite IH by exact Hnd.
  simpl get. destruct (String.eqb_spec k0 key) as [->|Hne].
  - assert (get items key = None) as ->.
    { apply get_None. intros Hin. apply Hk0. by apply list_elem_of_In. }
    unfold locked. destruct (is_lock_key key); [apply get_set_eq|].
    destruct (truthy _); simpl; [reflexivity | apply get_set_eq].
  - assert (forall m, get (if is_lock_key k0 then set m k0 v0
                          else if negb (truthy (default (JBool false)
                                          (get existing (lock_field_name k0))))
                               then set m k0 v0 else m) key = get m key) as Hstep.
    { intros m. destruct (is_lock_key k0); [by apply get_set_ne|].
      destruct (negb _); [by apply get_set_ne | reflexivity]. }
    rewrite Hstep. reflexivity.
Qed.

Lemma merge_wf (existing new : dict json) :
  wf existing -> wf (_merge_metadata_respecting_locks existing new).
Proof.
  unfold _merge_metadata_respecting_locks.
  generalize existing at 1 3 as merged. 
  induction new as [|[k v] new IH]; intros merged Hwf; [exact Hwf|].
  simpl. apply IH. destruct (is_lock_key k); [by apply wf_set|].
  destruct (negb _); [by apply wf_set | exact Hwf].
Qed.

Lemma locked_true (existing : dict json) (key : string) :
  get existing (lock_field_name key) = Some (JBool true) -> locked existing key = true.
Proof. unfold locked. by intros ->. Qed.

Lemma locked_absent (existing : dict json) (key : string) :
  get existing (lock_field_name key) = None -> locked existing key = false.
Proof. unfold locked. by intros ->. Qed.

End MergeFacts.

(** C2.  The merge starts from the existing mapping.  A key of the new
    mapping that is itself a lock-control key is always applied; any other key
    is applied exactly when the existing metadata holds no true value under
    its control key, and otherwise the existing entry (or its absence) stays.
    Keys the new mapping does not mention keep their existing entry.  The
    import stores the merged mapping with every empty string, null and empty
    list removed, and when no record exists yet it stores the new mapping with
    that filter alone. *)
Theorem merge_metadata_policy {W : Type} `{Platform W}
    (existing new : dict json) (entity_dict : dict pyval) (main_table : string)
    (w w' v v' : W) (l : list log_entry) :
  wf existing ->
  wf new ->
  get entity_dict "metadata" = Some (PyMetadata new) ->
  conn_fetchval_metadata main_table (default PyNone (get entity_dict "uuid")) w
    = (Ok (FetchedText (JObj existing)), w') ->
  conn_fetchval_metadata main_table (default PyNone (get entity_dict "uuid")) v
    = (Ok FetchedNone, v') ->
  let merged := _merge_metadata_respecting_locks existing new in
  (forall key,
     get merged key =
     match get new key with
     | Some value =>
         if is_lock_key key then Some value
         else if locked existing key then get existing key else Some value
     | None => get existing key
     end)
  /\ (forall key,
        get (_filter_empty_metadata_values merged) key =
        match get merged key with
        | Some value => if is_empty_value value then None else Some value
        | None => None
        end)
  /\ _merge_metadata_with_locked_fields entity_dict main_table (w, l) =
       (Ok (set entity_dict "metadata"
              (PyJsonText (_filter_empty_metadata_values merged))), (w', l))
  /\ _merge_metadata_with_locked_fields entity_dict main_table (v, l) =
       (Ok (set entity_dict "metadata"
              (PyJsonText (_filter_empty_metadata_values new))), (v', l))
  /\ (forall key,
        get (_filter_empty_metadata_values new) key =
        match get new key with
        | Some value => if is_empty_value value then None else Some value
        | None => None
        end).
Proof.
  intros Hex Hnew Hmd Hfetch Hnone merged.
  assert (forall d key, wf d ->
            get (_filter_empty_metadata_values d) key =
            match get d key with
            | Some value => if is_empty_value value then None else Some value
            | None => None
            end) as Hfilter.
  { intros d key Hd. unfold _filter_empty_metadata_values.
    rewrite get_filter_values by exact Hd.
    destruct (get d key) as [value|]; [|reflexivity].
    rewrite keep_is_nonempty. by destruct (is_empty_value value). }
  repeat split.
  - intros key. apply merge_loop_get. exact Hnew.
  - intros key. apply Hfilter. apply merge_wf. exact Hex.
  - unfold _merge_metadata_with_locked_fields, bind, perform. rewrite Hmd, Hfetch.
    reflexivity.
  - unfold _merge_metadata_with_locked_fields, bind, perform. rewrite Hmd, Hnone.
    reflexivity.
  - intros key. apply Hfilter. exact Hnew.
Qed.

Ltac solve_wf := unfold wf; apply (bool_decide_unpack _); vm_compute; exact I.

Lemma merge_metadata_policy_witness :
  let existing := [("__status__lock__", JBool true); ("status", JStr "A")] in
  let new := [("status", JStr "B"); ("comment", JStr EmptyString); ("tags", JList []);
              ("note", JNull); ("size", JInt 10); ("__size__lock__", JBool true)] in
  let entity_dict := [("name", PyStr "p1"); ("metadata", PyMetadata new);
                      ("uuid", PyStr "u1")] in
  let w := Sample.stored Sample.no_check "u1" "p1" existing in
  _merge_metadata_with_locked_fields entity_dict "datasets" (w, []) =
    (Ok [("name", PyStr "p1");
         ("metadata", PyJsonText [("__status__lock__", JBool true); ("status", JStr "A");
                                  ("size", JInt 10); ("__size__lock__", JBool true)]);
         ("uuid", PyStr "u1")], (w, [])).
Proof.
  intros existing new entity_dict w.
  assert (wf existing) as H1 by solve_wf.
  assert (wf new) as H2 by solve_wf.
  destruct (merge_metadata_policy existing new entity_dict "datasets"
              w w (Sample.fresh Sample.no_check) (Sample.fresh Sample.no_check) []
              H1 H2 eq_refl) as (_ & _ & -> & _).
  - vm_compute. reflexivity.
  - vm_compute. reflexivity.
  - vm_compute. reflexivity.
Defined.

(** ** The effect monad *)

Section MonadFacts.
Context {W : Type}.

Lemma bind_ok {A B} (m : M W A) (k : A -> M W B) st a st' :
  m st = (Ok a, st') -> bind m k st = k a st'.
Proof. unfold bind. by intros ->. Qed.

Lemma bind_raise {A B} (m : M W A) (k : A -> M W B) st e st' :
  m st = (Raise e, st') -> bind m k st = (Raise e, st').
Proof. unfold bind. by intros ->. Qed.

Lemma bind_inv_ok {A B} (m : M W A) (k : A -> M W B) st b st' :
  bind m k st = (Ok b, st') ->
  exists a st1, m st = (Ok a, st1) /\ k a st1 = (Ok b, st').
Proof.
  unfold bind. destruct (m st) as [[a|e] st1]; [eauto | discriminate].
Qed.

Lemma bind_assoc {A B C} (m : M W A) (k1 : A -> M W B) (k2 : B -> M W C) st :
  bind (bind m k1) k2 st = bind m (fun x => bind (k1 x) k2) st.
Proof. unfold bind. destruct (m st) as [[a|e] st']; reflexivity. Qed.

Lemma bind_ret {A B} (a : A) (k : A -> M W B) st : bind (ret a) k st = k a st.
Proof. reflexivity. Qed.

Lemma bind_logger {B} lvl msg (k : unit -> M W B) (w : W) l :
  bind (logger lvl msg) k (w, l) = k tt (w, l ++ [(lvl, msg)]).
Proof. reflexivity. Qed.

Lemma logger_eq lvl msg (w : W) l :
  logger lvl msg (w, l) = (Ok tt, (w, l ++ [(lvl, msg)])).
Proof. reflexivity. Qed.

(** A loop whose body never raises never raises, and keeps what its body
    keeps. *)
Lemma foldM_total {A B} (P : B -> Prop) (f : B -> A -> M W B) (l : list A) :
  (forall b x st, P b -> exists b' st', f b x st = (Ok b', st') /\ P b') ->
  forall b st, P b -> exists b' st', foldM f l b st = (Ok b', st') /\ P b'.
Proof.
  intros Hf. induction l as [|x l IH]; intros b st Hb; simpl.
  - exists b, st. by split.
  - destruct (Hf b x st Hb) as (b1 & st1 & E & Hb1).
    rewrite (bind_ok _ _ _ _ _ E). by apply IH.
Qed.

Lemma foldM_invariant {A B} (P : B -> Prop) (f : B -> A -> M W B) (l : list A) :
  (forall b x st b' st', P b -> f b x st = (Ok b', st') -> P b') ->
  forall b st b' st', P b -> foldM f l b st = (Ok b', st') -> P b'.
Proof.
  intros Hf. induction l as [|x l IH]; intros b st b' st' Hb; simpl.
  - by intros [= <- <-].
  - intros (b1 & st1 & E1 & E2)%bind_inv_ok. eauto.
Qed.

End MonadFacts.

(** ** The success threshold *)

Section ThresholdFacts.

Lemma half_le (failed total : Z) :
  Qle_bool (inject_Z failed) (inject_Z total / 2)%Q = (2 * failed <=? total).
Proof.
  apply eq_true_iff_eq. rewrite Qle_bool_iff, Z.leb_le.
  unfold Qle, Qdiv, Qmult, Qinv, inject_Z. simpl. lia.
Qed.

Lemma validate_eq {W : Type} (processed failed : Z) (st : W * list log_entry) :
  0 <= processed -> 0 <= failed ->
  _validate_import_success processed failed st =
  if processed + failed <? 2 * failed then
    (Raise (Exn RuntimeError
       ("Import failed: " ++ PyStr.str_of_int failed ++ "/" ++
        PyStr.str_of_int (processed + failed) ++
        " datasets could not be processed")%string), st)
  else (Ok tt, st).
Proof.
  intros Hp Hf. unfold _validate_import_success. rewrite half_le.
  destruct (Z.ltb_spec (processed + failed) (2 * failed)) as [Hlt|Hge].
  - assert ((0 <? processed + failed) = true) as -> by (apply Z.ltb_lt; lia).
    assert ((2 * failed <=? processed + failed) = false) as -> by (apply Z.leb_gt; lia).
    reflexivity.
  - assert ((2 * failed <=? processed + failed) = true) as -> by (apply Z.leb_le; lia).
    by rewrite andb_false_r.
Qed.

End ThresholdFacts.

(** ** Batches *)

Section BatchFacts.
Context {W : Type} `{Platform W}.
Variable database : Config.

Lemma try_transaction_total {A} (body : M W A) st :
  exists r st', try_transaction body st = (Ok r, st').
Proof.
  destruct st as [w l]. unfold try_transaction.
  destruct (tx_begin w) as [[[]|e] w1]; [|eauto].
  destruct (body (w1, l)) as [[a|e] [w2 l2]]; [|eauto].
  destruct (tx_commit w2) as [[[]|e] w3]; eauto.
Qed.

Lemma all_or_nothing_cases (batch : list FccDataset) (batch_indices : list Z)
    (main_table : string) st :
  exists st',
    _process_batch_all_or_nothing database batch batch_indices main_table st
      = (Ok (Z.of_nat (length batch), 0), st')
    \/ _process_batch_all_or_nothing database batch batch_indices main_table st
      = (Ok (0, Z.of_nat (length batch)), st').
Proof.
  unfold _process_batch_all_or_nothing.
  destruct (try_transaction_total
              (navigation_cache <- _preprocess_batch_navigation_entities database batch ;;
               forM_ (fun item => let '(idx, dataset_data) := item in
                        _process_single_entity database dataset_data idx main_table
                          navigation_cache)
                     (combine batch_indices batch)) st) as (r & [w l] & E).
  rewrite (bind_ok _ _ _ _ _ E). destruct r as [a|e|a e]; simpl; eauto.
Qed.

Lemma individually_total (batch : list FccDataset) (batch_indices : list Z)
    (main_table : string) st :
  exists counts st',
    _process_batch_individually database batch batch_indices main_table st
      = (Ok counts, st') /\ nonneg counts.
Proof.
  unfold _process_batch_individually. apply foldM_total; [|split; simpl; lia].
  intros [p f] [idx d] st0 [Hp Hf]. simpl in Hp, Hf.
  destruct (try_transaction_total (_process_single_dataset database d idx main_table) st0)
    as (r & [w l] & E).
  rewrite (bind_ok _ _ _ _ _ E).
  destruct r as [a|e|a e]; simpl; eexists _, _; (split; [reflexivity|]);
    split; simpl; lia.
Qed.

Lemma process_chunk_total (datasets : list FccDataset) (batch_size : Z)
    (main_table : string) (totals : Z * Z) (batch_start : Z) st :
  nonneg totals ->
  exists totals' st',
    process_chunk database datasets batch_size main_table totals batch_start st
      = (Ok totals', st') /\ nonneg totals'.
Proof.
  destruct totals as [tp tf]. intros [Hp Hf]. simpl in Hp, Hf.
  destruct st as [w l]. unfold process_chunk.
  rewrite (bind_ok _ _ _ _ _ (logger_eq _ _ _ _)).
  match goal with
  | |- context [_process_batch_all_or_nothing database ?b ?i ?t] =>
      destruct (all_or_nothing_cases b i t (w, l ++ [(INFO,
        ("Processing batch " ++ PyStr.str_of_int (batch_start / batch_size + 1) ++
         ": datasets " ++ PyStr.str_of_int (batch_start + 1) ++ "-" ++
         PyStr.str_of_int (Z.min (batch_start + batch_size) (Z.of_nat (length datasets))) ++
         " of " ++ PyStr.str_of_int (Z.of_nat (length datasets)))%string)]))
        as ([w1 l1] & [E|E]);
      rewrite (bind_ok _ _ _ _ _ E); set (n := Z.of_nat (length b)) in *
  end.
  - assert (((0 <? 0) && (n =? 0)) = false) as -> by reflexivity.
    simpl. eexists _, _. split; [reflexivity|]. split; simpl; lia.
  - destruct ((0 <? n) && (0 =? 0)) eqn:Efb.
    + rewrite bind_assoc, (bind_ok _ _ _ _ _ (logger_eq _ _ _ _)).
      match goal with
      | |- context [_process_batch_individually database ?b ?i ?t] =>
          destruct (individually_total b i t
                      (w1, l1 ++ [(WARNING,
                         ("Batch failed, falling back to individual processing for batch " ++
                          PyStr.str_of_int (batch_start / batch_size + 1))%string)]))
            as ([p f] & [w2 l2] & E2 & [Hp2 Hf2])
      end.
      simpl in Hp2, Hf2. rewrite (bind_ok _ _ _ _ _ E2). simpl.
      eexists _, _. split; [reflexivity|]. split; simpl; lia.
    + simpl. eexists _, _. split; [reflexivity|]. split; simpl; lia.
Qed.

(** With a chunk size other than zero the loop over the chunks runs to its
    end and returns counts. *)
Lemma collection_total (collection : DatasetCollection) (main_table : string) st :
  cfg_batch_size database <> 0 ->
  exists counts st',
    _process_entity_collection_with_recovery database collection main_table st
      = (Ok counts, st') /\ nonneg counts.
Proof.
  intros Hbs. unfold _process_entity_collection_with_recovery, py_range.
  destruct (Z.eqb_spec (cfg_batch_size database) 0) as [|_]; [contradiction|].
  apply foldM_total; [|split; simpl; lia].
  intros b x st0 Hb. by apply process_chunk_total.
Qed.

Lemma collection_nonneg (collection : DatasetCollection) (main_table : string)
    st counts st' :
  _process_entity_collection_with_recovery database collection main_table st
    = (Ok counts, st') -> nonneg counts.
Proof.
  unfold _process_entity_collection_with_recovery.
  destruct (py_range _ _ _) as [starts|]; [|discriminate].
  apply foldM_invariant; [|split; simpl; lia].
  intros b x st0 b' st0' Hb E.
  destruct (process_chunk_total (processes collection) (cfg_batch_size database)
              main_table b x st0 Hb) as (b1 & st1 & E1 & Hb1).
  rewrite E in E1. by injection E1 as <- <-.
Qed.

End BatchFacts.

(** ** The entry point *)

(** C5.  With a chunk size other than zero, an import whose input parses
    processes every chunk and obtains the counts; only then does it decide:
    it raises a [RuntimeError] exactly when the failed records are strictly
    more than half of all attempted records (processed + failed).  Six
    failures out of ten raise, five out of ten do not.  Raising leaves the
    platform in the state the chunks left it in: what was committed stays. *)
Theorem import_threshold {W : Type} `{Platform W} `{Codec}
    (database : Config) (json_content : string) (collection : DatasetCollection)
    (st : W * list log_entry) :
  _parse_json_content json_content = Ok collection ->
  cfg_batch_size database <> 0 ->
  (exists processed failed st1 r l2,
     _process_entity_collection_with_recovery database collection
       (cfg_main_table database) st = (Ok (processed, failed), st1)
     /\ 0 <= processed /\ 0 <= failed
     /\ import_data database json_content st = (r, (fst st1, l2))
     /\ ((exists e, r = Raise e /\ exn_kind_of e = RuntimeError)
           <-> processed + failed < 2 * failed)
     /\ (r = Ok tt <-> 2 * failed <= processed + failed))
  /\ (exists e, _validate_import_success 4 6 st = (Raise e, st)
                /\ exn_kind_of e = RuntimeError)
  /\ _validate_import_success 5 5 st = (Ok tt, st).
Proof.
  intros Hparse Hbs. split; [|split].
  - destruct (collection_total database collection (cfg_main_table database) st Hbs)
      as ([p f] & [w1 l1] & E & [Hp Hf]).
    simpl in Hp, Hf. unfold import_data. rewrite Hparse.
    rewrite (bind_ok _ _ _ _ _ E).
    assert (exists l2, _log_import_results p f (w1, l1) = (Ok tt, (w1, l2))) as [l2 Elog].
    { unfold _log_import_results. destruct (0 <? f); eexists; apply logger_eq. }
    rewrite (bind_ok _ _ _ _ _ Elog).
    unfold bind at 1. rewrite (validate_eq p f (w1, l2) Hp Hf).
    destruct (Z.ltb_spec (p + f) (2 * f)) as [Hlt|Hge].
    + eexists p, f, (w1, l1), _, l2.
      split; [exact E|]. split; [exact Hp|]. split; [exact Hf|].
      split; [reflexivity|]. split; split.
      * intros _. exact Hlt.
      * intros _. eexists. split; reflexivity.
      * intros [=].
      * lia.
    + rewrite logger_eq.
      eexists p, f, (w1, l1), (Ok tt), _.
      split; [exact E|]. split; [exact Hp|]. split; [exact Hf|].
      split; [reflexivity|]. split; split.
      * intros (e & [=] & _).
      * lia.
      * intros _. exact Hge.
      * reflexivity.
  - rewrite (validate_eq 4 6 st) by lia. simpl. eexists. split; reflexivity.
  - rewrite (validate_eq 5 5 st) by lia. reflexivity.
Qed.

(** C8.  Input that is not a recognized collection makes the entry point raise
    a [ValueError] before anything is processed: text that is not JSON, a JSON
    root that is not an object, an object whose records do not validate.  An
    object without a [processes] list is skipped instead: the import logs the
    fact and returns normally.  In none of these cases is a record processed,
    counted or stored: the platform state is the one the import started in. *)
Theorem import_format_rejection {W : Type} `{Platform W} `{Codec}
    (database : Config) (bad not_object no_key not_list invalid : string)
    (raw value : json) (o o' o'' : dict json) (items : list json) (e e' : exn)
    (st : W * list log_entry) :
  json_loads bad = Raise e -> exn_kind_of e = JSONDecodeError ->
  json_loads not_object = Ok raw -> (forall d, raw <> JObj d) ->
  json_loads no_key = Ok (JObj o) -> get o "processes" = None ->
  json_loads not_list = Ok (JObj o') -> get o' "processes" = Some value ->
  (forall l, value <> JList l) ->
  json_loads invalid = Ok (JObj o'') -> get o'' "processes" = Some (JList items) ->
  model_validate (JObj o'') = Raise e' -> exn_kind_of e' <> JSONDecodeError ->
  PyStr.contains "skipping incompatible format"
    ("Invalid data format: " ++ exn_msg e')%string = false ->
  import_data database bad st = (Raise (Exn ValueError "Invalid JSON format"), st)
  /\ import_data database not_object st =
       (Raise (Exn ValueError "Invalid data format: JSON root must be an object"), st)
  /\ import_data database invalid st =
       (Raise (Exn ValueError ("Invalid data format: " ++ exn_msg e')%string), st)
  /\ import_data database no_key st =
       (Ok tt,
        (fst st,
         snd st ++
         [(INFO, "Skipping incompatible JSON format: Invalid data format: JSON does not contain 'processes' key - skipping incompatible format")]))
  /\ import_data database not_list st =
       (Ok tt,
        (fst st,
         snd st ++
         [(INFO, "Skipping incompatible JSON format: Invalid data format: 'processes' value must be a list - skipping incompatible format")])).
Proof.
  intros Hbad Hkind Hraw Hnot Hobj Hnone Hobj' Hval Hnl Hinv Hitems Hmv Hkind' Hphrase.
  destruct st as [w l]. repeat split.
  - unfold import_data, _parse_json_content. rewrite Hbad, Hkind. reflexivity.
  - unfold import_data, _parse_json_content. rewrite Hraw.
    destruct raw; try reflexivity. exfalso. by eapply Hnot.
  - unfold import_data, _parse_json_content. rewrite Hinv, Hitems, Hmv.
    destruct (exn_kind_of e') eqn:Ek; simpl in Hphrase |- *;
      try (rewrite Hphrase; reflexivity).
    congruence.
  - unfold import_data, _parse_json_content. rewrite Hobj, Hnone. reflexivity.
  - unfold import_data, _parse_json_content. rewrite Hobj', Hval.
    destruct value; try reflexivity. exfalso. by eapply Hnl.
Qed.

Lemma import_threshold_witness :
  cfg_batch_size Sample.config <> 0 /\
  exists processed failed st1 r l2,
    _process_entity_collection_with_recovery Sample.config
      {| processes := default [] (Sample.validate_items Sample.ten_processes) |}
      "datasets" (Sample.fresh Sample.no_check, []) = (Ok (processed, failed), st1)
    /\ import_data Sample.config "ten.json" (Sample.fresh Sample.no_check, [])
       = (r, (fst st1, l2))
    /\ (r = Ok tt <-> 2 * failed <= processed + failed).
Proof.
  assert (cfg_batch_size Sample.config <> 0) as Hbs by discriminate.
  split; [exact Hbs|].
  assert (_parse_json_content "ten.json" =
          Ok {| processes := default [] (Sample.validate_items Sample.ten_processes) |})
    as Hparse by (vm_compute; reflexivity).
  destruct (import_threshold (W:=Pg.world) Sample.config "ten.json" _
              (Sample.fresh Sample.no_check, []) Hparse Hbs)
    as [(p & f & st1 & r & l2 & E & _ & _ & Ei & _ & Hr) _].
  exists p, f, st1, r, l2. split; [exact E|]. split; [exact Ei | exact Hr].
Defined.

Lemma import_format_rejection_witness :
  import_data Sample.config "nonsense" (Sample.fresh Sample.no_check, []) =
    (Raise (Exn ValueError "Invalid JSON format"), (Sample.fresh Sample.no_check, []))
  /\ import_data Sample.config "other.json" (Sample.fresh Sample.no_check, []) =
    (Ok tt,
     (Sample.fresh Sample.no_check,
      [(INFO, "Skipping incompatible JSON format: Invalid data format: JSON does not contain 'processes' key - skipping incompatible format")])).
Proof.
  destruct (import_format_rejection (W:=Pg.world) Sample.config
              "nonsense" "list.json" "other.json" "scalar.json" "items.json"
              (JList []) (JInt 1) [("experiments", JList [])] [("processes", JInt 1)]
              [("processes", JList [JInt 1])] [JInt 1]
              (Exn JSONDecodeError "Expecting value: line 1 column 1 (char 0)")
              (Exn ValueError
                 "1 validation error for DatasetCollection: Input should be a valid dictionary")
              (Sample.fresh Sample.no_check, []))
    as (Ha & _ & _ & Hb & _);
    try reflexivity; try discriminate.
  split; [exact Ha | exact Hb].
Defined.

(** ** Reference entities *)

Section GetOrCreateFacts.
Context {W : Type} `{Platform W}.

Lemma get_or_create_unfold (table_name name : string) (accelerator_id : option Z)
    (w : W) (l : list log_entry) :
  name <> EmptyString ->
  _get_or_create_entity table_name name accelerator_id (w, l) =
  match conn_fetchrow_id table_name (id_column_of table_name) name w with
  | (Raise e, w1) => (Raise e, (w1, l))
  | (Ok (Some id), w1) => (Ok id, (w1, l))
  | (Ok None, w1) =>
      match conn_insert_returning table_name (insert_data name accelerator_id)
              (id_column_of table_name) w1 with
      | (Ok (Some id), w2) => (Ok id, (w2, l))
      | (Ok None, w2) =>
          (Raise (Exn RuntimeError
                    ("Failed to create entity in " ++ table_name ++
                     " with name " ++ name)%string), (w2, l))
      | (Raise e, w2) =>
          match exn_kind_of e with
          | UniqueViolationError =>
              match conn_fetchrow_id table_name (id_column_of table_name) name w2 with
              | (Raise e', w3) => (Raise e', (w3, l))
              | (Ok (Some id), w3) => (Ok id, (w3, l))
              | (Ok None, w3) =>
                  (Raise (Exn RuntimeError
                            ("Failed to create or find entity in " ++ table_name ++
                             " with name " ++ name)%string), (w3, l))
              end
          | _ => (Raise e, (w2, l))
          end
      end
  end.
Proof.
  intros Hname. unfold _get_or_create_entity.
  destruct (String.eqb_spec name EmptyString) as [|_]; [contradiction|].
  fold (id_column_of table_name). fold (insert_data name accelerator_id).
  unfold bind, perform, attempt, ret, raise, reraise.
  destruct (conn_fetchrow_id table_name (id_column_of table_name) name w)
    as [[[id|]|e] w1]; try reflexivity.
  destruct (conn_insert_returning table_name (insert_data name accelerator_id)
              (id_column_of table_name) w1) as [[[id|]|e] w2]; try reflexivity.
  destruct (exn_kind_of e); try reflexivity.
  destruct (conn_fetchrow_id table_name (id_column_of table_name) name w2)
    as [[[id|]|e'] w3]; reflexivity.
Qed.

End GetOrCreateFacts.




(** ** Batch attempt and individual fallback *)

Section FallbackFacts.
Context {W : Type} `{Platform W}.
Variable database : Config.

(** A loop over counts whose body adds to them can be started anywhere. *)
Lemma foldM_shift {A} (f : Z * Z -> A -> M W (Z * Z)) :
  (forall p0 f0 x st,
     f (p0, f0) x st =
     match f (0, 0) x st with
     | (Ok (p, q), st') => (Ok (p0 + p, f0 + q), st')
     | (Raise e, st') => (Raise e, st')
     end) ->
  forall l p0 f0 st,
    foldM f l (p0, f0) st =
    match foldM f l (0, 0) st with
    | (Ok (p, q), st') => (Ok (p0 + p, f0 + q), st')
    | (Raise e, st') => (Raise e, st')
    end.
Proof.
  intros Hf l. induction l as [|x l IH]; intros p0 f0 st; simpl.
  - unfold ret. rewrite !Z.add_0_r. reflexivity.
  - unfold bind. rewrite (Hf p0 f0).
    destruct (f (0, 0) x st) as [[[p q]|e] st1]; [|reflexivity].
    rewrite (IH (p0 + p) (f0 + q)), (IH p q).
    destruct (foldM f l (0, 0) st1) as [[[p' q']|e] st2]; [|reflexivity].
    rewrite !Z.add_assoc. reflexivity.
Qed.

(** The individual pass, record by record: the record runs in a transaction
    of its own; whatever its outcome, the pass goes on with the records that
    follow. *)
Lemma individually_cons (main_table : string) (d : FccDataset) (idx : Z)
    (batch : list FccDataset) (batch_indices : list Z) st :
  _process_batch_individually database (d :: batch) (idx :: batch_indices) main_table st =
  match try_transaction (_process_single_dataset database d idx main_table) st with
  | (Ok r, (w, l)) =>
      match _process_batch_individually database batch batch_indices main_table
              (w, l ++ failure_log idx r) with
      | (Ok (p, f), st') => (Ok (processed_by r + p, failed_by r + f), st')
      | (Raise e, st') => (Raise e, st')
      end
  | (Raise e, st') => (Raise e, st')
  end.
Proof.
  unfold _process_batch_individually. cbn [combine foldM].
  destruct (try_transaction_total (_process_single_dataset database d idx main_table) st)
    as (r & [w l] & E).
  rewrite bind_assoc, (bind_ok _ _ _ _ _ E), E.
  match goal with |- context [foldM ?f _ _ _] => set (step := f) end.
  assert (forall p0 f0 x st0,
            step (p0, f0) x st0 =
            match step (0, 0) x st0 with
            | (Ok (p, q), st') => (Ok (p0 + p, f0 + q), st')
            | (Raise e, st') => (Raise e, st')
            end) as Hstep.
  { intros p0 f0 [i x] st0. unfold step.
    destruct (try_transaction_total (_process_single_dataset database x i main_table) st0)
      as (r0 & [w0 l0] & E0).
    rewrite !(bind_ok _ _ _ _ _ E0).
    destruct r0; unfold bind, ret, logger; cbn; rewrite ?Z.add_0_r, ?Z.add_0_l;
      reflexivity. }
  destruct r as [a|e|a e]; simpl failure_log; simpl processed_by; simpl failed_by.
  - rewrite bind_ret, app_nil_r.
    rewrite (foldM_shift step Hstep _ (0 + 1) 0). reflexivity.
  - rewrite bind_assoc, bind_logger, bind_ret.
    rewrite (foldM_shift step Hstep _ 0 (0 + 1)). reflexivity.
  - rewrite bind_assoc, bind_logger, bind_ret.
    rewrite (foldM_shift step Hstep _ (0 + 1) (0 + 1)). reflexivity.
Qed.

Lemma process_chunk_eq (datasets : list FccDataset) (batch_size : Z)
    (main_table : string) (tp tf batch_start : Z) (w : W) (l : list log_entry) :
  process_chunk database datasets batch_size main_table (tp, tf) batch_start (w, l) =
  match _process_batch_all_or_nothing database
          (chunk_of datasets batch_start batch_size)
          (chunk_indices datasets batch_start batch_size) main_table
          (w, l ++ [chunk_started datasets batch_start batch_size]) with
  | (Ok (batch_processed, batch_failed), (w1, l1)) =>
      if (0 <? batch_failed) && (batch_processed =? 0) then
        match _process_batch_individually database
                (chunk_of datasets batch_start batch_size)
                (chunk_indices datasets batch_start batch_size) main_table
                (w1, l1 ++ [fallback_started batch_start batch_size]) with
        | (Ok (p, f), (w2, l2)) =>
            (Ok (tp + p, tf + f),
             (w2, l2 ++ [chunk_completed batch_start batch_size p f]))
        | (Raise e, st') => (Raise e, st')
        end
      else
        (Ok (tp + batch_processed, tf + batch_failed),
         (w1, l1 ++ [chunk_completed batch_start batch_size batch_processed batch_failed]))
  | (Raise e, st') => (Raise e, st')
  end.
Proof.
  unfold process_chunk. rewrite bind_logger.
  fold (chunk_of datasets batch_start batch_size).
  fold (chunk_indices datasets batch_start batch_size).
  fold (batch_number batch_start batch_size).
  change (INFO, _) with (chunk_started datasets batch_start batch_size) at 1.
  unfold bind at 1.
  destruct (_process_batch_all_or_nothing _ _ _ _ _) as [[[bp bf]|e] [w1 l1]];
    [|reflexivity].
  destruct ((0 <? bf) && (bp =? 0)).
  - rewrite bind_assoc, bind_logger. unfold bind at 1.
    change (WARNING, _) with (fallback_started batch_start batch_size).
    destruct (_process_batch_individually _ _ _ _ _) as [[[p f]|e] [w2 l2]];
      reflexivity.
  - reflexivity.
Qed.

End FallbackFacts.




(** ** Degraded reference resolution *)

Section ResolutionFacts.
Context {W : Type} `{Platform W}.
Variable database : Config.



Lemma create_navigation_loop_eq (dataset_name : string) (dataset_data : FccDataset)
    (entity_key : string) (info : entity_info) (rest : dict entity_info)
    (foreign_key_ids : dict (option Z)) st :
  create_navigation_loop dataset_name dataset_data ((entity_key, info) :: rest)
    foreign_key_ids st =
  match entity_name_of dataset_data (field_name info) with
  | None => create_navigation_loop dataset_name dataset_data rest foreign_key_ids st
  | Some entity_name =>
      match _get_or_create_entity (table_name info) entity_name
              (dependent_accelerator entity_key foreign_key_ids) st with
      | (Ok id, st1) =>
          create_navigation_loop dataset_name dataset_data rest
            (set foreign_key_ids (foreign_key_column info) (Some id)) st1
      | (Raise e, (w1, l1)) =>
          (Ok foreign_key_ids, (w1, l1 ++ [resolution_warning dataset_name e]))
      end
  end.
Proof.
  cbn [create_navigation_loop].
  destruct (entity_name_of dataset_data (field_name info)) as [entity_name|];
    [|reflexivity].
  fold (dependent_accelerator entity_key foreign_key_ids).
  unfold bind at 1, attempt at 1.
  destruct (_get_or_create_entity _ _ _ st) as [[id|e] [w1 l1]]; reflexivity.
Qed.

Lemma create_navigation_loop_total (dataset_name : string) (dataset_data : FccDataset)
    (items : dict entity_info) :
  forall foreign_key_ids st,
  exists fks st',
    create_navigation_loop dataset_name dataset_data items foreign_key_ids st
      = (Ok fks, st').
Proof.
  induction items as [|[entity_key info] rest IH]; intros fks st.
  - cbn. unfold ret. eauto.
  - rewrite create_navigation_loop_eq.
    destruct (entity_name_of dataset_data (field_name info)); [|apply IH].
    destruct (_get_or_create_entity _ _ _ st) as [[id|e] [w1 l1]]; [apply IH | eauto].
Qed.




End ResolutionFacts.



(** C10.  The batch path resolves each distinct name of the batch once per
    category: five records that share one accelerator and one detector cause
    one lookup and one insert for each.  But it creates the detector from its
    name alone, whereas the individual path passes the identifier of the
    accelerator resolved for the record: on the engine the detector row
    created by the batch path has a null [accelerator_id], the one created by
    the individual path has the accelerator's identifier. *)
Theorem batch_resolution_omits_accelerator :
  (let after :=
     _preprocess_batch_navigation_entities Sample.config Sample.five
       (Sample.scripted [Ok None; Ok (Some 7); Ok None; Ok (Some 3)], []) in
   fst after = Ok [("accelerator", [("FCC-ee", 7)]); ("detector", [("IDEA", 3)])]
   /\ Scripted.trace (fst (snd after)) =
        [Scripted.Discover "datasets";
         Scripted.Fetchrow "accelerators" "accelerator_id" "FCC-ee";
         Scripted.Insert "accelerators" [("name", PyStr "FCC-ee")] "accelerator_id";
         Scripted.Fetchrow "detectors" "detector_id" "IDEA";
         Scripted.Insert "detectors" [("name", PyStr "IDEA")] "detector_id"])
  /\ (let after :=
        _create_navigation_entities Sample.config Sample.p1 "p1"
          (Sample.scripted [Ok None; Ok (Some 7); Ok None; Ok (Some 3)], []) in
      Scripted.trace (fst (snd after)) =
        [Scripted.Discover "datasets";
         Scripted.Fetchrow "accelerators" "accelerator_id" "FCC-ee";
         Scripted.Insert "accelerators" [("name", PyStr "FCC-ee")] "accelerator_id";
         Scripted.Fetchrow "detectors" "detector_id" "IDEA";
         Scripted.Insert "detectors"
           [("name", PyStr "IDEA"); ("accelerator_id", PyInt 7)] "detector_id"])
  /\ detector_accelerators
       (fst (snd (_preprocess_batch_navigation_entities Sample.config [Sample.p1]
                    (Sample.fresh Sample.no_check, [])))) = Some [None]
  /\ detector_accelerators
       (fst (snd (_create_navigation_entities Sample.config Sample.p1 "p1"
                    (Sample.fresh Sample.no_check, [])))) = Some [Some (Pg.SqlInt 1)].
Proof.
  cbv zeta. repeat split; vm_compute; reflexivity.
Qed.

(** ** The upsert on the engine *)

Section EngineFacts.

Lemma combine_keys_values {V} (d : dict V) : combine (keys d) (values d) = d.
Proof.
  unfold keys, values. induction d as [|[k v] d IH]; simpl; [reflexivity | by rewrite IH].
Qed.

Lemma row_of_fold (d : dict pyval) (acc : Pg.row) (c : string) :
  wf d ->
  fold_left
    (fun r cv => match Pg.sql_of (snd cv) with
                 | Some v => <[fst cv := v]> r
                 | None => delete (fst cv) r
                 end) d acc !! c =
  match get d c with
  | Some v => Pg.sql_of v
  | None => acc !! c
  end.
Proof.
  unfold wf. revert acc. induction d as [|[k v] d IH]; intros acc Hnd; [reflexivity|].
  apply NoDup_cons in Hnd as [Hk Hnd]. simpl fold_left. rewrite IH by exact Hnd.
  simpl get. destruct (String.eqb_spec k c) as [->|Hne].
  - assert (get d c = None) as ->.
    { apply get_None. intros Hin. apply Hk. by apply list_elem_of_In. }
    destruct (Pg.sql_of v); [by rewrite lookup_insert_eq | by rewrite lookup_delete_eq].
  - destruct (get d c); [reflexivity|].
    destruct (Pg.sql_of v); [by rewrite lookup_insert_ne | by rewrite lookup_delete_ne].
Qed.

Lemma row_of_lookup (d : dict pyval) (c : string) :
  wf d ->
  Pg.row_of (keys d) (values d) !! c =
  match get d c with Some v => Pg.sql_of v | None => None end.
Proof.
  intros Hwf. unfold Pg.row_of. rewrite combine_keys_values.
  rewrite row_of_fold by exact Hwf. by destruct (get d c).
Qed.

(** Every right-hand side of the SET list is the stored or the proposed
    value, except for the timestamp columns. *)
Lemma apply_set_old_or_proposed (now : Z) (old proposed : Pg.row)
    (clauses : list set_clause) (c : string) :
  (forall col, In (SetNow col) clauses -> col <> c) ->
  forall acc updated,
    Pg.apply_set now old proposed clauses acc = Some updated ->
    updated !! c = acc !! c \/ updated !! c = proposed !! c.
Proof.
  induction clauses as [|[col lk|col] clauses IH]; intros Hnow acc updated; simpl.
  - intros [= <-]. by left.
  - assert (forall col', In (SetNow col') clauses -> col' <> c) as Hnow'.
    { intros col' Hin. apply Hnow. by right. }
    destruct (Pg.lock_check old lk) as [[|]|]; [apply IH, Hnow' | | discriminate].
    intros E. destruct (IH Hnow' _ _ E) as [->| ->]; [|by right].
    destruct (decide (col = c)) as [->|Hne].
    + right. destruct (proposed !! c); [by rewrite lookup_insert_eq | by rewrite lookup_delete_eq].
    + left. destruct (proposed !! col); [by rewrite lookup_insert_ne | by rewrite lookup_delete_ne].
  - assert (col <> c) as Hne by (apply Hnow; by left).
    assert (forall col', In (SetNow col') clauses -> col' <> c) as Hnow'.
    { intros col' Hin. apply Hnow. by right. }
    intros E. destruct (IH Hnow' _ _ E) as [->| ->]; [|by right].
    left. by rewrite lookup_insert_ne.
Qed.

(** With no column locked the SET list succeeds and every column it names
    takes the proposed value. *)
Lemma apply_set_unlocked (now : Z) (old proposed : Pg.row) (clauses : list set_clause) :
  (forall col lk, In (SetUnlessLocked col lk) clauses -> Pg.lock_check old lk = Some false) ->
  forall acc,
  exists updated,
    Pg.apply_set now old proposed clauses acc = Some updated
    /\ forall c lk,
         In (SetUnlessLocked c lk) clauses ->
         (forall col, In (SetNow col) clauses -> col <> c) ->
         updated !! c = proposed !! c.
Proof.
  induction clauses as [|[col lk|col] clauses IH]; intros Hlocks acc; simpl.
  - exists acc. split; [reflexivity|]. intros c lk [].
  - rewrite (Hlocks col lk) by (by left).
    destruct (IH (fun col' lk' Hin => Hlocks col' lk' (or_intror Hin))
                 (match proposed !! col with
                  | Some v => <[col := v]> acc
                  | None => delete col acc
                  end)) as (updated & E & Hupd).
    exists updated. split; [exact E|].
    intros c lk' [[= -> ->]|Hin] Hnow.
    + destruct (apply_set_old_or_proposed now old proposed clauses c
                  (fun col' Hin' => Hnow col' (or_intror Hin')) _ _ E) as [-> | ->];
        [|reflexivity].
      destruct (proposed !! c); [by rewrite lookup_insert_eq | by rewrite lookup_delete_eq].
    + apply (Hupd c lk' Hin). intros col' Hin'. apply Hnow. by right.
  - destruct (IH (fun col' lk' Hin => Hlocks col' lk' (or_intror Hin))
                 (<[col := Pg.SqlTimestamp now]> acc)) as (updated & E & Hupd).
    exists updated. split; [exact E|].
    intros c lk' [[=]|Hin] Hnow.
    apply (Hupd c lk' Hin). intros col' Hin'. apply Hnow. by right.
Qed.

End EngineFacts.

(** ** The entity dictionary *)

Section EntityDictFacts.

Lemma get_update {V} (d other : dict V) (k : string) :
  wf other ->
  get (update d other) k =
  match get other k with Some v => Some v | None => get d k end.
Proof.
  unfold wf, update. revert d.
  induction other as [|[k0 v0] other IH]; intros d Hnd; [reflexivity|].
  apply NoDup_cons in Hnd as [Hk0 Hnd]. simpl fold_left. rewrite IH by exact Hnd.
  simpl get. destruct (String.eqb_spec k0 k) as [->|Hne].
  - assert (get other k = None) as ->; [|apply get_set_eq].
    apply get_None. intros Hin. apply Hk0. by apply list_elem_of_In.
  - destruct (get other k); [reflexivity | by apply get_set_ne].
Qed.

Lemma wf_update {V} (d other : dict V) : wf d -> wf (update d other).
Proof.
  unfold update. revert d. induction other as [|[k v] other IH]; intros d Hwf; [exact Hwf|].
  simpl. apply IH. by apply wf_set.
Qed.

Lemma keys_set_incl {V} (d : dict V) (k : string) (v : V) (c : string) :
  In c (keys (set d k v)) -> In c (keys d) \/ c = k.
Proof.
  rewrite keys_set. destruct (mem d k); [by left|].
  rewrite in_app_iff. simpl. intuition.
Qed.

Lemma keys_update_incl {V} (d other : dict V) (c : string) :
  In c (keys (update d other)) -> In c (keys d) \/ In c (keys other).
Proof.
  unfold update. revert d.
  induction other as [|[k v] other IH]; intros d; simpl; [by left|].
  intros Hin. destruct (IH _ Hin) as [Hd|Ho]; [|by (right; right)].
  destruct (keys_set_incl _ _ _ _ Hd) as [Hd'| ->]; [by left | right; by left].
Qed.

Lemma keys_raw (fks : dict (option Z)) :
  keys (map (fun kv => (fst kv, pyval_of_id (snd kv))) fks) = keys fks.
Proof. unfold keys. rewrite map_map. reflexivity. Qed.

Lemma get_raw_None (fks : dict (option Z)) (k : string) :
  ~ In k (keys fks) ->
  get (map (fun kv => (fst kv, pyval_of_id (snd kv))) fks) k = None.
Proof. intros Hk. apply get_None. by rewrite keys_raw. Qed.

Lemma fk_columns_not (fks : dict (option Z)) (k : string) :
  fk_columns fks -> PyStr.endswith k "_id" = false -> ~ In k (keys fks).
Proof.
  unfold fk_columns. rewrite Forall_forall. intros Hfk Hk Hin.
  apply list_elem_of_In in Hin. apply Hfk in Hin. congruence.
Qed.

Variable config : Config.
Variable name : string.
Variable fks : dict (option Z).
Hypothesis fks_wf : wf fks.
Hypothesis fks_columns : fk_columns fks.

Lemma entity_dict_wf (metadata : pyval) : wf (entity_dict_of config name metadata fks).
Proof.
  unfold entity_dict_of. apply wf_set, wf_update. solve_wf.
Qed.

Lemma entity_dict_metadata (metadata : pyval) :
  get (entity_dict_of config name metadata fks) "metadata" = Some metadata.
Proof.
  unfold entity_dict_of. rewrite get_set_ne by discriminate.
  rewrite get_update by (unfold wf; rewrite keys_raw; exact fks_wf).
  rewrite get_raw_None; [reflexivity|]. by apply fk_columns_not.
Qed.

Lemma entity_dict_uuid (metadata : pyval) :
  get (entity_dict_of config name metadata fks) "uuid"
  = Some (PyStr (generate_dataset_uuid config name fks)).
Proof. unfold entity_dict_of. apply get_set_eq. Qed.

Lemma entity_dict_keys (metadata : pyval) (c : string) :
  In c (keys (entity_dict_of config name metadata fks)) ->
  c = "uuid" \/ In c ("name" :: "metadata" :: keys fks).
Proof.
  unfold entity_dict_of. intros Hin.
  destruct (keys_set_incl _ _ _ _ Hin) as [Hin'| ->]; [|by left]. right.
  destruct (keys_update_incl _ _ _ Hin') as [Hd|Ho].
  - simpl in Hd. simpl. tauto.
  - rewrite keys_raw in Ho. simpl. tauto.
Qed.

End EntityDictFacts.

(** ** One import of a stored record *)

Section ImportEntityFacts.
Variable config : Config.
Variable name : string.
Variable fks : dict (option Z).
Hypothesis fks_wf : wf fks.
Hypothesis fks_columns : fk_columns fks.

Lemma merged_entity_dict_wf (existing metadata : dict json) :
  wf (merged_entity_dict config name existing metadata fks).
Proof. unfold merged_entity_dict. apply wf_set, entity_dict_wf; assumption. Qed.

Lemma proposed_row_uuid (existing metadata : dict json) :
  proposed_row config name existing metadata fks !! "uuid"
  = Some (Pg.SqlText (generate_dataset_uuid config name fks)).
Proof.
  unfold proposed_row. cbv zeta. rewrite row_of_lookup by apply merged_entity_dict_wf.
  unfold merged_entity_dict. rewrite get_set_ne by discriminate.
  rewrite entity_dict_uuid. reflexivity.
Qed.

Lemma proposed_row_metadata (existing metadata : dict json) :
  proposed_row config name existing metadata fks !! "metadata"
  = Some (Pg.SqlJsonb (JObj (_filter_empty_metadata_values
                               (_merge_metadata_respecting_locks existing metadata)))).
Proof.
  unfold proposed_row. cbv zeta. rewrite row_of_lookup by apply merged_entity_dict_wf.
  unfold merged_entity_dict. rewrite get_set_eq. reflexivity.
Qed.

(** The merge step of the import, on a stored record. *)
Lemma merge_step (t : string) (metadata existing : dict json)
    (w : Pg.world) (l : list log_entry) (rows : gmap string Pg.row) (old : Pg.row) :
  Pg.main_tables w !! t = Some rows ->
  rows !! generate_dataset_uuid config name fks = Some old ->
  old !! "metadata" = Some (Pg.SqlJsonb (JObj existing)) ->
  _merge_metadata_with_locked_fields
    (entity_dict_of config name (PyMetadata metadata) fks) t (w, l)
  = (Ok (merged_entity_dict config name existing metadata fks), (w, l)).
Proof.
  intros Ht Hu Hmd. unfold _merge_metadata_with_locked_fields.
  rewrite entity_dict_metadata, entity_dict_uuid by assumption.
  unfold bind, perform. cbn [conn_fetchval_metadata pg_platform].
  cbv [default from_option id].
  unfold Pg.fetchval_metadata. rewrite Ht, Hu, Hmd. reflexivity.
Qed.

(** The upsert step, on a stored record. *)
Lemma upsert_step (t : string) (entity_dict : dict pyval)
    (w : Pg.world) (l : list log_entry) (rows : gmap string Pg.row) (old : Pg.row)
    (u : string) :
  Pg.main_tables w !! t = Some rows ->
  rows !! u = Some old ->
  Pg.row_of (keys entity_dict) (values entity_dict) !! "uuid" = Some (Pg.SqlText u) ->
  _upsert_entity entity_dict t (w, l) =
  let proposed := Pg.row_of (keys entity_dict) (values entity_dict) in
  if Pg.main_check w proposed then
    match Pg.apply_set (Pg.clock w) old proposed (update_clauses (keys entity_dict)) old with
    | Some updated =>
        if Pg.main_check w updated
        then (Ok tt, (Pg.with_main_tables w (<[t := <[u := updated]> rows]> (Pg.main_tables w)), l))
        else (Raise (Exn OtherError "new row violates check constraint"), (w, l))
    | None => (Raise (Exn OtherError "cannot cast jsonb value to type boolean"), (w, l))
    end
  else (Raise (Exn OtherError "new row violates check constraint"), (w, l)).
Proof.
  intros Ht Hu Hp. unfold _upsert_entity, perform.
  cbn [conn_execute_upsert pg_platform]. unfold Pg.execute_upsert.
  cbn [q_table q_columns q_conflict q_set]. rewrite Ht, Hp, Hu.
  fold (update_clauses (keys entity_dict)). cbv zeta.
  destruct (Pg.main_check w _); [|reflexivity]. cbn [negb].
  destruct (Pg.apply_set _ _ _ _ _) as [updated|]; [|reflexivity].
  destruct (Pg.main_check w updated); reflexivity.
Qed.

Lemma import_entity_eq (t : string) (metadata existing : dict json)
    (w : Pg.world) (rows : gmap string Pg.row) (old : Pg.row) :
  let u := generate_dataset_uuid config name fks in
  let proposed := proposed_row config name existing metadata fks in
  let clauses :=
    update_clauses (keys (merged_entity_dict config name existing metadata fks)) in
  let begun := (Pg.begin w).2 in
  Pg.main_tables w !! t = Some rows ->
  rows !! u = Some old ->
  old !! "metadata" = Some (Pg.SqlJsonb (JObj existing)) ->
  import_entity config name fks t metadata w =
  if Pg.main_check w proposed then
    match Pg.apply_set (Pg.clock w + 1) old proposed clauses old with
    | Some updated =>
        if Pg.main_check w updated
        then Pg.with_main_tables begun (<[t := <[u := updated]> rows]> (Pg.main_tables w))
        else Pg.rollback begun begun
    | None => Pg.rollback begun begun
    end
  else Pg.rollback begun begun.
Proof.
  intros u proposed clauses begun Ht Hu Hmd.
  unfold import_entity, try_transaction. cbn [tx_begin tx_commit tx_rollback pg_platform].
  unfold Pg.commit.
  destruct (Pg.begin w) as [r wb] eqn:Eb. unfold Pg.begin in Eb.
  injection Eb as <- Ewb.
  assert (begun = wb) as -> by (subst wb; reflexivity).
  assert (Pg.main_tables wb = Pg.main_tables w) as Etables by (subst wb; reflexivity).
  assert (Pg.main_check wb = Pg.main_check w) as Echeck by (subst wb; reflexivity).
  assert (Pg.clock wb = Pg.clock w + 1) as Eclock by (subst wb; reflexivity).
  clear Ewb.
  unfold _create_main_entity_with_conflict_resolution, _create_main_entity.
  fold (entity_dict_of config name (PyMetadata metadata) fks).
  unfold bind at 1, attempt at 1. unfold bind at 1.
  rewrite <- Etables in Ht.
  rewrite (merge_step t metadata existing wb [] rows old Ht Hu Hmd).
  rewrite (upsert_step t _ wb [] rows old u Ht Hu (proposed_row_uuid existing metadata)).
  subst proposed. unfold proposed_row. cbv zeta. fold clauses.
  rewrite Echeck, Eclock, Etables.
  destruct (Pg.main_check w (Pg.row_of _ _)); [|reflexivity].
  destruct (Pg.apply_set _ _ _ _ _) as [updated|]; [|reflexivity].
  destruct (Pg.main_check w updated); reflexivity.
Qed.

Lemma import_entity_tables (t : string) (metadata existing : dict json)
    (w : Pg.world) (rows : gmap string Pg.row) (old : Pg.row) :
  let u := generate_dataset_uuid config name fks in
  let proposed := proposed_row config name existing metadata fks in
  let clauses :=
    update_clauses (keys (merged_entity_dict config name existing metadata fks)) in
  Pg.main_tables w !! t = Some rows ->
  rows !! u = Some old ->
  old !! "metadata" = Some (Pg.SqlJsonb (JObj existing)) ->
  Pg.main_tables (import_entity config name fks t metadata w) =
    (if Pg.main_check w proposed then
       match Pg.apply_set (Pg.clock w + 1) old proposed clauses old with
       | Some updated =>
           if Pg.main_check w updated
           then <[t := <[u := updated]> rows]> (Pg.main_tables w)
           else Pg.main_tables w
       | None => Pg.main_tables w
       end
     else Pg.main_tables w)
  /\ Pg.main_check (import_entity config name fks t metadata w) = Pg.main_check w.
Proof.
  intros u proposed clauses Ht Hu Hmd.
  rewrite (import_entity_eq t metadata existing w rows old Ht Hu Hmd). cbv zeta.
  fold u proposed clauses.
  destruct (Pg.main_check w proposed); [|split; reflexivity].
  destruct (Pg.apply_set _ _ _ _ _) as [updated|]; [|split; reflexivity].
  destruct (Pg.main_check w updated); split; reflexivity.
Qed.

End ImportEntityFacts.

(** ** Locks *)

Section LockFacts.

Lemma string_app_assoc (a b c : string) :
  (a ++ (b ++ c))%string = ((a ++ b) ++ c)%string.
Proof.
  induction a as [|x a IH]; [reflexivity|].
  change (String x (a ++ (b ++ c)) = String x ((a ++ b) ++ c))%string.
  by rewrite IH.
Qed.

Lemma rev_app_app (a b acc : string) :
  String.rev_app (a ++ b)%string acc = String.rev_app b (String.rev_app a acc).
Proof. revert acc. induction a as [|c a IH]; intros acc; simpl; [reflexivity | apply IH]. Qed.

Lemma rev_app_acc (s acc : string) :
  String.rev_app s acc = (String.rev_app s EmptyString ++ acc)%string.
Proof.
  revert acc. induction s as [|c s IH]; intros acc; simpl; [reflexivity|].
  rewrite (IH (String c acc)), (IH (String c EmptyString)).
  rewrite <- string_app_assoc. reflexivity.
Qed.

Lemma rev_app_distr (a b : string) :
  String.rev (a ++ b)%string = (String.rev b ++ String.rev a)%string.
Proof. unfold String.rev. rewrite rev_app_app. apply rev_app_acc. Qed.

Lemma prefix_app (a b : string) : String.prefix a (a ++ b)%string = true.
Proof.
  induction a as [|c a IH]; simpl; [by destruct b|].
  destruct (Ascii.ascii_dec c c); [exact IH | contradiction].
Qed.

Lemma endswith_app (a b : string) : PyStr.endswith (a ++ b)%string b = true.
Proof. unfold PyStr.endswith. rewrite rev_app_distr. apply prefix_app. Qed.

(** A control key is itself a lock-control key. *)
Lemma lock_field_name_is_lock_key (field : string) :
  is_lock_key (lock_field_name field) = true.
Proof.
  unfold is_lock_key, lock_field_name. apply andb_true_intro. split.
  - apply prefix_app.
  - rewrite string_app_assoc. apply endswith_app.
Qed.

Lemma truthy_nonempty (v : json) : truthy v = true -> is_empty_value v = false.
Proof. destruct v as [| | | |s|[|]|]; simpl; try reflexivity; try discriminate.
  by destruct (String.eqb s EmptyString). Qed.

Lemma merge_get (existing new : dict json) (key : string) :
  wf new ->
  get (_merge_metadata_respecting_locks existing new) key =
  match get new key with
  | Some value =>
      if is_lock_key key then Some value
      else if locked existing key then get existing key else Some value
  | None => get existing key
  end.
Proof. apply merge_loop_get. Qed.

Lemma filter_get (d : dict json) (key : string) :
  wf d ->
  get (_filter_empty_metadata_values d) key =
  match get d key with
  | Some value => if is_empty_value value then None else Some value
  | None => None
  end.
Proof.
  intros Hd. unfold _filter_empty_metadata_values.
  rewrite get_filter_values by exact Hd.
  destruct (get d key) as [value|]; [|reflexivity].
  rewrite keep_is_nonempty. by destruct (is_empty_value value).
Qed.

Lemma stored_wf (existing new : dict json) :
  wf existing ->
  wf (_filter_empty_metadata_values (_merge_metadata_respecting_locks existing new)).
Proof. intros He. apply wf_filter_values, merge_wf, He. Qed.

Variables (existing new : dict json) (field : string).
Hypothesis existing_wf : wf existing.
Hypothesis new_wf : wf new.

Let stored := _filter_empty_metadata_values (_merge_metadata_respecting_locks existing new).

(** A locked field keeps its stored value through the merge. *)
Lemma locked_field_kept :
  is_lock_key field = false ->
  locked existing field = true ->
  (forall v, get existing field = Some v -> is_empty_value v = false) ->
  get stored field = get existing field.
Proof.
  intros Hnl Hlocked Hne. unfold stored.
  rewrite filter_get by (apply merge_wf, existing_wf).
  rewrite merge_get by exact new_wf. rewrite Hnl, Hlocked.
  assert (match get existing field with
          | Some value => if is_empty_value value then None else Some value
          | None => None
          end = get existing field) as Hkeep.
  { destruct (get existing field) as [v|] eqn:E; [|reflexivity]. by rewrite (Hne v). }
  destruct (get new field); exact Hkeep.
Qed.

(** The lock stays while no import unsets it. *)
Lemma lock_kept :
  locked existing field = true ->
  keeps_lock field new ->
  locked stored field = true.
Proof.
  unfold keeps_lock, locked, stored. intros Hlocked Hkeeps.
  rewrite filter_get by (apply merge_wf, existing_wf).
  rewrite merge_get by exact new_wf. rewrite lock_field_name_is_lock_key.
  destruct (get new (lock_field_name field)) as [v|].
  - rewrite (truthy_nonempty v Hkeeps). exact Hkeeps.
  - destruct (get existing (lock_field_name field)) as [v|]; [|discriminate].
    simpl in Hlocked. rewrite (truthy_nonempty v Hlocked). exact Hlocked.
Qed.

(** An import that gives the control key a false value unsets the lock. *)
Lemma lock_unset (v : json) :
  get new (lock_field_name field) = Some v ->
  truthy v = false ->
  locked stored field = false.
Proof.
  unfold locked, stored. intros Hv Hfalse.
  rewrite filter_get by (apply merge_wf, existing_wf).
  rewrite merge_get by exact new_wf. rewrite lock_field_name_is_lock_key, Hv.
  destruct (is_empty_value v); [reflexivity | exact Hfalse].
Qed.

(** The value an import gives to an unlocked field is stored. *)
Lemma unlocked_field_applied (value : json) :
  is_lock_key field = false ->
  locked existing field = false ->
  get new field = Some value ->
  is_empty_value value = false ->
  get stored field = Some value.
Proof.
  intros Hnl Hunlocked Hv Hne. unfold stored.
  rewrite filter_get by (apply merge_wf, existing_wf).
  rewrite merge_get by exact new_wf. by rewrite Hv, Hnl, Hunlocked, Hne.
Qed.

Lemma columns_unlocked_stored (fks : dict (option Z)) :
  columns_unlocked existing fks ->
  columns_unlocked new fks ->
  columns_unlocked stored fks.
Proof.
  intros He Hn column Hin. unfold stored.
  rewrite filter_get by (apply merge_wf, existing_wf).
  rewrite merge_get by exact new_wf. by rewrite (Hn column Hin), (He column Hin).
Qed.

End LockFacts.

(** ** Lock monotonicity on the engine *)

Section MonotonicityFacts.

Lemma update_clauses_fold (columns : list string) (acc : list set_clause) (x : set_clause) :
  In x (fold_left
          (fun update_clauses col =>
             if negb (String.eqb col "uuid")
             then update_clauses ++ [SetUnlessLocked col (lock_field_name col)]
             else update_clauses)
          columns acc) <->
  In x acc \/ exists col, In col columns /\ col <> "uuid"
                          /\ x = SetUnlessLocked col (lock_field_name col).
Proof.
  revert acc. induction columns as [|c columns IH]; intros acc; simpl.
  - split; [by left | intros [H|(col & [] & _)]; exact H].
  - rewrite IH. destruct (String.eqb_spec c "uuid") as [->|Hne]; simpl.
    + split.
      * intros [H|(col & Hin & Hc & Hx)]; [by left | right; eauto].
      * intros [H|(col & [<-|Hin] & Hc & Hx)]; [by left | contradiction | right; eauto].
    + rewrite in_app_iff. simpl. split.
      * intros [[H|[<-|[]]]|(col & Hin & Hc & Hx)]; [by left | right; eauto | right; eauto].
      * intros [H|(col & [<-|Hin] & Hc & Hx)]; [left; by left | left; right; by left | right; eauto].
Qed.

Lemma update_clauses_unless (columns : list string) (c lk : string) :
  In (SetUnlessLocked c lk) (update_clauses columns) <->
  In c columns /\ c <> "uuid" /\ lk = lock_field_name c.
Proof.
  unfold update_clauses. rewrite in_app_iff, update_clauses_fold. simpl. split.
  - intros [[[]|(col & Hin & Hc & [= -> ->])]|[[=]|[]]]. auto.
  - intros (Hin & Hc & ->). left. right. eauto.
Qed.

Lemma update_clauses_now (columns : list string) (c : string) :
  In (SetNow c) (update_clauses columns) -> c = "updated_at".
Proof.
  unfold update_clauses. rewrite in_app_iff, update_clauses_fold. simpl.
  intros [[[]|(col & _ & _ & [=])]|[[= <-]|[]]]. reflexivity.
Qed.

Lemma update_clauses_now_ne (columns : list string) (c col : string) :
  c <> "updated_at" -> In (SetNow col) (update_clauses columns) -> col <> c.
Proof. intros Hc ->%update_clauses_now. congruence. Qed.

Lemma lock_check_absent (old : Pg.row) (d : dict json) (lk : string) :
  old !! "metadata" = Some (Pg.SqlJsonb (JObj d)) ->
  get d lk = None ->
  Pg.lock_check old lk = Some false.
Proof. unfold Pg.lock_check. by intros -> ->. Qed.

Lemma stored_metadata_inv (w : Pg.world) (t u : string) (d : dict json) :
  stored_metadata w t u = Some d ->
  exists rows old,
    Pg.main_tables w !! t = Some rows /\ rows !! u = Some old
    /\ old !! "metadata" = Some (Pg.SqlJsonb (JObj d)).
Proof.
  unfold stored_metadata, main_rows.
  destruct (Pg.main_tables w !! t) as [rows|]; simpl; [|by rewrite lookup_empty].
  destruct (rows !! u) as [old|] eqn:Eu; [|discriminate].
  destruct (old !! "metadata") as [[n|s|j|ts]|] eqn:E; try discriminate.
  destruct j; try discriminate.
  intros [= ->]. exists rows, old. auto.
Qed.

Lemma stored_metadata_updated (w w' : Pg.world) (t u : string)
    (rows : gmap string Pg.row) (updated : Pg.row) :
  Pg.main_tables w' = <[t := <[u := updated]> rows]> (Pg.main_tables w) ->
  stored_metadata w' t u =
  match updated !! "metadata" with
  | Some (Pg.SqlJsonb (JObj d)) => Some d
  | _ => None
  end.
Proof.
  intros E. unfold stored_metadata, main_rows. rewrite E, lookup_insert_eq. simpl.
  rewrite lookup_insert_eq. reflexivity.
Qed.

Lemma stored_metadata_same (w w' : Pg.world) (t u : string) :
  Pg.main_tables w' = Pg.main_tables w ->
  stored_metadata w' t u = stored_metadata w t u.
Proof. intros E. unfold stored_metadata, main_rows. by rewrite E. Qed.

Variable config : Config.
Variable name : string.
Variable fks : dict (option Z).
Hypothesis fks_wf : wf fks.
Hypothesis fks_columns : fk_columns fks.
Variable t : string.

Local Abbreviation u := (generate_dataset_uuid config name fks).

(** What one import leaves stored: the metadata it found, or the filtered
    merge. *)
Lemma import_entity_stored (w : Pg.world) (d new : dict json) :
  stored_metadata w t u = Some d ->
  (stored_metadata (import_entity config name fks t new w) t u = Some d
   \/ stored_metadata (import_entity config name fks t new w) t u =
      Some (_filter_empty_metadata_values (_merge_metadata_respecting_locks d new)))
  /\ Pg.main_check (import_entity config name fks t new w) = Pg.main_check w.
Proof.
  intros Hd. destruct (stored_metadata_inv _ _ _ _ Hd) as (rows & old & Ht & Hu & Hmd).
  destruct (import_entity_tables config name fks fks_wf fks_columns t new d w rows old
              Ht Hu Hmd) as [Etables Echeck].
  split; [|exact Echeck]. cbv zeta in Etables.
  destruct (Pg.main_check w _);
    [|left; rewrite (stored_metadata_same _ _ _ _ Etables); exact Hd].
  destruct (Pg.apply_set _ _ _ _ _) as [updated|] eqn:Eset;
    [|left; rewrite (stored_metadata_same _ _ _ _ Etables); exact Hd].
  destruct (Pg.main_check w updated);
    [|left; rewrite (stored_metadata_same _ _ _ _ Etables); exact Hd].
  rewrite (stored_metadata_updated _ _ _ _ _ _ Etables).
  assert ("metadata" <> "updated_at") as Hmu by (intros ?; discriminate).
  destruct (apply_set_old_or_proposed _ _ _ _ "metadata"
              (fun col => update_clauses_now_ne _ "metadata" col Hmu) _ _ Eset)
    as [-> | ->].
  - left. by rewrite Hmd.
  - right. by rewrite proposed_row_metadata.
Qed.

(** With the check constraint satisfied by every row and no column locked,
    the import stores the filtered merge. *)
Lemma import_entity_applied (w : Pg.world) (d new : dict json) :
  stored_metadata w t u = Some d ->
  (forall r, Pg.main_check w r = true) ->
  columns_unlocked d fks ->
  stored_metadata (import_entity config name fks t new w) t u =
    Some (_filter_empty_metadata_values (_merge_metadata_respecting_locks d new)).
Proof.
  intros Hd Hcheck Hcols.
  destruct (stored_metadata_inv _ _ _ _ Hd) as (rows & old & Ht & Hu & Hmd).
  destruct (import_entity_tables config name fks fks_wf fks_columns t new d w rows old
              Ht Hu Hmd) as [Etables _].
  cbv zeta in Etables. rewrite Hcheck in Etables.
  assert (forall col lk,
            In (SetUnlessLocked col lk)
               (update_clauses (keys (merged_entity_dict config name d new fks))) ->
            Pg.lock_check old lk = Some false) as Hlocks.
  { intros col lk [Hin [Hne ->]]%update_clauses_unless.
    apply (lock_check_absent _ d); [exact Hmd|]. apply Hcols.
    unfold merged_entity_dict in Hin. rewrite keys_set in Hin.
    unfold mem in Hin. rewrite entity_dict_metadata in Hin by assumption.
    destruct (entity_dict_keys _ _ _ _ _ Hin) as [->|Hc]; [contradiction | exact Hc]. }
  destruct (apply_set_unlocked (Pg.clock w + 1) old (proposed_row config name d new fks)
              _ Hlocks old) as (updated & Eset & Hupd).
  rewrite Eset, Hcheck in Etables.
  rewrite (stored_metadata_updated _ _ _ _ _ _ Etables).
  rewrite (Hupd "metadata" (lock_field_name "metadata")).
  - by rewrite proposed_row_metadata.
  - apply update_clauses_unless. split; [|split; [discriminate | reflexivity]].
    unfold merged_entity_dict. rewrite keys_set. unfold mem.
    rewrite entity_dict_metadata by assumption.
    apply (in_map fst _ ("metadata", PyMetadata new)).
    apply get_Some_In. by apply entity_dict_metadata.
  - intros col. apply update_clauses_now_ne. intros ?; discriminate.
Qed.

End MonotonicityFacts.

Section SequenceFacts.
Variable config : Config.
Variable name : string.
Variable fks : dict (option Z).
Hypothesis fks_wf : wf fks.
Hypothesis fks_columns : fk_columns fks.
Variable t : string.

Local Abbreviation u := (generate_dataset_uuid config name fks).

(** A property of the stored metadata that every merge keeps is kept by a
    sequence of imports, whether they succeed or fail. *)
Lemma import_sequence_invariant (P Q : dict json -> Prop) (imports : list (dict json)) :
  (forall d new, wf d -> P d -> wf new -> Q new ->
     P (_filter_empty_metadata_values (_merge_metadata_respecting_locks d new))) ->
  Forall (fun new => wf new /\ Q new) imports ->
  forall w d,
    stored_metadata w t u = Some d -> wf d -> P d ->
    exists d1,
      stored_metadata (import_sequence config name fks t imports w) t u = Some d1
      /\ wf d1 /\ P d1
      /\ Pg.main_check (import_sequence config name fks t imports w) = Pg.main_check w.
Proof.
  intros Hstep Himports. induction Himports as [|new imports [Hnew HQ] _ IH];
    intros w d Hd Hwf HP.
  - exists d. auto.
  - simpl. destruct (import_entity_stored config name fks fks_wf fks_columns t w d new Hd)
      as [[E|E] Echeck].
    + destruct (IH _ d E Hwf HP) as (d1 & E1 & Hwf1 & HP1 & Ec1).
      exists d1. rewrite Ec1. auto.
    + destruct (IH _ _ E (stored_wf d new Hwf) (Hstep d new Hwf HP Hnew HQ))
        as (d1 & E1 & Hwf1 & HP1 & Ec1).
      exists d1. rewrite Ec1. auto.
Qed.

End SequenceFacts.

(** C3, as amended.  Take a stored record whose metadata (free of duplicate
    keys) holds a true value under [__<field>__lock__], where [<field>] is not
    itself a lock-control key and its stored value, if any, is not an empty
    one.  Every sequence of imports of the same identity that leave the
    control key out or give it a true value leaves the stored value of
    [<field>] unchanged and the lock in place, whether the imports succeed or
    fail.  If moreover the check constraint accepts every row and neither the
    stored metadata nor the imports lock a column of the upsert (the name, the
    metadata, a foreign key), then an import that gives the control key a
    false value still leaves the stored value unchanged, and the next import's
    non-empty value for [<field>] is stored. *)
Theorem lock_monotonic (config : Config) (name : string) (fks : dict (option Z))
    (t field : string) (w : Pg.world) (d : dict json) (imports : list (dict json))
    (unlock next : dict json) (off value : json) :
  wf fks -> fk_columns fks ->
  is_lock_key field = false ->
  stored_metadata w t (generate_dataset_uuid config name fks) = Some d ->
  wf d ->
  locked d field = true ->
  (forall v, get d field = Some v -> is_empty_value v = false) ->
  Forall (fun new => wf new /\ keeps_lock field new) imports ->
  let u := generate_dataset_uuid config name fks in
  let w1 := import_sequence config name fks t imports w in
  let w2 := import_entity config name fks t unlock w1 in
  let w3 := import_entity config name fks t next w2 in
  stored_field w1 t u field = get d field
  /\ record_locked w1 t u field (get d field)
  /\ ((forall r, Pg.main_check w r = true) ->
      columns_unlocked d fks ->
      Forall (fun new => columns_unlocked new fks) imports ->
      wf unlock -> columns_unlocked unlock fks ->
      get unlock (lock_field_name field) = Some off -> truthy off = false ->
      wf next -> get next field = Some value -> is_empty_value value = false ->
      stored_field w2 t u field = get d field
      /\ stored_field w3 t u field = Some value).
Proof.
  intros Hfks Hcols Hnl Hd Hwf Hlocked Hne Himports u w1 w2 w3.
  pose (P := fun d' : dict json =>
               locked d' field = true /\ get d' field = get d field).
  assert (forall d' new, wf d' -> P d' -> wf new -> keeps_lock field new ->
            P (_filter_empty_metadata_values (_merge_metadata_respecting_locks d' new)))
    as Hstep.
  { intros d' new Hwf' [Hl Hg] Hnew Hk. split.
    - by apply lock_kept.
    - rewrite locked_field_kept; try assumption. intros v Hv. apply Hne. congruence. }
  destruct (import_sequence_invariant config name fks Hfks Hcols t P (keeps_lock field)
              imports Hstep Himports w d Hd Hwf (conj Hlocked eq_refl))
    as (d1 & E1 & Hwf1 & [Hl1 Hg1] & Ec1).
  fold w1 in E1, Ec1. fold u in E1.
  split; [|split].
  - unfold stored_field. rewrite E1. exact Hg1.
  - exists d1. auto.
  - intros Hcheck Hcd Hci Hwu Hcu Hoff Hfalse Hwn Hvalue Hvne.
    pose (P2 := fun d' : dict json => P d' /\ columns_unlocked d' fks).
    assert (Forall (fun new => wf new /\ (keeps_lock field new /\ columns_unlocked new fks))
                   imports) as Himports2.
    { rewrite Forall_forall in Himports, Hci. apply Forall_forall. intros new Hin.
      destruct (Himports new Hin). auto. }
    destruct (import_sequence_invariant config name fks Hfks Hcols t P2
                (fun new => keeps_lock field new /\ columns_unlocked new fks) imports)
      with (w := w) (d := d) as (d1' & E1' & _ & [_ Hc1] & _); try assumption.
    { intros d' new Hwf' [HP' Hc'] Hnew [Hk Hcn]. split.
      - by apply Hstep.
      - by apply columns_unlocked_stored. }
    { split; [split; [exact Hlocked | reflexivity] | exact Hcd]. }
    fold w1 in E1'. fold u in E1'. rewrite E1 in E1'. injection E1' as <-.
    assert (forall r, Pg.main_check w1 r = true) as Hcheck1.
    { intros r. rewrite Ec1. apply Hcheck. }
    pose proof (import_entity_applied config name fks Hfks Hcols t w1 d1 unlock
                  E1 Hcheck1 Hc1) as E2.
    fold w2 in E2. fold u in E2.
    set (d2 := _filter_empty_metadata_values (_merge_metadata_respecting_locks d1 unlock))
      in E2.
    assert (wf d2) as Hwf2 by (apply stored_wf, Hwf1).
    assert (get d2 field = get d field) as Hg2.
    { unfold d2. rewrite locked_field_kept; try assumption.
      intros v Hv. apply Hne. congruence. }
    split; [unfold stored_field; rewrite E2; exact Hg2|].
    assert (locked d2 field = false) as Hl2 by (by apply (lock_unset d1 unlock field Hwf1 Hwu off)).
    assert (columns_unlocked d2 fks) as Hc2 by (by apply columns_unlocked_stored).
    assert (forall r, Pg.main_check w2 r = true) as Hcheck2.
    { intros r. unfold w2.
      destruct (import_entity_stored config name fks Hfks Hcols t w1 d1 unlock E1)
        as [_ ->]. apply Hcheck1. }
    pose proof (import_entity_applied config name fks Hfks Hcols t w2 d2 next
                  E2 Hcheck2 Hc2) as E3.
    fold w3 in E3. fold u in E3.
    unfold stored_field. rewrite E3.
    by apply unlocked_field_applied.
Qed.

Lemma lock_monotonic_witness :
  stored_field
    (import_entity Sample.config "p1" [] "datasets" [("status", JStr "B")]
       (import_entity Sample.config "p1" [] "datasets" [("__status__lock__", JBool false)]
          (import_sequence Sample.config "p1" [] "datasets"
             [[("status", JStr "B")]; [("status", JStr "C"); ("size", JInt 3)]]
             Sample.status_locked)))
    "datasets" Sample.p1_uuid "status" = Some (JStr "B")
  /\ stored_field
       (import_sequence Sample.config "p1" [] "datasets"
          [[("status", JStr "B")]; [("status", JStr "C"); ("size", JInt 3)]]
          Sample.status_locked)
       "datasets" Sample.p1_uuid "status" = Some (JStr "A").
Proof.
  destruct (lock_monotonic Sample.config "p1" [] "datasets" "status" Sample.status_locked
              [("__status__lock__", JBool true); ("status", JStr "A")]
              [[("status", JStr "B")]; [("status", JStr "C"); ("size", JInt 3)]]
              [("__status__lock__", JBool false)] [("status", JStr "B")]
              (JBool false) (JStr "B"))
    as (Hkept & _ & Hnext).
  - solve_wf.
  - apply Forall_nil. exact I.
  - reflexivity.
  - vm_compute. reflexivity.
  - solve_wf.
  - reflexivity.
  - intros v [= <-]. reflexivity.
  - repeat (apply Forall_cons; split; [split; [solve_wf | exact I]|]).
    apply Forall_nil. exact I.
  - destruct Hnext as [_ Hb].
    + intros r. reflexivity.
    + intros column [<-|[<-|[]]]; reflexivity.
    + repeat (apply Forall_cons; split;
              [intros column [<-|[<-|[]]]; reflexivity|]).
      apply Forall_nil. exact I.
    + solve_wf.
    + intros column [<-|[<-|[]]]; reflexivity.
    + reflexivity.
    + reflexivity.
    + solve_wf.
    + reflexivity.
    + reflexivity.
    + split; [exact Hb | exact Hkept].
Defined.

(** C3, the claim as first stated, fails when the stored metadata locks the
    metadata column as a whole: the import that unsets [__status__lock__] is
    not stored, and the next import's status is not applied. *)
Lemma unlock_ignored_under_metadata_lock :
  stored_field
    (import_entity Sample.config "p1" [] "datasets" [("status", JStr "B")]
       (import_entity Sample.config "p1" [] "datasets" [("__status__lock__", JBool false)]
          Sample.metadata_locked))
    "datasets" Sample.p1_uuid "status" = Some (JStr "A")
  /\ stored_field
       (import_entity Sample.config "p1" [] "datasets" [("__status__lock__", JBool false)]
          Sample.metadata_locked)
       "datasets" Sample.p1_uuid "__status__lock__" = Some (JBool true).
Proof. split; vm_compute; reflexivity. Qed.

(** ** Importing again *)

Section ReimportFacts.











(** The loop is the one [_process_batch_all_or_nothing] runs in its
    transaction, after the references of the batch are resolved. *)
Lemma batch_loop_in_transaction (config : Config) (batch : list FccDataset)
    (batch_indices : list Z) (t : string) :
  _process_batch_all_or_nothing config batch batch_indices t =
  (r <- try_transaction
          (navigation_cache <- _preprocess_batch_navigation_entities config batch ;;
           batch_loop config t navigation_cache (combine batch_indices batch)) ;;
   match r with
   | Committed _ => ret (Z.of_nat (length batch), 0)
   | Aborted e | CommitFailed _ e =>
       logger ERROR ("Batch transaction failed: " ++ exn_msg e)%string ;;;
       ret (0, Z.of_nat (length batch))
   end).
Proof. reflexivity. Qed.




End ReimportFacts.




(** A collection of ten named records, imported twice. *)
Lemma reimport_named_collection :
  row_count (imported Sample.config "ten.json" (Sample.fresh Sample.no_check))
    "datasets" = 10%nat
  /\ row_count
       (imported Sample.config "ten.json"
          (imported Sample.config "ten.json" (Sample.fresh Sample.no_check)))
       "datasets" = 10%nat.
Proof. split; vm_compute; reflexivity. Qed.

(* ===================================================================== *)
(** * Further properties of the code *)
(* ===================================================================== *)

From Stdlib Require DecimalZ.

(** ** Chunks *)

Section ChunkFacts.

Lemma combine_lookup {A B} (xs : list A) (ys : list B) (j : nat) (x : A) (y : B) :
  combine xs ys !! j = Some (x, y) -> xs !! j = Some x /\ ys !! j = Some y.
Proof.
  revert ys j. induction xs as [|x0 xs IH]; intros [|y0 ys] [|j]; simpl; try discriminate.
  - by intros [= -> ->].
  - apply IH.
Qed.

Lemma chunk_of_eq (datasets : list FccDataset) (batch_size : Z) (i : nat) :
  0 < batch_size ->
  chunk_of datasets (0 + Z.of_nat i * batch_size) batch_size
  = take (Z.to_nat batch_size) (drop (i * Z.to_nat batch_size) datasets).
Proof.
  intros Hbs. unfold chunk_of, slice.
  assert (Z.to_nat (0 + Z.of_nat i * batch_size) = (i * Z.to_nat batch_size)%nat) as -> by nia.
  set (rest := drop (i * Z.to_nat batch_size) datasets).
  assert (length rest = (length datasets - i * Z.to_nat batch_size)%nat) as Hrest
    by apply length_drop.
  destruct (decide (Z.of_nat (length rest) < batch_size)) as [Hshort|Hlong].
  - rewrite !take_ge; [reflexivity | lia | nia].
  - f_equal. nia.
Qed.

Lemma chunks_concat (datasets : list FccDataset) (batch_size : Z) (k : nat) :
  0 < batch_size ->
  concat (map (fun i => chunk_of datasets (0 + Z.of_nat i * batch_size) batch_size)
              (seq 0 k))
  = take (k * Z.to_nat batch_size) datasets.
Proof.
  intros Hbs. induction k as [|k IH]; [reflexivity|].
  rewrite seq_S, map_app, concat_app, IH. cbn [map concat plus].
  rewrite app_nil_r, chunk_of_eq by exact Hbs.
  rewrite take_take_drop. f_equal. lia.
Qed.

Lemma chunk_indices_eq (datasets : list FccDataset) (batch_start batch_size : Z) :
  chunk_indices datasets batch_start batch_size
  = map (fun j => batch_start + Z.of_nat j * 1)
        (seq 0 (Z.to_nat
                  (Z.min (batch_start + batch_size) (Z.of_nat (length datasets))
                   - batch_start))).
Proof.
  unfold chunk_indices, py_range. cbn [Z.eqb Z.ltb Z.compare default from_option id].
  set (e := Z.min _ _). do 2 f_equal.
  destruct (Z.ltb_spec batch_start e); [|lia].
  rewrite Z.div_1_r. lia.
Qed.

(** The starts of the chunks, for a chunk size above zero. *)
Lemma chunk_starts (datasets : list FccDataset) (batch_size : Z) :
  0 < batch_size ->
  exists count : nat,
    py_range 0 (Z.of_nat (length datasets)) batch_size
    = Some (map (fun i => 0 + Z.of_nat i * batch_size) (seq 0 count))
    /\ (length datasets <= count * Z.to_nat batch_size)%nat
    /\ forall i, (i < count)%nat -> Z.of_nat i * batch_size < Z.of_nat (length datasets).
Proof.
  intros Hbs. unfold py_range.
  destruct (Z.eqb_spec batch_size 0) as [|_]; [lia|].
  destruct (Z.ltb_spec 0 batch_size) as [_|]; [|lia].
  set (n := Z.of_nat (length datasets)).
  set (count := if 0 <? n then (n - 0 + batch_size - 1) / batch_size else 0).
  assert (0 <= count /\ n <= count * batch_size /\ (0 < count -> (count - 1) * batch_size < n))
    as (Hc0 & Hupper & Hlower).
  { subst count. destruct (Z.ltb_spec 0 n) as [Hn|Hn]; [|lia].
    pose proof (Z.div_mod (n - 0 + batch_size - 1) batch_size ltac:(lia)) as Hdm.
    pose proof (Z.mod_pos_bound (n - 0 + batch_size - 1) batch_size Hbs) as Hmod.
    split; [apply Z.div_pos; lia|]. split; nia. }
  exists (Z.to_nat count). split; [reflexivity|]. split; [nia|]. intros i Hi. nia.
Qed.

Lemma chunk_length (datasets : list FccDataset) (batch_size : Z) (i : nat) :
  0 < batch_size ->
  length (chunk_indices datasets (0 + Z.of_nat i * batch_size) batch_size)
  = length (chunk_of datasets (0 + Z.of_nat i * batch_size) batch_size).
Proof.
  intros Hbs. rewrite chunk_indices_eq, chunk_of_eq by exact Hbs.
  rewrite length_map, length_seq, length_take, length_drop. nia.
Qed.

End ChunkFacts.

(** X1.  The chunks of [_process_entity_collection_with_recovery], for a chunk
    size above zero: laid end to end they are the collection; none is empty
    or longer than the chunk size; each comes with as many indices as it has
    records, and the index paired with a record is the position of the
    record in the collection. *)
Theorem chunks_cover_collection (datasets : list FccDataset) (batch_size : Z) :
  0 < batch_size ->
  exists starts,
    py_range 0 (Z.of_nat (length datasets)) batch_size = Some starts
    /\ concat (map (fun s => chunk_of datasets s batch_size) starts) = datasets
    /\ Forall
         (fun s =>
            chunk_of datasets s batch_size <> []
            /\ (length (chunk_of datasets s batch_size) <= Z.to_nat batch_size)%nat
            /\ length (chunk_indices datasets s batch_size)
               = length (chunk_of datasets s batch_size)
            /\ forall idx d,
                 In (idx, d) (combine (chunk_indices datasets s batch_size)
                                      (chunk_of datasets s batch_size)) ->
                 0 <= idx /\ datasets !! Z.to_nat idx = Some d)
         starts.
Proof.
  intros Hbs.
  destruct (chunk_starts datasets batch_size Hbs) as (count & Er & Hupper & Hlower).
  eexists. split; [exact Er|]. split.
  - rewrite map_map. rewrite (chunks_concat datasets batch_size _ Hbs).
    by apply take_ge.
  - apply Forall_forall. intros s Hs.
    apply list_elem_of_In, in_map_iff in Hs as (i & <- & Hi%in_seq).
    assert (Z.of_nat i * batch_size < Z.of_nat (length datasets)) as Hlt
      by (apply Hlower; lia).
    pose proof (chunk_length datasets batch_size i Hbs) as Hlen.
    rewrite chunk_indices_eq in *. rewrite chunk_of_eq in * by exact Hbs.
    set (rest := drop (i * Z.to_nat batch_size) datasets) in *.
    assert (length rest = (length datasets - i * Z.to_nat batch_size)%nat) as Hrest
      by apply length_drop.
    assert (rest <> []) as Hne.
    { intros E. rewrite E in Hrest. simpl in Hrest. nia. }
    split; [|split; [|split]].
    + destruct rest as [|d0 rest']; [done|].
      destruct (Z.to_nat batch_size) as [|b] eqn:Eb; [lia | discriminate].
    + rewrite length_take. lia.
    + exact Hlen.
    + intros idx d Hin. apply list_elem_of_In, list_elem_of_lookup in Hin as [j Hj].
      apply combine_lookup in Hj as [Hidx Hd].
      rewrite list_lookup_fmap in Hidx.
      destruct (seq 0 _ !! j) as [j'|] eqn:Ej; [|discriminate].
      apply lookup_seq in Ej as [-> Hj']. cbn in Hidx. injection Hidx as <-.
      split; [lia|].
      apply lookup_take_Some in Hd as [Hd _]. subst rest.
      rewrite lookup_drop in Hd. rewrite <- Hd. f_equal. nia.
Qed.

Lemma chunks_cover_collection_witness :
  exists starts,
    py_range 0 (Z.of_nat (length Sample.five)) 2 = Some starts
    /\ concat (map (fun s => chunk_of Sample.five s 2) starts) = Sample.five.
Proof.
  destruct (chunks_cover_collection Sample.five 2 ltac:(lia)) as (starts & E & Hc & _).
  exists starts. by split.
Defined.

(** ** Counts *)

Section CountFacts.
Context {W : Type} `{Platform W}.
Variable database : Config.

Lemma try_transaction_counts {A} (body : M W A) st :
  exists r st',
    try_transaction body st = (Ok r, st')
    /\ accounts_for 1 (processed_by r, failed_by r).
Proof.
  destruct st as [w l]. unfold try_transaction, accounts_for.
  destruct (tx_begin w) as [[[]|e] w1]; [|eexists _, _; split; [reflexivity|cbn; lia]].
  destruct (body (w1, l)) as [[a|e] [w2 l2]];
    [|eexists _, _; split; [reflexivity|cbn; lia]].
  destruct (tx_commit w2) as [[[]|e] w3] eqn:Ec;
    (eexists _, _; split; [reflexivity|cbn]); [lia|].
  repeat split; try lia. intros Hsafe. destruct (Hsafe w2) as [w' Ew'].
  rewrite Ec in Ew'. discriminate.
Qed.

Lemma individually_counts (main_table : string) (batch : list FccDataset) :
  forall (batch_indices : list Z) st,
    length batch_indices = length batch ->
    exists counts st',
      _process_batch_individually database batch batch_indices main_table st
        = (Ok counts, st')
      /\ accounts_for (length batch) counts.
Proof.
  induction batch as [|d batch IH]; intros [|idx batch_indices] st Hlen;
    try discriminate.
  - eexists _, _. split; [reflexivity|]. unfold accounts_for. cbn. lia.
  - rewrite individually_cons.
    destruct (try_transaction_counts (_process_single_dataset database d idx main_table) st)
      as (r & [w l] & E & Hr).
    rewrite E. injection Hlen as Hlen.
    destruct (IH batch_indices (w, l ++ failure_log idx r) Hlen)
      as ([p f] & st' & E' & Hpf).
    rewrite E'. eexists _, _. split; [reflexivity|].
    unfold accounts_for in *. cbn [fst snd length] in *.
    destruct Hr as (? & ? & ? & Hr), Hpf as (? & ? & ? & Hpf).
    repeat split; try lia. intros Hsafe. specialize (Hr Hsafe). specialize (Hpf Hsafe). lia.
Qed.

Lemma process_chunk_counts (datasets : list FccDataset) (batch_size : Z)
    (main_table : string) (tp tf batch_start : Z) st :
  length (chunk_indices datasets batch_start batch_size)
  = length (chunk_of datasets batch_start batch_size) ->
  exists counts st',
    process_chunk database datasets batch_size main_table (tp, tf) batch_start st
      = (Ok (tp + fst counts, tf + snd counts), st')
    /\ accounts_for (length (chunk_of datasets batch_start batch_size)) counts.
Proof.
  intros Hlen. destruct st as [w l]. rewrite process_chunk_eq.
  set (batch := chunk_of datasets batch_start batch_size) in *.
  set (batch_indices := chunk_indices datasets batch_start batch_size) in *.
  destruct (all_or_nothing_cases database batch batch_indices main_table
              (w, l ++ [chunk_started datasets batch_start batch_size]))
    as ([w1 l1] & [E|E]); rewrite E.
  - cbn [Z.ltb Z.compare andb]. exists (Z.of_nat (length batch), 0). eexists.
    split; [reflexivity|]. unfold accounts_for. cbn. lia.
  - destruct (Z.ltb_spec 0 (Z.of_nat (length batch))) as [Hpos|Hzero]; cbn [Z.eqb andb].
    + destruct (individually_counts main_table batch batch_indices
                  (w1, l1 ++ [fallback_started batch_start batch_size]) Hlen)
        as ([p f] & [w2 l2] & E2 & Hpf).
      rewrite E2. exists (p, f). eexists. by split.
    + exists (0, Z.of_nat (length batch)). eexists. split; [reflexivity|].
      unfold accounts_for. cbn. lia.
Qed.

Lemma chunks_counts (datasets : list FccDataset) (batch_size : Z)
    (main_table : string) (starts : list Z) :
  Forall (fun s => length (chunk_indices datasets s batch_size)
                   = length (chunk_of datasets s batch_size)) starts ->
  forall tp tf st,
  exists counts st',
    foldM (process_chunk database datasets batch_size main_table) starts (tp, tf) st
      = (Ok (tp + fst counts, tf + snd counts), st')
    /\ accounts_for
         (length (concat (map (fun s => chunk_of datasets s batch_size) starts))) counts.
Proof.
  induction 1 as [|s starts Hs Hstarts IH]; intros tp tf st.
  - exists (0, 0). eexists. cbn [foldM fst snd]. rewrite !Z.add_0_r.
    split; [reflexivity|]. unfold accounts_for. cbn. lia.
  - cbn [foldM map concat].
    destruct (process_chunk_counts datasets batch_size main_table tp tf s st Hs)
      as ([p f] & st1 & E1 & H1).
    rewrite (bind_ok _ _ _ _ _ E1). cbn [fst snd].
    destruct (IH (tp + p) (tf + f) st1) as ([p' f'] & st2 & E2 & H2).
    rewrite E2. exists (p + p', f + f'). eexists. cbn [fst snd].
    split; [by rewrite !Z.add_assoc|].
    unfold accounts_for in *. rewrite length_app. cbn [fst snd] in *.
    destruct H1 as (? & ? & ? & H1), H2 as (? & ? & ? & H2).
    repeat split; try lia. intros Hsafe. specialize (H1 Hsafe). specialize (H2 Hsafe). lia.
Qed.

End CountFacts.

(** X2.  With a chunk size above zero the pass over the collection returns, and
    its counts account for every record: neither count exceeds the number
    of records and together they are at least that number.  A record is
    counted twice only when its transaction ran to the end and the commit
    raised; where commits do not raise the counts add up to the number of
    records. *)
Theorem counts_cover_collection {W : Type} `{Platform W} (database : Config)
    (collection : DatasetCollection) (main_table : string)
    (st : W * list log_entry) :
  0 < cfg_batch_size database ->
  exists processed failed st',
    _process_entity_collection_with_recovery database collection main_table st
      = (Ok (processed, failed), st')
    /\ 0 <= processed <= Z.of_nat (length (processes collection))
    /\ 0 <= failed <= Z.of_nat (length (processes collection))
    /\ Z.of_nat (length (processes collection)) <= processed + failed
    /\ ((forall w, exists w', tx_commit w = (Ok tt, w')) ->
        processed + failed = Z.of_nat (length (processes collection))).
Proof.
  intros Hbs.
  destruct (chunk_starts (processes collection) _ Hbs) as (count & Er & Hupper & _).
  unfold _process_entity_collection_with_recovery. rewrite Er.
  destruct (chunks_counts database (processes collection) (cfg_batch_size database)
              main_table
              (map (fun i => 0 + Z.of_nat i * cfg_batch_size database) (seq 0 count)))
    with (tp := 0) (tf := 0) (st := st)
    as ([p f] & st' & E & Hacc).
  { apply Forall_forall. intros s (i & <- & _)%list_elem_of_In%in_map_iff.
    by apply chunk_length. }
  rewrite map_map, (chunks_concat _ _ _ Hbs), take_ge in Hacc by exact Hupper.
  exists p, f, st'. split; [exact E|].
  destruct Hacc as (? & ? & ? & ?). cbn [fst snd] in *. auto.
Qed.

Lemma counts_cover_collection_witness :
  exists processed failed st',
    _process_entity_collection_with_recovery Sample.config
      {| processes := Sample.five |} "datasets" (Sample.fresh Sample.reject_p3, [])
      = (Ok (processed, failed), st')
    /\ processed + failed = 5.
Proof.
  destruct (counts_cover_collection (W:=Pg.world) Sample.config
              {| processes := Sample.five |} "datasets"
              (Sample.fresh Sample.reject_p3, []) ltac:(reflexivity))
    as (p & f & st' & E & _ & _ & _ & Hsum).
  exists p, f, st'. split; [exact E|]. apply Hsum. intros w. by exists w.
Defined.

(** ** Chunk sizes that are not positive *)

(** X3.  A chunk size of zero makes the import of any collection that parses
    raise the [ValueError] of [range], before a statement is issued.  With a
    negative chunk size the range is empty: no record is processed and the
    import reports success. *)
Theorem import_nonpositive_chunk_size {W : Type} `{Platform W} `{Codec}
    (database : Config) (json_content : string) (collection : DatasetCollection)
    (w : W) (l : list log_entry) :
  _parse_json_content json_content = Ok collection ->
  (cfg_batch_size database = 0 ->
   import_data database json_content (w, l)
   = (Raise (Exn ValueError "range() arg 3 must not be zero"), (w, l)))
  /\ (cfg_batch_size database < 0 ->
      import_data database json_content (w, l)
      = (Ok tt,
         (w, l ++ [(INFO, "Successfully processed all 0 datasets");
                   (INFO, "Import operation completed successfully")]))).
Proof.
  intros Hparse. unfold import_data. rewrite Hparse.
  unfold _process_entity_collection_with_recovery, py_range. split.
  - intros ->. reflexivity.
  - intros Hneg.
    destruct (Z.eqb_spec (cfg_batch_size database) 0) as [|_]; [lia|].
    destruct (Z.ltb_spec 0 (cfg_batch_size database)) as [|_]; [lia|].
    destruct (Z.ltb_spec (Z.of_nat (length (processes collection))) 0) as [|_]; [lia|].
    change (Z.to_nat 0) with 0%nat. cbn [seq map foldM]. rewrite bind_ret.
    unfold _log_import_results, _validate_import_success. cbn [Z.ltb Z.compare Z.add andb].
    rewrite bind_logger. change (0 <? 0 + 0) with false. cbn [andb].
    rewrite bind_ret, logger_eq, <- app_assoc. reflexivity.
Qed.

Lemma import_nonpositive_chunk_size_witness :
  import_data (with_batch_size Sample.config (-5)) "ten.json"
    (Sample.fresh Sample.no_check, [])
  = (Ok tt,
     (Sample.fresh Sample.no_check,
      [(INFO, "Successfully processed all 0 datasets");
       (INFO, "Import operation completed successfully")])).
Proof.
  assert (_parse_json_content "ten.json" =
          Ok {| processes := default [] (Sample.validate_items Sample.ten_processes) |})
    as Hparse by (vm_compute; reflexivity).
  exact (proj2 (import_nonpositive_chunk_size (W:=Pg.world)
                  (with_batch_size Sample.config (-5)) "ten.json" _
                  (Sample.fresh Sample.no_check) [] Hparse) ltac:(reflexivity)).
Defined.

(** ** Foreign keys from the batch cache *)

Section CacheFacts.

Lemma cache_step (dataset_data : FccDataset) (navigation_cache : dict (dict Z))
    (acc : dict (option Z)) (k c : string) :
  match get navigation_cache k with
  | Some by_name =>
      match _get_entity_name_for_dataset dataset_data k with
      | Some entity_name =>
          match get by_name entity_name with
          | Some id => set acc c (Some id)
          | None => set acc c None
          end
      | None => set acc c None
      end
  | None => set acc c None
  end = set acc c (cached_id dataset_data navigation_cache k).
Proof.
  unfold cached_id.
  destruct (get navigation_cache k) as [by_name|]; [|reflexivity].
  destruct (_get_entity_name_for_dataset dataset_data k) as [n|]; [|reflexivity].
  destruct (get by_name n); reflexivity.
Qed.

End CacheFacts.


(** ** The navigation structure *)

Section StructureFacts.

Lemma string_length_app (a b : string) :
  String.length (a ++ b)%string = (String.length a + String.length b)%nat.
Proof. induction a as [|c a IH]; simpl; [reflexivity | by rewrite IH]. Qed.

Lemma string_app_suffix_inj (a b s : string) :
  (a ++ s)%string = (b ++ s)%string -> a = b.
Proof.
  revert b. induction a as [|c a IH]; intros [|c' b] E.
  - reflexivity.
  - apply (f_equal String.length) in E. rewrite !string_length_app in E. simpl in E. lia.
  - apply (f_equal String.length) in E. rewrite !string_length_app in E. simpl in E. lia.
  - injection E as -> E. f_equal. by apply IH.
Qed.

Lemma structure_from_schema_get (navigation_tables : dict string) (k : string) :
  forall (navigation_order : list string) (acc : dict entity_info),
    get (fold_left
           (fun entity_structure entity_key =>
              let table := (entity_key ++ "s")%string in
              let table :=
                match get navigation_tables entity_key with
                | Some discovered => discovered
                | None => table
                end in
              set entity_structure entity_key (structure_entry entity_key table))
           navigation_order acc) k
    = if bool_decide (k ∈ navigation_order)
      then Some (structure_entry k
                   (match get navigation_tables k with
                    | Some discovered => discovered
                    | None => (k ++ "s")%string
                    end))
      else get acc k.
Proof.
  induction navigation_order as [|k0 order IH]; intros acc; [reflexivity|].
  cbn [fold_left]. rewrite IH. cbv zeta.
  destruct (decide (k ∈ order)) as [Hin|Hnot].
  - rewrite !bool_decide_eq_true_2; [reflexivity | by apply list_elem_of_further | exact Hin].
  - rewrite (bool_decide_eq_false_2 _ Hnot).
    destruct (decide (k0 = k)) as [->|Hne].
    + rewrite bool_decide_eq_true_2 by apply list_elem_of_here. apply get_set_eq.
    + rewrite bool_decide_eq_false_2 by (rewrite elem_of_cons; intros [?|?]; congruence).
      by apply get_set_ne.
Qed.

Lemma fold_set_wf {A V} (f : A -> string) (g : A -> V) (l : list A) (acc : dict V) :
  wf acc -> wf (fold_left (fun d x => set d (f x) (g x)) l acc).
Proof.
  revert acc. induction l as [|x l IH]; intros acc Hwf; [exact Hwf|].
  cbn [fold_left]. apply IH. by apply wf_set.
Qed.

Lemma set_Forall {V} (P : string * V -> Prop) (d : dict V) (k : string) (v : V) :
  Forall P d -> P (k, v) -> Forall P (set d k v).
Proof.
  intros Hd Hkv. induction Hd as [|[k' v'] d Hx Hd IH]; cbn [set].
  - by constructor.
  - destruct (String.eqb_spec k' k) as [->|Hne]; constructor; auto.
Qed.

Lemma structure_from_schema_entries (navigation_order : list string)
    (navigation_tables : dict string) :
  Forall (fun item => exists table, snd item = structure_entry (fst item) table)
         (structure_from_schema navigation_order navigation_tables).
Proof.
  unfold structure_from_schema.
  assert (forall order acc,
            Forall (fun item : string * entity_info =>
                      exists table, snd item = structure_entry (fst item) table) acc ->
            Forall (fun item : string * entity_info =>
                      exists table, snd item = structure_entry (fst item) table)
              (fold_left
                 (fun entity_structure entity_key =>
                    let table := (entity_key ++ "s")%string in
                    let table :=
                      match get navigation_tables entity_key with
                      | Some discovered => discovered
                      | None => table
                      end in
                    set entity_structure entity_key (structure_entry entity_key table))
                 order acc)) as Hfold.
  { induction order as [|k order IH]; intros acc Hacc; [exact Hacc|].
    cbn [fold_left]. apply IH. apply set_Forall; [exact Hacc|]. cbn. eauto. }
  apply Hfold. constructor.
Qed.

Lemma structure_wf (navigation_order : list string) (navigation_tables : dict string) :
  wf (structure_from_schema navigation_order navigation_tables).
Proof.
  unfold structure_from_schema.
  apply (fold_set_wf (fun k => k)
           (fun k => structure_entry k
                       (match get navigation_tables k with
                        | Some discovered => discovered
                        | None => (k ++ "s")%string
                        end))).
  apply wf_nil.
Qed.

Lemma structure_lookup (navigation_order : list string) (navigation_tables : dict string)
    (entity_key : string) :
  get (structure_from_schema navigation_order navigation_tables) entity_key
  = if bool_decide (entity_key ∈ navigation_order)
    then Some {| table_name :=
                   default (entity_key ++ "s")%string (get navigation_tables entity_key);
                 field_name := entity_key;
                 foreign_key_column := (entity_key ++ "_id")%string |}
    else None.
Proof.
  unfold structure_from_schema. rewrite structure_from_schema_get. cbn [get].
  destruct (bool_decide _); [|reflexivity].
  unfold structure_entry. by destruct (get navigation_tables entity_key).
Qed.

Lemma structure_run {W : Type} `{Platform W} (database : Config)
    (navigation_order : list string) (st : W * list log_entry) :
  cfg_navigation_order database = Some navigation_order ->
  exists navigation_tables st1,
    _get_navigation_entity_structure database st
    = (Ok (structure_from_schema navigation_order navigation_tables), st1).
Proof.
  intros Hcfg. destruct st as [w l]. unfold _get_navigation_entity_structure.
  rewrite Hcfg. unfold bind, attempt, perform, ret, logger.
  destruct (analyze_navigation_structure (cfg_main_table database) w)
    as [[navigation_tables|e] w'].
  - eexists _, _. reflexivity.
  - exists [], (w', l ++ [(ERROR,
                     ("Failed to get dynamic navigation structure: " ++ exn_msg e)%string);
                    (INFO,
                     ("Using config-only navigation structure with " ++
                      PyStr.str_of_int
                        (Z.of_nat (length (structure_from_config navigation_order))) ++
                      " entities")%string)]).
    cbn. rewrite <- app_assoc. reflexivity.
Qed.

End StructureFacts.

(** X5.  The navigation structure, once the configuration gives an order.  With
    schema discovery working it has one entry per category of the order,
    whose table is the one discovered for the category, or its plural when
    none was; when discovery raises, the error is logged and every table is
    the plural of its category.  In both cases the field of the record is
    the category itself and the foreign-key column the category followed by
    [_id]; a category listed twice has one entry. *)
Theorem navigation_structure_cases {W : Type} `{Platform W} (database : Config)
    (navigation_order : list string) (w : W) (l : list log_entry) :
  cfg_navigation_order database = Some navigation_order ->
  match analyze_navigation_structure (cfg_main_table database) w with
  | (Ok navigation_tables, w') =>
      _get_navigation_entity_structure database (w, l)
      = (Ok (structure_from_schema navigation_order navigation_tables), (w', l))
  | (Raise e, w') =>
      _get_navigation_entity_structure database (w, l)
      = (Ok (structure_from_config navigation_order),
         (w', l ++ [(ERROR,
                     ("Failed to get dynamic navigation structure: " ++ exn_msg e)%string);
                    (INFO,
                     ("Using config-only navigation structure with " ++
                      PyStr.str_of_int
                        (Z.of_nat (length (structure_from_config navigation_order))) ++
                      " entities")%string)]))
  end
  /\ (forall navigation_tables,
        wf (structure_from_schema navigation_order navigation_tables)
        /\ forall entity_key,
             get (structure_from_schema navigation_order navigation_tables) entity_key
             = if bool_decide (entity_key ∈ navigation_order)
               then Some {| table_name :=
                              default (entity_key ++ "s")%string
                                      (get navigation_tables entity_key);
                            field_name := entity_key;
                            foreign_key_column := (entity_key ++ "_id")%string |}
               else None)
  /\ structure_from_config navigation_order = structure_from_schema navigation_order [].
Proof.
  intros Hcfg. split; [|split].
  - unfold _get_navigation_entity_structure. rewrite Hcfg.
    unfold bind, attempt, perform, ret, logger.
    destruct (analyze_navigation_structure (cfg_main_table database) w)
      as [[navigation_tables|e] w'].
    + reflexivity.
    + cbn. rewrite <- app_assoc. reflexivity.
  - intros navigation_tables. split; [apply structure_wf|].
    intros entity_key. apply structure_lookup.
  - reflexivity.
Qed.

Lemma navigation_structure_cases_witness :
  _get_navigation_entity_structure Sample.config (Sample.fresh Sample.no_check, [])
  = (Ok (structure_from_schema
           ["accelerator"; "stage"; "campaign"; "detector"; "file_type"] []),
     (Sample.fresh Sample.no_check, [])).
Proof.
  exact (proj1 (navigation_structure_cases (W:=Pg.world) Sample.config
                  ["accelerator"; "stage"; "campaign"; "detector"; "file_type"]
                  (Sample.fresh Sample.no_check) [] eq_refl)).
Defined.

Section NavigationKeyFacts.
Context {W : Type} `{Platform W}.
Variable database : Config.

Lemma keys_set_mem {V} (d : dict V) (k : string) (v : V) :
  In k (keys d) -> keys (set d k v) = keys d.
Proof.
  intros Hin. rewrite keys_set. unfold mem.
  destruct (get d k) eqn:E; [reflexivity|]. by apply get_None in E.
Qed.

(** The loop assigns to columns that are there already: it keeps the
    columns, and a column no resolved category writes to keeps its value. *)
Lemma create_navigation_loop_keys (dataset_name : string) (dataset_data : FccDataset)
    (items : dict entity_info) :
  forall foreign_key_ids st fks st',
    Forall (fun item => In (foreign_key_column (snd item)) (keys foreign_key_ids)) items ->
    create_navigation_loop dataset_name dataset_data items foreign_key_ids st
      = (Ok fks, st') ->
    keys fks = keys foreign_key_ids
    /\ forall col,
         Forall (fun item =>
                   foreign_key_column (snd item) = col ->
                   entity_name_of dataset_data (field_name (snd item)) = None) items ->
         get fks col = get foreign_key_ids col.
Proof.
  induction items as [|[entity_key info] rest IH]; intros fks0 st fks st' Hcols.
  - cbn. unfold ret. intros [= <- <-]. by split.
  - apply Forall_cons in Hcols as [Hcol Hcols]. cbn [snd] in Hcol.
    rewrite create_navigation_loop_eq.
    destruct (entity_name_of dataset_data (field_name info)) as [entity_name|] eqn:En.
    + destruct (_get_or_create_entity _ _ _ st) as [[id|e] [w1 l1]].
      * intros E. apply IH in E as [Hkeys Hget].
        -- rewrite keys_set_mem in Hkeys by exact Hcol. split; [exact Hkeys|].
           intros col Hall. apply Forall_cons in Hall as [Hthis Hall]. cbn [snd] in Hthis.
           rewrite (Hget col Hall). apply get_set_ne. intros Heq.
           specialize (Hthis Heq). congruence.
        -- rewrite keys_set_mem by exact Hcol. exact Hcols.
      * intros [= <- <-]. by split.
    + intros E. apply IH in E as [Hkeys Hget]; [|exact Hcols].
      split; [exact Hkeys|]. intros col Hall. apply Forall_cons in Hall as [_ Hall]. auto.
Qed.

Lemma initial_foreign_keys (infos : list entity_info) :
  forall acc : dict (option Z),
    wf acc ->
    (forall col v, get acc col = Some v -> v = None) ->
    let fks := fold_left (fun d info => set d (foreign_key_column info) None) infos acc in
    wf fks
    /\ (forall col v, get fks col = Some v -> v = None)
    /\ forall col, In col (keys fks) <->
                   In col (keys acc) \/ In col (map foreign_key_column infos).
Proof.
  induction infos as [|info infos IH]; intros acc Hwf Hnull; cbn [fold_left map].
  - split; [exact Hwf|]. split; [exact Hnull|]. intros col. cbn. tauto.
  - destruct (IH (set acc (foreign_key_column info) None)) as (Hwf' & Hnull' & Hkeys').
    + by apply wf_set.
    + intros col v. destruct (decide (foreign_key_column info = col)) as [<-|Hne].
      * rewrite get_set_eq. congruence.
      * rewrite get_set_ne by exact Hne. apply Hnull.
    + split; [exact Hwf'|]. split; [exact Hnull'|]. intros col. rewrite Hkeys'.
      rewrite keys_set. destruct (mem acc (foreign_key_column info)) eqn:Em.
      * cbn [In]. split; [tauto|]. intros [?|[<-|?]]; auto. left.
        unfold mem in Em. destruct (get acc _) eqn:Eg; [|discriminate].
        apply get_Some_In in Eg. exact (in_map fst _ _ Eg).
      * rewrite in_app_iff. cbn [In]. tauto.
Qed.

End NavigationKeyFacts.

(** The run of [_create_navigation_entities]: it returns, and the columns of
    the foreign keys are those of the configured categories. *)
Lemma navigation_entities_keys {W : Type} `{Platform W}
    (database : Config) (dataset_data : FccDataset) (dataset_name : string)
    (navigation_order : list string) (st : W * list log_entry) :
  cfg_navigation_order database = Some navigation_order ->
  exists fks st',
    _create_navigation_entities database dataset_data dataset_name st = (Ok fks, st')
    /\ wf fks
    /\ (forall col,
          In col (keys fks) <->
          exists entity_key,
            In entity_key navigation_order /\ col = (entity_key ++ "_id")%string)
    /\ (forall entity_key,
          In entity_key navigation_order ->
          entity_name_of dataset_data entity_key = None ->
          get fks (entity_key ++ "_id")%string = Some None).
Proof.
  intros Hcfg.
  destruct (structure_run database navigation_order st Hcfg)
    as (navigation_tables & st1 & Es).
  pose proof (structure_wf navigation_order navigation_tables) as Hwf.
  pose proof (structure_lookup navigation_order navigation_tables) as Hget.
  pose proof (structure_from_schema_entries navigation_order navigation_tables) as Hentries.
  set (es := structure_from_schema navigation_order navigation_tables) in *.
  destruct (initial_foreign_keys (values es) [] wf_nil ltac:(discriminate))
    as (Hwf0 & Hnull0 & Hkeys0).
  set (fks0 := fold_left (fun d info => set d (foreign_key_column info) None)
                         (values es) []) in *.
  assert (forall col,
            In col (keys fks0) <->
            exists entity_key,
              In entity_key navigation_order /\ col = (entity_key ++ "_id")%string)
    as Hcols0.
  { intros col. rewrite Hkeys0. cbn [keys map In]. split.
    - intros [[]|Hin]. unfold values in Hin. rewrite map_map in Hin.
      apply in_map_iff in Hin as ([k info] & <- & Hin).
      rewrite Forall_forall in Hentries.
      destruct (Hentries (k, info) ltac:(by apply list_elem_of_In)) as [table Ei].
      cbn [fst snd] in *. subst info. exists k. split; [|reflexivity].
      apply get_In in Hin; [|exact Hwf]. rewrite Hget in Hin.
      destruct (decide (k ∈ navigation_order)) as [Hk|Hk].
      + by apply list_elem_of_In.
      + by rewrite (bool_decide_eq_false_2 _ Hk) in Hin.
    - intros (k & Hk & ->). right. unfold values. rewrite map_map.
      apply in_map_iff.
      pose proof (Hget k) as Hgk.
      rewrite bool_decide_eq_true_2 in Hgk by (by apply list_elem_of_In).
      apply get_Some_In in Hgk. eexists (k, _). split; [|exact Hgk]. reflexivity. }
  assert (Forall (fun item => In (foreign_key_column (snd item)) (keys fks0)) es) as Hitems.
  { apply Forall_forall. intros [k info] Hin. cbn [snd]. apply Hkeys0. right.
    apply in_map. unfold values. apply in_map_iff. exists (k, info).
    split; [reflexivity | by apply list_elem_of_In]. }
  unfold _create_navigation_entities. rewrite (bind_ok _ _ _ _ _ Es).
  fold es. fold fks0.
  destruct es as [|item es'] eqn:Ees.
  - destruct st1 as [w1 l1]. rewrite bind_logger. unfold ret.
    eexists _, _. split; [reflexivity|].
    split; [exact Hwf0|]. split; [exact Hcols0|].
    intros k Hk _. 
    destruct (get fks0 (k ++ "_id")%string) as [v|] eqn:Eg.
    + by rewrite (Hnull0 _ _ Eg).
    + apply get_None in Eg. exfalso. apply Eg, Hcols0. eauto.
  - rewrite <- Ees in *.
    destruct (create_navigation_loop_total dataset_name dataset_data es fks0 st1)
      as (fks & st' & E).
    rewrite E. exists fks, st'. split; [reflexivity|].
    destruct (create_navigation_loop_keys dataset_name dataset_data es fks0 st1 fks st'
                Hitems E) as [Hkeys Hsame].
    split; [unfold wf; rewrite Hkeys; exact Hwf0|].
    split; [intros col; rewrite Hkeys; apply Hcols0|].
    intros k Hk Hnone. rewrite Hsame.
    + destruct (get fks0 (k ++ "_id")%string) as [v|] eqn:Eg.
      * by rewrite (Hnull0 _ _ Eg).
      * apply get_None in Eg. exfalso. apply Eg, Hcols0. eauto.
    + apply Forall_forall. intros [k' info] Hin Hcol. cbn [snd] in *.
      rewrite Forall_forall in Hentries. destruct (Hentries _ Hin) as [table Ei].
      cbn [fst snd] in Ei. subst info. cbn [foreign_key_column field_name structure_entry] in *.
      apply string_app_suffix_inj in Hcol. by subst k'.
Qed.



(** ** The identifier column of a reference table *)

Section IdColumnFacts.

Lemma rev_involutive (s : string) : String.rev (String.rev s) = s.
Proof.
  induction s as [|c s IH]; [reflexivity|].
  change (String c s) with (String c EmptyString ++ s)%string at 1.
  rewrite rev_app_distr, rev_app_distr, IH. reflexivity.
Qed.

Lemma rstrip_s_app (t : string) :
  PyStr.rstrip_chars "s" (t ++ "s")%string = PyStr.rstrip_chars "s" t.
Proof.
  unfold PyStr.rstrip_chars, PyStr.rstrip_by. rewrite rev_app_distr. reflexivity.
Qed.

Lemma rstrip_s_none (key : string) :
  PyStr.endswith key "s" = false -> PyStr.rstrip_chars "s" key = key.
Proof.
  unfold PyStr.endswith, PyStr.rstrip_chars, PyStr.rstrip_by. intros Hend.
  assert (PyStr.lstrip_by
            (fun c => existsb (Ascii.eqb c) (list_ascii_of_string "s"))
            (String.rev key) = String.rev key) as ->; [|apply rev_involutive].
  destruct (String.rev key) as [|c r]; [reflexivity|].
  cbn [PyStr.lstrip_by list_ascii_of_string existsb].
  change (String.rev "s") with "s" in Hend. cbn [String.prefix] in Hend.
  destruct (Ascii.eqb_spec c "s") as [->|Hne]; [|reflexivity].
  destruct (Ascii.ascii_dec "s" "s") as [_|Hn]; [|contradiction].
  by destruct r.
Qed.

End IdColumnFacts.

(** X7.  The identifier column [_get_or_create_entity] selects and returns is
    the table name without any of its trailing [s], followed by [_id].  For
    the conventional table of a category, the category followed by [s], it
    is the foreign-key column of the category when the category does not
    itself end in [s]; the trailing [s] of a category that does is cut off
    as well.  The lookup of a non-empty name that finds a row under that
    column returns its identifier. *)
Theorem id_column_convention {W : Type} `{Platform W} (table entity_key name : string)
    (accelerator_id : option Z) (w w' : W) (l : list log_entry) (id : Z) :
  id_column_of (table ++ "s") = id_column_of table
  /\ (PyStr.endswith entity_key "s" = false ->
      id_column_of (entity_key ++ "s") = (entity_key ++ "_id")%string)
  /\ (name <> EmptyString ->
      conn_fetchrow_id table (id_column_of table) name w = (Ok (Some id), w') ->
      _get_or_create_entity table name accelerator_id (w, l) = (Ok id, (w', l))).
Proof.
  split; [|split].
  - unfold id_column_of. by rewrite rstrip_s_app.
  - intros Hend. unfold id_column_of. by rewrite rstrip_s_app, rstrip_s_none.
  - intros Hname Hfound. unfold _get_or_create_entity.
    destruct (String.eqb_spec name EmptyString) as [|_]; [contradiction|].
    fold (id_column_of table). unfold bind, perform. rewrite Hfound. reflexivity.
Qed.

Lemma id_column_convention_witness :
  id_column_of "detectors" = "detector_id"
  /\ id_column_of "statuss" = "statu_id".
Proof.
  split.
  - exact (proj1 (proj2 (id_column_convention (W:=Pg.world) "" "detector" "" None
                           (Sample.fresh Sample.no_check) (Sample.fresh Sample.no_check)
                           [] 0)) eq_refl).
  - exact (proj1 (id_column_convention (W:=Pg.world) "status" "" "" None
                    (Sample.fresh Sample.no_check) (Sample.fresh Sample.no_check) [] 0)).
Defined.

(** ** Metadata across imports *)

Section MetadataFacts.

Lemma filter_falsy (x : option json) :
  truthy (default (JBool false)
            (match x with
             | Some value => if is_empty_value value then None else Some value
             | None => None
             end))
  = truthy (default (JBool false) x).
Proof.
  destruct x as [v|]; [|reflexivity].
  destruct (is_empty_value v) eqn:E; [|reflexivity].
  cbn. destruct (truthy v) eqn:Et; [|reflexivity].
  apply truthy_nonempty in Et. congruence.
Qed.

Lemma filter_twice (x : option json) :
  match
    match x with
    | Some value => if is_empty_value value then None else Some value
    | None => None
    end
  with
  | Some value => if is_empty_value value then None else Some value
  | None => None
  end
  = match x with
    | Some value => if is_empty_value value then None else Some value
    | None => None
    end.
Proof.
  destruct x as [v|]; [|reflexivity].
  destruct (is_empty_value v) eqn:E; [reflexivity | by rewrite E].
Qed.

End MetadataFacts.

(** X8.  Importing the same metadata a second time changes nothing, when it
    carries no lock-control key: every key of the stored metadata holds
    after the second import what it held after the first. *)
Theorem reimport_metadata_idempotent (existing new : dict json) :
  wf existing -> wf new ->
  (forall key, is_lock_key key = true -> get new key = None) ->
  forall key,
    get (stored_after (stored_after existing new) new) key
    = get (stored_after existing new) key.
Proof.
  intros He Hn Hfree key. unfold stored_after.
  assert (forall k, locked (_filter_empty_metadata_values
                              (_merge_metadata_respecting_locks existing new)) k
                    = locked existing k) as Hlocks.
  { intros k. unfold locked.
    rewrite filter_get by (by apply merge_wf).
    rewrite merge_get by exact Hn.
    rewrite (Hfree _ (lock_field_name_is_lock_key k)). apply filter_falsy. }
  rewrite (filter_get (_merge_metadata_respecting_locks
                         (_filter_empty_metadata_values _) new))
    by (apply merge_wf, stored_wf, He).
  rewrite (merge_get (_filter_empty_metadata_values _)) by exact Hn.
  rewrite Hlocks.
  rewrite !(filter_get (_merge_metadata_respecting_locks existing new))
    by (by apply merge_wf).
  rewrite merge_get by exact Hn.
  destruct (get new key) as [v|] eqn:Ev; [|apply filter_twice].
  destruct (is_lock_key key) eqn:El; [by rewrite (Hfree key El) in Ev|].
  destruct (locked existing key); [apply filter_twice | reflexivity].
Qed.

Lemma reimport_metadata_idempotent_witness :
  get (stored_after
         (stored_after [("__status__lock__", JBool true); ("status", JStr "A")]
                       [("status", JStr "B"); ("size", JInt 3)])
         [("status", JStr "B"); ("size", JInt 3)]) "size"
  = get (stored_after [("__status__lock__", JBool true); ("status", JStr "A")]
                      [("status", JStr "B"); ("size", JInt 3)]) "size".
Proof.
  apply reimport_metadata_idempotent; [solve_wf | solve_wf |].
  intros key Hlock. cbn [get].
  destruct (String.eqb_spec "status" key) as [<-|_]; [discriminate|].
  destruct (String.eqb_spec "size" key) as [<-|_]; [discriminate | reflexivity].
Defined.

(** X9.  A lock takes effect from the next import on: the import that sets the
    control key of an unlocked field and gives the field a value stores that
    value, and later imports that leave the lock alone do not change it. *)
Theorem lock_applies_from_next_import (existing new : dict json) (field : string)
    (value lock_value : json) (later : list (dict json)) :
  wf existing -> wf new ->
  is_lock_key field = false ->
  locked existing field = false ->
  get new field = Some value ->
  is_empty_value value = false ->
  get new (lock_field_name field) = Some lock_value ->
  truthy lock_value = true ->
  Forall (fun import => wf import /\ keeps_lock field import) later ->
  get (stored_after existing new) field = Some value
  /\ locked (stored_after existing new) field = true
  /\ get (fold_left stored_after later (stored_after existing new)) field = Some value
  /\ locked (fold_left stored_after later (stored_after existing new)) field = true.
Proof.
  intros He Hn Hnl Hunlocked Hv Hne Hlock Htrue Hlater.
  assert (get (stored_after existing new) field = Some value) as Hstored
    by (by apply unlocked_field_applied).
  assert (locked (stored_after existing new) field = true) as Hlocked.
  { unfold stored_after, locked.
    rewrite filter_get by (by apply merge_wf).
    rewrite merge_get by exact Hn.
    rewrite lock_field_name_is_lock_key, Hlock.
    by rewrite (truthy_nonempty _ Htrue). }
  split; [exact Hstored|]. split; [exact Hlocked|].
  assert (wf (stored_after existing new)) as Hwf by (by apply stored_wf).
  revert Hstored Hlocked Hwf. generalize (stored_after existing new) as d.
  induction Hlater as [|import later [Hwi Hkeep] Hlater IH]; intros d Hd Hl Hwf;
    [by split|].
  cbn [fold_left]. apply IH.
  - unfold stored_after. rewrite locked_field_kept; try assumption.
    intros v Hv'. congruence.
  - by apply lock_kept.
  - by apply stored_wf.
Qed.

Lemma lock_applies_from_next_import_witness :
  get (fold_left stored_after [[("status", JStr "C")]]
         (stored_after [("status", JStr "A")]
                       [("status", JStr "B"); ("__status__lock__", JBool true)]))
      "status" = Some (JStr "B").
Proof.
  refine (proj1 (proj2 (proj2
            (lock_applies_from_next_import [("status", JStr "A")]
               [("status", JStr "B"); ("__status__lock__", JBool true)] "status"
               (JStr "B") (JBool true) [[("status", JStr "C")]]
               _ _ eq_refl eq_refl eq_refl eq_refl eq_refl eq_refl _)))).
  - solve_wf.
  - solve_wf.
  - repeat constructor. solve_wf.
Defined.

(** ** The metadata of a record *)

(** X10.  What [get_all_metadata] returns for a key: the entry of the raw
    metadata when there is one, else the core field behind the key when it
    is set.  The process name and the reference fields are never taken from
    the record's own fields. *)
Theorem get_all_metadata_lookup (self : FccDataset) (key : string) :
  wf (raw_metadata self) ->
  wf (get_all_metadata self)
  /\ get (get_all_metadata self) key
     = match get (raw_metadata self) key with
       | Some value => Some value
       | None => core_metadata_field self key
       end.
Proof.
  intros Hraw. unfold get_all_metadata.
  set (core := set_if_present JStr "status" (status self) _).
  assert (wf core /\ get core key = core_metadata_field self key) as [Hwf Hcore].
  { subst core. unfold core_metadata_field.
    assert (forall {A} (inj : A -> json) k (field : option A) d,
              wf d -> wf (set_if_present inj k field d)) as Hwf_step.
    { intros A inj k [v|] d Hd; [by apply wf_set | exact Hd]. }
    assert (forall {A} (inj : A -> json) k (field : option A) d,
              get (set_if_present inj k field d) key
              = if String.eqb key k
                then match field with Some v => Some (inj v) | None => get d key end
                else get d key) as Hget_step.
    { intros A inj k [v|] d; cbn [set_if_present].
      - destruct (String.eqb_spec key k) as [->|Hne]; [apply get_set_eq|].
        apply get_set_ne. congruence.
      - by destruct (String.eqb key k). }
    split; [repeat apply Hwf_step; apply wf_nil|].
    rewrite !Hget_step. cbn [get].
    destruct (String.eqb_spec key "status") as [->|_];
      [by destruct (status self)|].
    destruct (String.eqb_spec key "comment") as [->|_];
      [by destruct (comment self)|].
    destruct (String.eqb_spec key "description") as [->|_];
      [by destruct (description self)|].
    destruct (String.eqb_spec key "size") as [->|_];
      [by destruct (size self)|].
    destruct (String.eqb_spec key "path") as [->|_];
      [by destruct (path self)|].
    destruct (String.eqb_spec key "n-events") as [->|_];
      [by destruct (n_events self) | reflexivity]. }
  split; [by apply wf_update|].
  rewrite get_update by exact Hraw. rewrite Hcore. reflexivity.
Qed.

Lemma get_all_metadata_lookup_witness :
  get (get_all_metadata Sample.p1) "status" = Some (JStr "done")
  /\ get (get_all_metadata Sample.p1) "accelerator" = None.
Proof.
  split.
  - exact (proj2 (get_all_metadata_lookup Sample.p1 "status" ltac:(solve_wf))).
  - exact (proj2 (get_all_metadata_lookup Sample.p1 "accelerator" ltac:(solve_wf))).
Defined.

(** ** The creation of a main entity on the engine *)

Section MainEntityFacts.

Lemma filter_no_empty_values (d : dict json) :
  no_empty_values (_filter_empty_metadata_values d).
Proof.
  unfold no_empty_values, _filter_empty_metadata_values, filter_values.
  apply Forall_forall. intros [k v] Hin%list_elem_of_In%filter_In.
  destruct Hin as [_ Hkeep]. cbn [snd] in *. rewrite keep_is_nonempty in Hkeep.
  by destruct (is_empty_value v).
Qed.

(** A column whose assignments are all guarded by a lock that is set keeps
    its stored value. *)
Lemma apply_set_frozen (now : Z) (old proposed : Pg.row) (c : string)
    (clauses : list set_clause) :
  (forall col lk, In (SetUnlessLocked col lk) clauses -> col = c ->
                  Pg.lock_check old lk = Some true) ->
  (forall col, In (SetNow col) clauses -> col <> c) ->
  forall acc row,
    Pg.apply_set now old proposed clauses acc = Some row -> row !! c = acc !! c.
Proof.
  induction clauses as [|[col lk|col] clauses IH]; intros Hlocked Hnow acc row; cbn.
  - by intros [= <-].
  - assert (forall col' lk', In (SetUnlessLocked col' lk') clauses -> col' = c ->
                             Pg.lock_check old lk' = Some true) as Hlocked'
      by (intros col' lk' Hin; apply Hlocked; by right).
    assert (forall col', In (SetNow col') clauses -> col' <> c) as Hnow'
      by (intros col' Hin; apply Hnow; by right).
    destruct (Pg.lock_check old lk) as [[|]|] eqn:El; [by apply IH | | discriminate].
    intros E. rewrite (IH Hlocked' Hnow' _ _ E).
    assert (col <> c) as Hne.
    { intros ->. rewrite (Hlocked c lk (or_introl eq_refl) eq_refl) in El. discriminate. }
    destruct (proposed !! col); [by rewrite lookup_insert_ne | by rewrite lookup_delete_ne].
  - assert (col <> c) as Hne by (apply Hnow; by left).
    intros E. rewrite (IH (fun col' lk' Hin => Hlocked col' lk' (or_intror Hin))
                          (fun col' Hin => Hnow col' (or_intror Hin)) _ _ E).
    by rewrite lookup_insert_ne.
Qed.

(** The merge step hands on the entity dictionary with its metadata replaced
    by a filtered JSON text; it reads the store and leaves it as it is. *)
Lemma merge_filtered (entity_dict : dict pyval) (metadata : dict json) (t : string)
    (w : Pg.world) (l : list log_entry) :
  get entity_dict "metadata" = Some (PyMetadata metadata) ->
  exists r,
    _merge_metadata_with_locked_fields entity_dict t (w, l) = (r, (w, l))
    /\ forall merged, r = Ok merged ->
         exists d, merged = set entity_dict "metadata"
                                (PyJsonText (_filter_empty_metadata_values d)).
Proof.
  intros Hmd. unfold _merge_metadata_with_locked_fields. rewrite Hmd.
  assert (exists f, perform (conn_fetchval_metadata t (default PyNone (get entity_dict "uuid")))
                      (w, l) = (f, (w, l))) as [f Ef].
  { unfold perform. cbn [conn_fetchval_metadata pg_platform]. unfold Pg.fetchval_metadata.
    destruct (Pg.main_tables w !! t) as [rows|]; [|eauto].
    destruct (default PyNone (get entity_dict "uuid")); eauto.
    destruct (rows !! s) as [r|]; [|eauto].
    destruct (r !! "metadata") as [[]|]; eauto. }
  unfold bind. rewrite Ef. destruct f as [existing|e];
    [|eexists; split; [reflexivity|]; intros ?; discriminate].
  destruct (fetched_truthy existing).
  - unfold merge_and_filter.
    destruct (_parse_existing_metadata existing) as [| | | | |items|d];
      try (eexists; split; [reflexivity|]; intros ?; discriminate).
    + destruct metadata as [|[key v] rest];
        [|destruct (is_lock_key key)];
        eexists; (split; [reflexivity|]); intros ?; discriminate.
    + eexists. split; [reflexivity|]. intros ? [= <-]. eauto.
  - eexists. split; [reflexivity|]. intros ? [= <-]. eauto.
Qed.

(** The upsert on the engine: the row it writes, or an exception and the
    store as it was. *)
Lemma upsert_outcome (entity_dict : dict pyval) (t u : string) (w : Pg.world)
    (l : list log_entry) :
  wf entity_dict ->
  get entity_dict "uuid" = Some (PyStr u) ->
  exists r w',
    _upsert_entity entity_dict t (w, l) = (r, (w', l))
    /\ match r with
       | Ok _ =>
           exists rows row,
             Pg.main_tables w !! t = Some rows
             /\ w' = Pg.with_main_tables w (<[t := <[u := row]> rows]> (Pg.main_tables w))
             /\ match rows !! u with
                | None => row = Pg.row_of (keys entity_dict) (values entity_dict)
                | Some old =>
                    Pg.apply_set (Pg.clock w) old
                      (Pg.row_of (keys entity_dict) (values entity_dict))
                      (update_clauses (keys entity_dict)) old = Some row
                end
       | Raise _ => w' = w
       end.
Proof.
  intros Hwf Hu. unfold _upsert_entity, perform.
  cbn [conn_execute_upsert pg_platform]. unfold Pg.execute_upsert.
  cbn [q_table q_columns q_conflict q_set]. fold (update_clauses (keys entity_dict)).
  destruct (Pg.main_tables w !! t) as [rows|] eqn:Et; [|by eexists _, _].
  rewrite row_of_lookup by exact Hwf. rewrite Hu. cbn [Pg.sql_of].
  destruct (negb (Pg.main_check w _)); [by eexists _, _|].
  destruct (rows !! u) as [old|] eqn:Eu.
  - destruct (Pg.apply_set _ _ _ _ _) as [updated|] eqn:Ea; [|by eexists _, _].
    destruct (negb (Pg.main_check w updated)); [by eexists _, _|].
    eexists _, _. split; [reflexivity|]. exists rows, updated. by rewrite Eu.
  - eexists _, _. split; [reflexivity|]. eexists rows, _. by rewrite Eu.
Qed.

Variable config : Config.
Variable name : string.
Variable fks : dict (option Z).
Hypothesis fks_wf : wf fks.
Hypothesis fks_columns : fk_columns fks.

(** What the creation of a main entity does to the engine. *)
Lemma create_main_outcome (metadata : dict json) (t : string) (w : Pg.world)
    (l : list log_entry) :
  exists r w' l',
    _create_main_entity_with_conflict_resolution config name metadata fks t (w, l)
    = (r, (w', l'))
    /\ match r with
       | Ok _ =>
           l' = l
           /\ exists rows row proposed columns d,
                Pg.main_tables w !! t = Some rows
                /\ w' = Pg.with_main_tables w
                          (<[t := <[generate_dataset_uuid config name fks := row]> rows]>
                             (Pg.main_tables w))
                /\ proposed !! "metadata"
                   = Some (Pg.SqlJsonb (JObj (_filter_empty_metadata_values d)))
                /\ match rows !! generate_dataset_uuid config name fks with
                   | None => row = proposed
                   | Some old =>
                       Pg.apply_set (Pg.clock w) old proposed (update_clauses columns) old
                       = Some row
                   end
       | Raise e => w' = w /\ l' = l ++ [creation_error name e]
       end.
Proof.
  unfold _create_main_entity_with_conflict_resolution, _create_main_entity.
  fold (entity_dict_of config name (PyMetadata metadata) fks).
  set (E := entity_dict_of config name (PyMetadata metadata) fks).
  assert (wf E) as HE by (by apply entity_dict_wf).
  assert (get E "uuid" = Some (PyStr (generate_dataset_uuid config name fks))) as Hu
    by apply entity_dict_uuid.
  assert (get E "metadata" = Some (PyMetadata metadata)) as Hmd
    by (by apply entity_dict_metadata).
  destruct (merge_filtered E metadata t w l Hmd) as (r & Em & Hr).
  unfold bind at 1, attempt at 1. unfold bind at 1. rewrite Em.
  destruct r as [merged|e];
    [|unfold bind, logger, reraise; by eexists _, _, _].
  destruct (Hr merged eq_refl) as [d ->].
  set (merged := set E "metadata" (PyJsonText (_filter_empty_metadata_values d))).
  assert (wf merged) as Hwm by (by apply wf_set).
  assert (get merged "uuid" = Some (PyStr (generate_dataset_uuid config name fks))) as Hum
    by (subst merged; by rewrite get_set_ne by discriminate).
  destruct (upsert_outcome merged t _ w l Hwm Hum) as (r & w' & Eu & Hcase).
  rewrite Eu. destruct r as [[]|e].
  - eexists _, _, _. split; [reflexivity|]. split; [reflexivity|].
    destruct Hcase as (rows & row & Et & Ew & Hrow).
    exists rows, row, (Pg.row_of (keys merged) (values merged)), (keys merged), d.
    split; [exact Et|]. split; [exact Ew|]. split; [|exact Hrow].
    rewrite row_of_lookup by exact Hwm. subst merged. by rewrite get_set_eq.
  - subst w'. unfold bind, logger, reraise. by eexists _, _, _.
Qed.

End MainEntityFacts.

(** X11.  The creation of a main entity touches one row: whatever the outcome,
    the reference tables, the other main tables and every other row of the
    main table are as before, and no row is removed.  When it raises, the
    store is unchanged and the failure is logged once; when it returns, the
    row of the identifier derived from the name and the foreign keys is
    there and nothing is logged. *)
Theorem main_entity_touches_one_row (config : Config) (name : string)
    (metadata : dict json) (fks : dict (option Z)) (t : string) (w : Pg.world)
    (l : list log_entry) :
  wf fks -> fk_columns fks ->
  exists r w' l',
    _create_main_entity_with_conflict_resolution config name metadata fks t (w, l)
    = (r, (w', l'))
    /\ Pg.ref_tables w' = Pg.ref_tables w
    /\ (forall t', t' <> t -> Pg.main_tables w' !! t' = Pg.main_tables w !! t')
    /\ (forall u', u' <> generate_dataset_uuid config name fks ->
          main_rows w' t !! u' = main_rows w t !! u')
    /\ dom (main_rows w t) ⊆ dom (main_rows w' t)
    /\ match r with
       | Ok _ =>
           l' = l /\ is_Some (main_rows w' t !! generate_dataset_uuid config name fks)
       | Raise e => w' = w /\ l' = l ++ [creation_error name e]
       end.
Proof.
  intros Hwf Hfk.
  destruct (create_main_outcome config name fks Hwf Hfk metadata t w l)
    as (r & w' & l' & E & Hcase).
  exists r, w', l'. split; [exact E|].
  remember (generate_dataset_uuid config name fks) as u eqn:Hu_def. clear Hu_def.
  destruct r as [[]|e].
  - destruct Hcase as (-> & rows & row & proposed & columns & d & Et & -> & _ & _).
    assert (main_rows
              (Pg.with_main_tables w (<[t := <[u := row]> rows]> (Pg.main_tables w))) t
            = <[u := row]> (main_rows w t)) as Hrows.
    { unfold main_rows. cbn [Pg.main_tables Pg.with_main_tables].
      rewrite lookup_insert_eq, Et. reflexivity. }
    split; [reflexivity|]. split.
    { intros t' Hne. cbn [Pg.main_tables Pg.with_main_tables].
      by rewrite lookup_insert_ne. }
    split. { intros u' Hne. rewrite Hrows. by rewrite lookup_insert_ne. }
    split. { rewrite Hrows. apply dom_insert_subseteq. }
    split; [reflexivity|]. rewrite Hrows, lookup_insert_eq. eauto.
  - destruct Hcase as [-> ->]. repeat split; reflexivity.
Qed.

Lemma main_entity_touches_one_row_witness :
  exists r w' l',
    _create_main_entity_with_conflict_resolution Sample.config "p1"
      [("status", JStr "done")] Sample.all_null "datasets"
      (Sample.fresh Sample.no_check, []) = (r, (w', l'))
    /\ Pg.ref_tables w' = Pg.ref_tables (Sample.fresh Sample.no_check).
Proof.
  assert (fk_columns Sample.all_null) as Hfk by (repeat constructor).
  destruct (main_entity_touches_one_row Sample.config "p1" [("status", JStr "done")]
              Sample.all_null "datasets" (Sample.fresh Sample.no_check) []
              ltac:(solve_wf) Hfk)
    as (r & w' & l' & E & Href & _).
  exists r, w', l'. by split.
Defined.

(** X12.  The import keeps the stored metadata free of empty values: when no
    metadata object of the main table holds a null, an empty string or an
    empty list before a main entity is created or updated, none does
    afterwards, whatever the outcome and whatever the stored locks. *)
Theorem stored_metadata_stays_clean (config : Config) (name : string)
    (metadata : dict json) (fks : dict (option Z)) (t : string) (w : Pg.world)
    (l : list log_entry) :
  wf fks -> fk_columns fks ->
  table_clean w t ->
  table_clean
    (fst (snd (_create_main_entity_with_conflict_resolution config name metadata fks t
                 (w, l)))) t.
Proof.
  intros Hwf Hfk Hclean.
  destruct (create_main_outcome config name fks Hwf Hfk metadata t w l)
    as (r & w' & l' & E & Hcase).
  rewrite E. cbn [fst snd].
  remember (generate_dataset_uuid config name fks) as u eqn:Hu_def. clear Hu_def.
  destruct r as [[]|e]; [|by destruct Hcase as [-> _]].
  destruct Hcase as (_ & rows & row & proposed & columns & d0 & Et & -> & Hmd & Hrow).
  intros u' d Hd.
  destruct (decide (u' = u)) as [->|Hne].
  - rewrite (stored_metadata_updated w
               (Pg.with_main_tables w (<[t := <[u := row]> rows]> (Pg.main_tables w)))
               t u rows row eq_refl) in Hd.
    assert (row !! "metadata" = proposed !! "metadata"
            \/ exists old, rows !! u = Some old /\ row !! "metadata" = old !! "metadata")
      as [Hp|(old & Hold & Ho)].
    { destruct (rows !! u) as [old|] eqn:Eu; [|left; by subst row].
      assert ("metadata" <> "updated_at") as Hne by discriminate.
      destruct (apply_set_old_or_proposed (Pg.clock w) old proposed
                  (update_clauses columns) "metadata"
                  (fun col => update_clauses_now_ne columns "metadata" col Hne)
                  old row Hrow) as [Hsame|Hnew]; [right; eauto | by left]. }
    + rewrite Hp, Hmd in Hd. injection Hd as <-. apply filter_no_empty_values.
    + apply (Hclean u d). unfold stored_metadata, main_rows.
      rewrite Et. cbn [default from_option id]. rewrite Hold, <- Ho. exact Hd.
  - apply (Hclean u' d). unfold stored_metadata, main_rows in *.
    cbn [Pg.main_tables Pg.with_main_tables] in Hd.
    rewrite lookup_insert_eq in Hd. cbn [default from_option id] in Hd.
    rewrite lookup_insert_ne in Hd by congruence. by rewrite Et.
Qed.

Lemma stored_metadata_stays_clean_witness :
  table_clean
    (fst (snd (_create_main_entity_with_conflict_resolution Sample.config "p1"
                 [("status", JStr "done"); ("comment", JNull)] Sample.all_null "datasets"
                 (Sample.fresh Sample.no_check, [])))) "datasets".
Proof.
  assert (fk_columns Sample.all_null) as Hfk by (repeat constructor).
  apply stored_metadata_stays_clean; [solve_wf | exact Hfk |].
  intros u d. unfold stored_metadata, main_rows.
  change (Pg.main_tables (Sample.fresh Sample.no_check) !! "datasets")
    with (Some (∅ : gmap string Pg.row)).
  cbn [default from_option id]. rewrite lookup_empty. discriminate.
Defined.

(** X13.  A lock on a column freezes the column: when the stored metadata of a
    record holds [true] under the control key of a column of the upsert
    (the name, the metadata as a whole, a foreign key), an import of the
    same identity leaves that column of the row as it is, whatever the
    import carries and whether it succeeds or fails.  The identifier
    column is never assigned. *)
Theorem locked_column_is_frozen (config : Config) (name : string)
    (metadata : dict json) (fks : dict (option Z)) (t column : string)
    (w : Pg.world) (l : list log_entry) (old : Pg.row) (d : dict json) :
  wf fks -> fk_columns fks ->
  main_rows w t !! generate_dataset_uuid config name fks = Some old ->
  old !! "metadata" = Some (Pg.SqlJsonb (JObj d)) ->
  column <> "updated_at" ->
  column = "uuid" \/ get d (lock_field_name column) = Some (JBool true) ->
  exists row,
    main_rows
      (fst (snd (_create_main_entity_with_conflict_resolution config name metadata fks t
                   (w, l)))) t
    !! generate_dataset_uuid config name fks = Some row
    /\ row !! column = old !! column.
Proof.
  intros Hwf Hfk Hold Hmd Hcol Hlock.
  destruct (create_main_outcome config name fks Hwf Hfk metadata t w l)
    as (r & w' & l' & E & Hcase).
  rewrite E. cbn [fst snd].
  remember (generate_dataset_uuid config name fks) as u eqn:Hu_def. clear Hu_def.
  destruct r as [[]|e]; [|destruct Hcase as [-> _]; eauto].
  destruct Hcase as (_ & rows & row & proposed & columns & d0 & Et & -> & _ & Hrow).
  assert (rows !! u = Some old) as Hu.
  { unfold main_rows in Hold. by rewrite Et in Hold. }
  rewrite Hu in Hrow. exists row. split.
  - unfold main_rows. cbn [Pg.main_tables Pg.with_main_tables].
    rewrite lookup_insert_eq. cbn [default from_option id]. by rewrite lookup_insert_eq.
  - apply (apply_set_frozen (Pg.clock w) old proposed column (update_clauses columns));
      [| intros col; by apply update_clauses_now_ne | exact Hrow].
    intros col lk Hin ->. apply update_clauses_unless in Hin as (_ & Hne & ->).
    destruct Hlock as [->|Hd]; [contradiction|].
    unfold Pg.lock_check. by rewrite Hmd, Hd.
Qed.

Lemma locked_column_is_frozen_witness :
  exists row,
    main_rows
      (fst (snd (_create_main_entity_with_conflict_resolution Sample.config "p1"
                   [("status", JStr "B")] [] "datasets" (Sample.metadata_locked, []))))
      "datasets"
    !! generate_dataset_uuid Sample.config "p1" [] = Some row
    /\ row !! "metadata"
       = Some (Pg.SqlJsonb
                 (JObj [("__metadata__lock__", JBool true);
                        ("__status__lock__", JBool true); ("status", JStr "A")])).
Proof.
  assert (main_rows Sample.metadata_locked "datasets"
          !! generate_dataset_uuid Sample.config "p1" []
          = Some (Sample.dataset_row Sample.p1_uuid "p1"
                    [("__metadata__lock__", JBool true);
                     ("__status__lock__", JBool true); ("status", JStr "A")])) as Hold
    by (vm_compute; reflexivity).
  assert (wf (@nil (string * option Z))) as Hwf by apply wf_nil.
  assert (fk_columns []) as Hfk by constructor.
  assert ("metadata" <> "updated_at") as Hne by discriminate.
  destruct (locked_column_is_frozen Sample.config "p1" [("status", JStr "B")] []
              "datasets" "metadata" Sample.metadata_locked []
              _ _ Hwf Hfk Hold eq_refl Hne (or_intror eq_refl))
    as (row & Hrow & Hsame).
  exists row. split; [exact Hrow|]. rewrite Hsame. reflexivity.
Defined.

(** ** Get-or-create on the engine *)

Section GetOrCreateEngineFacts.

Lemma lower_escape (c : ascii) : c <> Pg.escape -> Pg.lower c <> Pg.escape.
Proof.
  intros Hc. unfold Pg.lower.
  destruct ((65 <=? N_of_ascii c)%N && (N_of_ascii c <=? 90)%N) eqn:E; [|exact Hc].
  apply andb_prop in E as [Hlo%N.leb_le Hhi%N.leb_le].
  intros Heq. apply (f_equal N_of_ascii) in Heq.
  rewrite N_ascii_embedding in Heq by lia.
  change (N_of_ascii Pg.escape) with 92%N in Heq. lia.
Qed.

Lemma lower_str_no_escape (s : string) :
  ~ In Pg.escape (list_ascii_of_string s) -> ~ In Pg.escape (Pg.lower_str s).
Proof.
  unfold Pg.lower_str. intros Hs Hin. apply in_map_iff in Hin as (c & Hc & Hin).
  destruct (Ascii.ascii_dec c Pg.escape) as [->|Hne]; [contradiction|].
  by apply (lower_escape c).
Qed.

(** A pattern without the escape character matches itself. *)
Lemma like_refl (p : list ascii) : ~ In Pg.escape p -> Pg.like p p = true.
Proof.
  induction p as [|c p IH]; intros Hp; [reflexivity|].
  assert (c <> Pg.escape) as Hc by (intros ->; apply Hp; by left).
  assert (Pg.like p p = true) as Hrec by (apply IH; intros Hin; apply Hp; by right).
  cbn [Pg.like].
  destruct (Ascii.eqb c "%") eqn:E1.
  - destruct p as [|c' p']; rewrite Hrec; [reflexivity | apply orb_true_r].
  - destruct (Ascii.eqb c "_") eqn:E2; [exact Hrec|].
    destruct (Ascii.eqb_spec c Pg.escape) as [|_]; [contradiction|].
    by rewrite Ascii.eqb_refl, Hrec.
Qed.

Lemma no_escape_at_end (p : list ascii) :
  ~ In Pg.escape p -> Pg.ends_with_escape p = false.
Proof.
  induction p as [|c p IH]; intros Hp; [reflexivity|]. cbn [Pg.ends_with_escape].
  destruct (Ascii.eqb_spec c Pg.escape) as [->|_]; [exfalso; apply Hp; by left|].
  apply IH. intros Hin. apply Hp. by right.
Qed.

Lemma find_snoc {A} (p : A -> bool) (l : list A) (x : A) :
  List.find p l = None -> p x = true -> List.find p (l ++ [x]) = Some x.
Proof.
  induction l as [|y l IH]; cbn [List.find app]; intros Hl Hx; [by rewrite Hx|].
  destruct (p y); [discriminate | by apply IH].
Qed.

Lemma insert_data_name (name : string) (accelerator_id : option Z) :
  Pg.name_of (Pg.row_of (map fst (insert_data name accelerator_id))
                        (map snd (insert_data name accelerator_id))) = Some name.
Proof.
  unfold Pg.name_of, Pg.row_of, insert_data.
  destruct accelerator_id as [a|]; cbn [map fst snd combine fold_left Pg.sql_of].
  - rewrite lookup_insert_ne by discriminate. by rewrite lookup_insert_eq.
  - by rewrite lookup_insert_eq.
Qed.

Lemma id_column_not_name (table : string) : id_column_of table <> "name".
Proof.
  intros E. pose proof (endswith_app (PyStr.rstrip_chars "s" table) "_id") as Hend.
  fold (id_column_of table) in Hend. rewrite E in Hend. discriminate.
Qed.

End GetOrCreateEngineFacts.

(** X14.  Resolving a reference a second time creates nothing: on the engine,
    for a name without a backslash and a table whose rows all carry their
    identifier, once [_get_or_create_entity] has returned an identifier,
    calling it again for the same table and name returns the same
    identifier and leaves the store as it is, with or without the
    dependent field. *)
Theorem get_or_create_again (table name : string) (accelerator_id again : option Z)
    (w w' : Pg.world) (l l' l'' : list log_entry) (id : Z) (tbl : Pg.ref_table) :
  ~ In Pg.escape (list_ascii_of_string name) ->
  Pg.ref_tables w !! table = Some tbl ->
  Forall (fun r => is_Some (Pg.int_of r (Pg.t_id_column tbl))) (Pg.t_rows tbl) ->
  _get_or_create_entity table name accelerator_id (w, l) = (Ok id, (w', l')) ->
  _get_or_create_entity table name again (w', l'') = (Ok id, (w', l'')).
Proof.
  intros Hesc Htbl Hids Hfirst.
  assert (name <> EmptyString) as Hname.
  { intros ->. cbn in Hfirst. discriminate. }
  rewrite get_or_create_unfold in Hfirst |- * by exact Hname.
  cbn [conn_fetchrow_id conn_insert_returning pg_platform] in *.
  pose proof (no_escape_at_end _ Hesc) as Hend.
  set (matches := fun r : Pg.row =>
                    match Pg.name_of r with
                    | Some n => Pg.ilike n name
                    | None => false
                    end).
  assert (forall v : Pg.world, forall t : Pg.ref_table,
            Pg.ref_tables v !! table = Some t ->
            Pg.t_id_column t = id_column_of table ->
            Pg.fetchrow_id table (id_column_of table) name v
            = (match List.find matches (Pg.t_rows t) with
               | Some r => Ok (Pg.int_of r (id_column_of table))
               | None => Ok None
               end, v)) as Hlookup.
  { intros v t Ht Hcol. unfold Pg.fetchrow_id. rewrite Ht, Hcol, String.eqb_refl, Hend.
    cbn [negb]. fold matches. by destruct (List.find matches (Pg.t_rows t)). }
  destruct (String.eqb_spec (id_column_of table) (Pg.t_id_column tbl)) as [Hcol|Hcol].
  2:{ unfold Pg.fetchrow_id in Hfirst. rewrite Htbl in Hfirst.
      apply String.eqb_neq in Hcol. rewrite Hcol in Hfirst. discriminate. }
  symmetry in Hcol. rewrite (Hlookup w tbl Htbl Hcol) in Hfirst.
  destruct (List.find matches (Pg.t_rows tbl)) as [r|] eqn:Efind.
  - destruct (find_some _ _ Efind) as [Hin _].
    rewrite Forall_forall in Hids.
    destruct (Hids r ltac:(by apply list_elem_of_In)) as [id0 Hid0].
    rewrite Hcol in Hid0. rewrite Hid0 in Hfirst. injection Hfirst as <- <- <-.
    by rewrite (Hlookup w tbl Htbl Hcol), Efind, Hid0.
  - unfold Pg.insert_returning in Hfirst. rewrite Htbl, Hcol, String.eqb_refl in Hfirst.
    cbn [negb] in Hfirst. rewrite insert_data_name in Hfirst.
    destruct (Pg.name_taken tbl name).
    + cbn [exn_kind_of] in Hfirst.
      erewrite Hlookup in Hfirst;
        [|cbn [Pg.ref_tables Pg.with_ref_tables]; apply lookup_insert_eq
         |first [reflexivity | exact Hcol]].
      cbn [Pg.t_rows] in Hfirst. rewrite Efind in Hfirst. discriminate.
    + injection Hfirst as <- <- <-.
      erewrite Hlookup;
        [|cbn [Pg.ref_tables Pg.with_ref_tables]; apply lookup_insert_eq
         |first [reflexivity | exact Hcol]].
      cbn [Pg.t_rows].
      rewrite (find_snoc matches _ _ Efind).
      * unfold Pg.int_of. by rewrite lookup_insert_eq.
      * unfold matches.
        assert (forall (v : Pg.sqlval) (proposed : Pg.row),
                  Pg.name_of (<[id_column_of table := v]> proposed) = Pg.name_of proposed)
          as Hsame.
        { intros v proposed. unfold Pg.name_of.
          by rewrite lookup_insert_ne by apply id_column_not_name. }
        rewrite Hsame.
        replace (Pg.name_of _) with (Some name)
          by (symmetry; exact (insert_data_name name accelerator_id)).
        unfold Pg.ilike.
        apply like_refl, lower_str_no_escape, Hesc.
Qed.

Lemma get_or_create_again_witness :
  exists id w' l',
    _get_or_create_entity "accelerators" "FCC-ee" None (Sample.fresh Sample.no_check, [])
    = (Ok id, (w', l'))
    /\ _get_or_create_entity "accelerators" "FCC-ee" None (w', []) = (Ok id, (w', [])).
Proof.
  assert (exists id w' l',
            _get_or_create_entity "accelerators" "FCC-ee" None
              (Sample.fresh Sample.no_check, []) = (Ok id, (w', l')))
    as (id & w' & l' & E) by (eexists _, _, _; vm_compute; reflexivity).
  exists id, w', l'. split; [exact E|].
  apply (get_or_create_again "accelerators" "FCC-ee" None None
           (Sample.fresh Sample.no_check) w' [] l' [] id
           (Sample.empty_ref "accelerator_id")).
  - cbn. intros H; decompose [or] H; discriminate || contradiction.
  - vm_compute. reflexivity.
  - constructor.
  - exact E.
Defined.

(** ** The shape of an identifier *)

Section UuidShapeFacts.

Lemma land_15_cases (x : Z) :
  In (Z.land x 15) [0; 1; 2; 3; 4; 5; 6; 7; 8; 9; 10; 11; 12; 13; 14; 15].
Proof.
  change 15 with (Z.ones 4). rewrite Z.land_ones by lia.
  pose proof (Z.mod_pos_bound x (2 ^ 4) ltac:(lia)) as Hb.
  set (r := x mod 2 ^ 4) in *. change (2 ^ 4) with 16 in Hb. cbn [In].
  assert (r = 0 \/ r = 1 \/ r = 2 \/ r = 3 \/ r = 4 \/ r = 5 \/ r = 6 \/ r = 7 \/
          r = 8 \/ r = 9 \/ r = 10 \/ r = 11 \/ r = 12 \/ r = 13 \/ r = 14 \/ r = 15)
    by lia.
  intuition.
Qed.

Lemma hex_digit_is_hex (x : Z) : is_hex_digit (Uuid.hex_digit (Z.land x 15)) = true.
Proof.
  pose proof (land_15_cases x) as Hin. cbn [In] in Hin.
  repeat (destruct Hin as [<-|Hin]; [reflexivity|]). contradiction.
Qed.

(** The version and variant bits [uuid5] sets. *)
Lemma uuid5_bits (namespace : Uuid.UUID) (name : string) :
  Z.land (Z.shiftr (Uuid.uuid5 namespace name) 76) 15 = 5
  /\ In (Z.land (Z.shiftr (Uuid.uuid5 namespace name) 60) 15) [8; 9; 10; 11].
Proof.
  unfold Uuid.uuid5. cbv zeta.
  generalize (Uuid.be_int (firstn 16 (Uuid.sha1 (Uuid.be_bytes 16 namespace ++ Uuid.utf8 name)))).
  intros i. split.
  - rewrite Z.shiftr_lor, Z.land_lor_distr_l, Z.shiftr_land, <- Z.land_assoc.
    change (Z.land (Z.shiftr (Z.lnot (Z.shiftl 61440 64)) 76) 15) with 0.
    rewrite Z.land_0_r. reflexivity.
  - rewrite Z.shiftr_lor, Z.land_lor_distr_l.
    change (Z.land (Z.shiftr (Z.shiftl 5 76) 60) 15) with 0. rewrite Z.lor_0_r.
    rewrite Z.shiftr_land, <- Z.land_assoc.
    change (Z.land (Z.shiftr (Z.lnot (Z.shiftl 61440 64)) 60) 15) with 15.
    rewrite Z.shiftr_lor, Z.land_lor_distr_l.
    change (Z.land (Z.shiftr (Z.shiftl 32768 48) 60) 15) with 8.
    rewrite Z.shiftr_land, <- Z.land_assoc.
    change (Z.land (Z.shiftr (Z.lnot (Z.shiftl 49152 48)) 60) 15) with 3.
    change 3 with (Z.ones 2). rewrite Z.land_ones by lia.
    pose proof (Z.mod_pos_bound (Z.shiftr i 60) (2 ^ 2) ltac:(lia)) as Hb.
    set (r := Z.shiftr i 60 mod 2 ^ 2) in *. change (2 ^ 2) with 4 in Hb.
    assert (r = 0 \/ r = 1 \/ r = 2 \/ r = 3) as [->|[->|[->| ->]]] by lia;
      cbn; tauto.
Qed.

End UuidShapeFacts.

(** X15.  Every identifier has the shape of a version-5 UUID: 36 characters,
    hyphens after the 8th, 12th, 16th and 20th digit, the version digit
    [5], a variant digit among [8], [9], [a], [b], and lower-case
    hexadecimal digits everywhere else. *)
Theorem generate_dataset_uuid_shape (config : Config) (name : string)
    (fks : dict (option Z)) :
  String.length (generate_dataset_uuid config name fks) = 36%nat
  /\ (forall i, In i [8; 13; 18; 23]%nat ->
                String.get i (generate_dataset_uuid config name fks) = Some "-"%char)
  /\ String.get 14 (generate_dataset_uuid config name fks) = Some "5"%char
  /\ (exists v, String.get 19 (generate_dataset_uuid config name fks) = Some v
                /\ In v ["8"; "9"; "a"; "b"]%char)
  /\ (forall i c, String.get i (generate_dataset_uuid config name fks) = Some c ->
                  c = "-"%char \/ is_hex_digit c = true).
Proof.
  unfold generate_dataset_uuid. cbv zeta.
  match goal with |- context [Uuid.uuid5 ?ns ?n] =>
    destruct (uuid5_bits ns n) as [Hversion Hvariant]; set (u := Uuid.uuid5 ns n) in *
  end.
  clearbody u.
  unfold Uuid.to_str. cbv beta iota zeta delta [Uuid.hex substring String.append].
  change (4 * Z.of_nat 19) with 76. change (4 * Z.of_nat 15) with 60.
  rewrite Hversion.
  split; [reflexivity|]. split.
  { intros i [<-|[<-|[<-|[<-|[]]]]]; reflexivity. }
  split; [reflexivity|]. split.
  { eexists. split; [reflexivity|]. cbn [In] in Hvariant.
    destruct Hvariant as [<-|[<-|[<-|[<-|[]]]]]; cbn; tauto. }
  intros i c.
  do 36 (destruct i as [|i];
         [cbn [String.get]; intros [= <-];
          first [by left | right; apply hex_digit_is_hex | right; reflexivity]|]).
  cbn [String.get]. discriminate.
Qed.

(** ** What an identifier does not tell apart *)

Section CollisionFacts.

Lemma join_cons (sep p : string) (parts : list string) :
  parts <> [] ->
  PyStr.join sep (p :: parts) = (p ++ sep ++ PyStr.join sep parts)%string.
Proof. destruct parts; [contradiction | reflexivity]. Qed.

Lemma get_null_as_zero (fks : dict (option Z)) (k : string) :
  get (map (fun kv => (fst kv, Some (default 0 (snd kv)))) fks) k
  = (fun v => Some (default 0 v)) <$> get fks k.
Proof.
  induction fks as [|[k0 v0] fks IH]; [reflexivity|]. cbn [map get fst snd].
  destruct (String.eqb k0 k); [reflexivity | exact IH].
Qed.

Lemma sorted_cons_least (k : string) (ks : list string) :
  Forall (fun k' => String.le k k') ks ->
  sorted (k :: ks) = k :: sorted ks.
Proof.
  intros Hle. unfold sorted. apply (StronglySorted_unique String.le).
  - apply StronglySorted_merge_sort; apply _.
  - constructor; [apply StronglySorted_merge_sort; apply _|].
    by rewrite merge_sort_Permutation.
  - by rewrite !merge_sort_Permutation.
Qed.

End CollisionFacts.

(** X16.  The identifier does not tell apart everything that goes into it.  A
    null foreign key gives the same identifier as the key 0.  The names of
    the foreign keys count only through the order they put the values in:
    with one key, its name does not matter.  And the dataset name is not
    delimited: a record with a first foreign key [v] and more keys after it
    has the identifier of the record named [name,v] with the remaining
    keys. *)
Theorem identifier_collisions (config : Config) (name : string)
    (fks : dict (option Z)) (k k' : string) (v : option Z) :
  generate_dataset_uuid config name
    (map (fun kv => (fst kv, Some (default 0 (snd kv)))) fks)
  = generate_dataset_uuid config name fks
  /\ generate_dataset_uuid config name [(k, v)]
     = generate_dataset_uuid config name [(k', v)]
  /\ (fks <> [] ->
      ~ In k (keys fks) ->
      Forall (fun k' => String.le k k') (keys fks) ->
      generate_dataset_uuid config name ((k, v) :: fks)
      = generate_dataset_uuid config (name ++ "," ++ CanonicalSpec.render v)%string fks).
Proof.
  split; [|split].
  - rewrite !generate_dataset_uuid_eq.
    assert (keys (map (fun kv : string * option Z => (fst kv, Some (default 0 (snd kv)))) fks)
            = keys fks) as ->.
    { unfold keys. rewrite map_map. reflexivity. }
    assert (rendered_parts
              (map (fun kv : string * option Z => (fst kv, Some (default 0 (snd kv)))) fks)
              (sorted (keys fks))
            = rendered_parts fks (sorted (keys fks))) as ->; [|reflexivity].
    unfold rendered_parts. apply map_ext. intros key. rewrite get_null_as_zero.
    by destruct (get fks key) as [[n|]|].
  - rewrite !generate_dataset_uuid_eq.
    assert (forall key, rendered_parts [(key, v)] (sorted (keys [(key, v)]))
                        = [CanonicalSpec.render v]) as Hone.
    { intros key. change (sorted (keys [(key, v)])) with [key].
      unfold rendered_parts. cbn [map get]. by rewrite String.eqb_refl. }
    rewrite !Hone. reflexivity.
  - intros Hne Hfresh Hleast. rewrite !generate_dataset_uuid_eq.
    change (keys ((k, v) :: fks)) with (k :: keys fks).
    rewrite (sorted_cons_least k (keys fks) Hleast).
    assert (rendered_parts ((k, v) :: fks) (k :: sorted (keys fks))
            = CanonicalSpec.render v :: rendered_parts fks (sorted (keys fks))) as ->.
    { unfold rendered_parts. cbn [map get]. rewrite String.eqb_refl. f_equal.
      apply map_ext_in. intros key Hin.
      destruct (String.eqb_spec k key) as [->|_]; [|reflexivity].
      exfalso. apply Hfresh. apply list_elem_of_In. apply list_elem_of_In in Hin.
      unfold sorted in Hin. by rewrite merge_sort_Permutation in Hin. }
    rewrite join_cons.
    + assert ((name ++ "," ++ CanonicalSpec.render v ++ "," ++
               PyStr.join "," (rendered_parts fks (sorted (keys fks))))%string
              = ((name ++ "," ++ CanonicalSpec.render v) ++ "," ++
                 PyStr.join "," (rendered_parts fks (sorted (keys fks))))%string) as ->;
        [|reflexivity].
      by rewrite <- !string_app_assoc.
    + unfold rendered_parts. intros E%map_eq_nil.
      apply (f_equal (@length string)) in E. unfold sorted in E.
      rewrite merge_sort_Permutation in E. unfold keys in E. rewrite length_map in E.
      destruct fks; [contradiction | discriminate].
Qed.

Lemma identifier_collisions_witness :
  generate_dataset_uuid Sample.config "a"
    [("accelerator_id", Some 1); ("campaign_id", Some 2)]
  = generate_dataset_uuid Sample.config "a,1" [("campaign_id", Some 2)].
Proof.
  refine (proj2 (proj2 (identifier_collisions Sample.config "a" [("campaign_id", Some 2)]
                          "accelerator_id" "" (Some 1))) _ _ _).
  - discriminate.
  - cbn. intros [H|[]]. discriminate.
  - repeat constructor.
Defined.

(** ** Whitespace *)

Section StripFacts.

Lemma last_char_snoc (s : string) (c : ascii) :
  last_char (s ++ String c EmptyString)%string = Some c.
Proof.
  induction s as [|c0 s IH]; [reflexivity|].
  change ((String c0 s ++ String c EmptyString)%string)
    with (String c0 (s ++ String c EmptyString)%string).
  cbn [last_char]. destruct (s ++ String c EmptyString)%string eqn:E; [|exact IH].
  destruct s; discriminate.
Qed.

Lemma last_char_inv (s : string) (c : ascii) :
  last_char s = Some c -> exists s', s = (s' ++ String c EmptyString)%string.
Proof.
  induction s as [|c0 s IH]; [discriminate|]. cbn [last_char]. destruct s as [|c1 s].
  - intros [= ->]. by exists EmptyString.
  - intros E. destruct (IH E) as [s' ->]. by exists (String c0 s').
Qed.

Lemma rev_cons (c : ascii) (s : string) :
  String.rev (String c s) = (String.rev s ++ String c EmptyString)%string.
Proof.
  change (String c s) with (String c EmptyString ++ s)%string.
  by rewrite rev_app_distr.
Qed.

Lemma rev_snoc (s : string) (c : ascii) :
  String.rev (s ++ String c EmptyString)%string = String c (String.rev s).
Proof. by rewrite rev_app_distr. Qed.

Lemma lstrip_by_twice (p : ascii -> bool) (s : string) :
  PyStr.lstrip_by p (PyStr.lstrip_by p s) = PyStr.lstrip_by p s.
Proof.
  induction s as [|c s IH]; [reflexivity|]. cbn [PyStr.lstrip_by].
  destruct (p c) eqn:E; [exact IH|]. cbn [PyStr.lstrip_by]. by rewrite E.
Qed.

(** What [lstrip] leaves starts with a character it does not strip. *)
Lemma lstrip_by_head (p : ascii -> bool) (s : string) :
  match PyStr.lstrip_by p s with
  | EmptyString => True
  | String c _ => p c = false
  end.
Proof.
  induction s as [|c s IH]; [exact I|]. cbn [PyStr.lstrip_by].
  destruct (p c) eqn:E; [exact IH | exact E].
Qed.

(** What [rstrip] leaves ends with a character it does not strip. *)
Lemma rstrip_by_last (p : ascii -> bool) (s : string) :
  match last_char (PyStr.rstrip_by p s) with
  | None => PyStr.rstrip_by p s = EmptyString
  | Some c => p c = false
  end.
Proof.
  unfold PyStr.rstrip_by. pose proof (lstrip_by_head p (String.rev s)) as Hhead.
  destruct (PyStr.lstrip_by p (String.rev s)) as [|c r]; [reflexivity|].
  by rewrite rev_cons, last_char_snoc.
Qed.

Lemma rstrip_by_fixed (p : ascii -> bool) (s : string) (c : ascii) :
  last_char s = Some c -> p c = false -> PyStr.rstrip_by p s = s.
Proof.
  intros [s' ->]%last_char_inv Hc. unfold PyStr.rstrip_by.
  rewrite rev_snoc. cbn [PyStr.lstrip_by]. rewrite Hc.
  rewrite rev_cons, rev_involutive. reflexivity.
Qed.

Lemma rstrip_by_cons (p : ascii -> bool) (c : ascii) (s : string) :
  p c = false -> PyStr.rstrip_by p (String c s) = String c (PyStr.rstrip_by p s).
Proof.
  intros Hc. unfold PyStr.rstrip_by. rewrite rev_cons.
  assert (forall x, PyStr.lstrip_by p (x ++ String c EmptyString)%string
                    = (PyStr.lstrip_by p x ++ String c EmptyString)%string) as Happ.
  { induction x as [|c0 x IH].
    - change (EmptyString ++ String c EmptyString)%string with (String c EmptyString).
      cbn [PyStr.lstrip_by]. by rewrite Hc.
    - change (String c0 x ++ String c EmptyString)%string
        with (String c0 (x ++ String c EmptyString)%string).
      cbn [PyStr.lstrip_by]. destruct (p c0); [exact IH | reflexivity]. }
  rewrite Happ, rev_snoc. reflexivity.
Qed.

(** The result of [strip] is trimmed, and [strip] leaves a trimmed string as
    it is. *)
Lemma strip_trimmed (s : string) : trimmed (PyStr.strip s).
Proof.
  unfold PyStr.strip. pose proof (lstrip_by_head PyStr.isspace s) as Hhead.
  destruct (PyStr.lstrip_by PyStr.isspace s) as [|c r]; [exact I|].
  rewrite rstrip_by_cons by exact Hhead. split; [exact Hhead|].
  pose proof (rstrip_by_last PyStr.isspace (String c r)) as Hlast.
  rewrite rstrip_by_cons in Hlast by exact Hhead.
  destruct (last_char (String c (PyStr.rstrip_by PyStr.isspace r))) as [z|];
    [eauto | discriminate].
Qed.

Lemma strip_of_trimmed (s : string) : trimmed s -> PyStr.strip s = s.
Proof.
  destruct s as [|c r]; [reflexivity|]. intros [Hc (z & Hz & Hzs)].
  unfold PyStr.strip. cbn [PyStr.lstrip_by]. rewrite Hc.
  by apply (rstrip_by_fixed _ _ z).
Qed.

Lemma sub_whitespace_twice (s : string) :
  sub_whitespace_from true (sub_whitespace_from true s) = sub_whitespace_from true s
  /\ sub_whitespace_from false (sub_whitespace_from false s) = sub_whitespace_from false s.
Proof.
  induction s as [|c s [IHt IHf]]; [by split|]. cbn [sub_whitespace_from].
  destruct (PyStr.isspace c) eqn:E.
  - split; [exact IHt|]. cbn [sub_whitespace_from].
    change (PyStr.isspace " ") with true. cbv iota. by rewrite IHt.
  - cbn [sub_whitespace_from]. rewrite E, IHf. by split.
Qed.

Lemma sub_whitespace_last (s : string) (z : ascii) :
  last_char s = Some z -> PyStr.isspace z = false ->
  forall in_run, last_char (sub_whitespace_from in_run s) = Some z.
Proof.
  intros Hlast Hz. induction s as [|c s IH]; [discriminate|].
  intros in_run. cbn [last_char] in Hlast. destruct s as [|c1 s].
  - injection Hlast as ->. cbn [sub_whitespace_from]. by rewrite Hz.
  - specialize (IH Hlast). remember (String c1 s) as r eqn:Er. clear Er Hlast.
    cbn [sub_whitespace_from].
    destruct (PyStr.isspace c).
    + destruct in_run; [apply IH|].
      cbn [last_char]. pose proof (IH true) as Ht.
      destruct (sub_whitespace_from true r); [discriminate | exact Ht].
    + cbn [last_char]. pose proof (IH false) as Hf.
      destruct (sub_whitespace_from false r); [discriminate | exact Hf].
Qed.

Lemma sub_whitespace_trimmed (s : string) :
  trimmed s -> trimmed (re_sub_whitespace s) /\ (s <> EmptyString ->
                                                  re_sub_whitespace s <> EmptyString).
Proof.
  destruct s as [|c r]; [by split|]. intros [Hc (z & Hz & Hzs)].
  unfold re_sub_whitespace. pose proof (sub_whitespace_last _ z Hz Hzs false) as Hlast.
  cbn [sub_whitespace_from] in *. rewrite Hc in *. split; [|discriminate].
  split; [exact Hc | eauto].
Qed.

End StripFacts.

(** ** The field validators *)

Section StringFieldFacts.
Variable py_str : json -> string.

(** A trimmed string without runs of whitespace is what the validator makes
    of itself. *)
Lemma normalized_fixed (x : string) :
  x <> EmptyString -> trimmed x ->
  re_sub_whitespace x <> EmptyString
  /\ trimmed (re_sub_whitespace x)
  /\ handle_string_fields py_str (JStr (re_sub_whitespace x)) = Some (re_sub_whitespace x).
Proof.
  intros Hx Ht. destruct (sub_whitespace_trimmed x Ht) as [Htn Hne].
  specialize (Hne Hx). split; [exact Hne|]. split; [exact Htn|].
  unfold handle_string_fields. rewrite (strip_of_trimmed _ Htn).
  apply String.eqb_neq in Hne. rewrite Hne. cbn [orb negb].
  unfold re_sub_whitespace in *. rewrite (proj2 (sub_whitespace_twice x)).
  by rewrite Hne.
Qed.

Lemma string_field_cases (s : string) :
  (PyStr.strip s = EmptyString /\ handle_string_fields py_str (JStr s) = None)
  \/ (PyStr.strip s <> EmptyString
      /\ handle_string_fields py_str (JStr s) = Some (re_sub_whitespace (PyStr.strip s))).
Proof.
  destruct (String.eqb_spec (PyStr.strip s) EmptyString) as [Hblank|Hfull].
  - left. split; [exact Hblank|]. unfold handle_string_fields. rewrite Hblank.
    cbn [String.eqb]. by rewrite orb_true_r.
  - right. split; [exact Hfull|].
    destruct (normalized_fixed (PyStr.strip s) Hfull (strip_trimmed s)) as (Hne & _).
    unfold handle_string_fields.
    assert (s <> EmptyString) as Hs by (intros ->; by apply Hfull).
    apply String.eqb_neq in Hs, Hfull, Hne. by rewrite Hs, Hfull, Hne.
Qed.

End StringFieldFacts.

(** X17.  The validator of the string fields, on a string: the field is dropped
    exactly when the string is blank; otherwise it is the string stripped,
    with every run of whitespace replaced by one space.  The result is not
    empty, neither starts nor ends with whitespace, and is a fixed point:
    validating it again gives it back.  A null is dropped. *)
Theorem handle_string_fields_normalizes (py_str : json -> string) (s : string) :
  handle_string_fields py_str JNull = None
  /\ (handle_string_fields py_str (JStr s) = None <-> PyStr.strip s = EmptyString)
  /\ forall n,
       handle_string_fields py_str (JStr s) = Some n ->
       n = re_sub_whitespace (PyStr.strip s)
       /\ n <> EmptyString
       /\ trimmed n
       /\ PyStr.strip n = n
       /\ re_sub_whitespace n = n
       /\ handle_string_fields py_str (JStr n) = Some n.
Proof.
  split; [reflexivity|].
  destruct (string_field_cases py_str s) as [[Hblank Hnone]|[Hfull Hsome]].
  - split; [by split|]. intros n. rewrite Hnone. discriminate.
  - destruct (normalized_fixed py_str (PyStr.strip s) Hfull (strip_trimmed s))
      as (Hne & Htn & Hagain).
    split; [rewrite Hsome; split; [discriminate | contradiction]|].
    intros n. rewrite Hsome. intros [= <-].
    split; [reflexivity|]. split; [exact Hne|]. split; [exact Htn|].
    split; [by apply strip_of_trimmed|]. split; [|exact Hagain].
    unfold re_sub_whitespace. apply sub_whitespace_twice.
Qed.

(** X18.  The validator of the path, on a string: the path is dropped exactly
    when the string is blank; otherwise it is the string stripped, which is
    not empty and is kept as it is when validated again.  Whitespace inside
    the path stays. *)
Theorem handle_path_field_strips (py_str : json -> string) (s : string) :
  handle_path_field py_str JNull = None
  /\ (handle_path_field py_str (JStr s) = None <-> PyStr.strip s = EmptyString)
  /\ forall p,
       handle_path_field py_str (JStr s) = Some p ->
       p = PyStr.strip s
       /\ p <> EmptyString
       /\ trimmed p
       /\ handle_path_field py_str (JStr p) = Some p.
Proof.
  split; [reflexivity|]. unfold handle_path_field.
  destruct (String.eqb_spec (PyStr.strip s) EmptyString) as [Hblank|Hfull].
  - rewrite orb_true_r. split; [by split|]. discriminate.
  - assert (s <> EmptyString) as Hs by (intros ->; by apply Hfull).
    apply String.eqb_neq in Hs. rewrite Hs. cbn [orb].
    split; [split; [discriminate | contradiction]|].
    intros p [= <-]. split; [reflexivity|]. split; [exact Hfull|].
    split; [apply strip_trimmed|].
    rewrite (strip_of_trimmed _ (strip_trimmed s)).
    apply String.eqb_neq in Hfull. by rewrite Hfull.
Qed.

(** X19.  A reference name that went through the validator of the string fields
    is the name the import resolves: for a field of the record that holds
    it, the lookup of the reference name returns it unchanged, on the batch
    path and on the individual path. *)
Theorem validated_reference_name (py_str : json -> string) (dataset_data : FccDataset)
    (field_name s n : string) :
  handle_string_fields py_str (JStr s) = Some n ->
  getattr_opt dataset_data field_name = Some (AttrStr n) ->
  entity_name_of dataset_data field_name = Some n
  /\ _get_entity_name_for_dataset dataset_data field_name = Some n.
Proof.
  intros Hn Hattr.
  assert (n <> EmptyString /\ PyStr.strip n = n) as [Hne Hstrip].
  { destruct (string_field_cases py_str s) as [[_ Hnone]|[Hfull Hsome]]; [congruence|].
    rewrite Hsome in Hn. injection Hn as <-.
    destruct (normalized_fixed py_str (PyStr.strip s) Hfull (strip_trimmed s))
      as (Hne & Htn & _).
    split; [exact Hne | by apply strip_of_trimmed]. }
  assert (entity_name_of dataset_data field_name = Some n) as Hname.
  { unfold entity_name_of. rewrite Hattr, Hstrip.
    apply String.eqb_neq in Hne. by rewrite Hne. }
  split; [exact Hname|]. unfold _get_entity_name_for_dataset.
  destruct (String.eqb_spec field_name EmptyString) as [->|_]; [discriminate | exact Hname].
Qed.

Lemma validated_reference_name_witness :
  entity_name_of
    (Sample.dataset (Some "p1") (Some "FCC ee") None []) "accelerator"
  = Some "FCC ee".
Proof.
  refine (proj1 (validated_reference_name (fun _ => EmptyString)
                   (Sample.dataset (Some "p1") (Some "FCC ee") None []) "accelerator"
                   "  FCC   ee " "FCC ee" _ eq_refl)).
  vm_compute. reflexivity.
Defined.

(** ** Metadata extraction *)

Section ExtractFacts.

Lemma extract_loop_get (key : string) (data : dict json) :
  wf data ->
  forall acc : dict json,
    get (fold_left
           (fun raw_metadata kv =>
              let '(key, value) := kv in
              if negb (existsb (String.eqb key) core_fields) then
                if negb (String.eqb key "files") then set raw_metadata key value
                else raw_metadata
              else raw_metadata)
           data acc) key
    = match get data key with
      | Some value =>
          if existsb (String.eqb key) core_fields || String.eqb key "files"
          then get acc key else Some value
      | None => get acc key
      end.
Proof.
  unfold wf. induction data as [|[k0 v0] data IH]; intros Hnd acc; [reflexivity|].
  apply NoDup_cons in Hnd as [Hk0 Hnd]. cbn [fold_left]. rewrite IH by exact Hnd.
  cbn [get]. destruct (String.eqb_spec k0 key) as [->|Hne].
  - assert (get data key = None) as ->.
    { apply get_None. intros Hin. apply Hk0. by apply list_elem_of_In. }
    destruct (existsb (String.eqb key) core_fields); [reflexivity|].
    cbn [negb orb]. destruct (String.eqb key "files"); [reflexivity|].
    apply get_set_eq.
  - assert (get (if negb (existsb (String.eqb k0) core_fields)
                 then if negb (String.eqb k0 "files") then set acc k0 v0 else acc
                 else acc) key = get acc key) as ->; [|reflexivity].
    destruct (negb (existsb _ _)); [|reflexivity].
    destruct (negb (String.eqb k0 "files")); [by apply get_set_ne | reflexivity].
Qed.

Lemma extract_loop_wf (data : dict json) :
  forall acc : dict json,
    wf acc ->
    wf (fold_left
          (fun raw_metadata kv =>
             let '(key, value) := kv in
             if negb (existsb (String.eqb key) core_fields) then
               if negb (String.eqb key "files") then set raw_metadata key value
               else raw_metadata
             else raw_metadata)
          data acc).
Proof.
  induction data as [|[k0 v0] data IH]; intros acc Hwf; [exact Hwf|].
  cbn [fold_left]. apply IH. destruct (negb (existsb _ _)); [|exact Hwf].
  destruct (negb (String.eqb k0 "files")); [by apply wf_set | exact Hwf].
Qed.

End ExtractFacts.

(** X20.  [extract_metadata] on an object: the result is the object with a
    [raw_metadata] entry added (or replaced); that entry holds, with its
    value, every key of the object that is neither a core field nor
    [files], and nothing else.  The other entries of the object stay as
    they are.  A value that is not an object is returned unchanged. *)
Theorem extract_metadata_lookup (data : dict json) :
  wf data ->
  exists raw_metadata,
    extract_metadata (JObj data) = JObj (set data "raw_metadata" (JObj raw_metadata))
    /\ wf raw_metadata
    /\ wf (set data "raw_metadata" (JObj raw_metadata))
    /\ (forall key,
          get raw_metadata key
          = if existsb (String.eqb key) core_fields || String.eqb key "files"
            then None else get data key)
    /\ (forall key, key <> "raw_metadata" ->
          get (set data "raw_metadata" (JObj raw_metadata)) key = get data key)
    /\ (forall v, match v with JObj _ => True | _ => extract_metadata v = v end).
Proof.
  intros Hwf. eexists. split; [reflexivity|].
  split; [apply extract_loop_wf, wf_nil|]. split; [by apply wf_set|].
  split; [|split].
  - intros key. rewrite extract_loop_get by exact Hwf. cbn [get].
    destruct (get data key); [|by destruct (_ || _)]. reflexivity.
  - intros key Hne. apply get_set_ne. congruence.
  - intros []; done.
Qed.

Lemma extract_metadata_lookup_witness :
  exists raw_metadata,
    extract_metadata
      (JObj [("process-name", JStr "p1"); ("files", JList []); ("cross-section", JInt 3)])
    = JObj (set [("process-name", JStr "p1"); ("files", JList []);
                 ("cross-section", JInt 3)]
                "raw_metadata" (JObj raw_metadata))
    /\ get raw_metadata "cross-section" = Some (JInt 3)
    /\ get raw_metadata "files" = None.
Proof.
  destruct (extract_metadata_lookup
              [("process-name", JStr "p1"); ("files", JList []); ("cross-section", JInt 3)]
              ltac:(solve_wf))
    as (raw & E & _ & _ & Hget & _).
  exists raw. split; [exact E|]. split; [exact (Hget "cross-section") | exact (Hget "files")].
Defined.

(** ** The registry *)

Section RegistryFacts.
Context {C : Type}.

Lemma first_match_app (rules more : list ((json -> outcome bool) * C)) (raw_data : json) :
  first_match (rules ++ more) raw_data
  = match first_match rules raw_data with
    | Some found => Some found
    | None => first_match more raw_data
    end.
Proof.
  induction rules as [|[f c] rules IH]; [reflexivity|]. cbn [app first_match].
  destruct (f raw_data) as [[|]|e]; [reflexivity | exact IH | exact IH].
Qed.

End RegistryFacts.

(** X21.  Detection goes by registration order: the class detected is the one of
    the first rule registered that answers true, rules that answer false
    or raise being passed over.  So a rule registered later decides only
    when no earlier rule matched, and registering classes does not change
    what is detected.  With no rule nothing is detected. *)
Theorem detection_by_registration_order {C : Type} (cls : EntityTypeRegistry C)
    (detection_func : json -> outcome bool) (collection_class other : C)
    (name : string) (raw_data : json) :
  detect_collection_class raw_data
    (register_detection_rule detection_func collection_class cls)
  = match detect_collection_class raw_data cls with
    | Some earlier => Some earlier
    | None =>
        match detection_func raw_data with
        | Ok true => Some collection_class
        | _ => None
        end
    end
  /\ detect_collection_class raw_data (register_entity_class name other cls)
     = detect_collection_class raw_data cls
  /\ detect_collection_class raw_data (register_collection_class name other cls)
     = detect_collection_class raw_data cls
  /\ detect_collection_class raw_data (@empty_registry C) = None.
Proof.
  split; [|by repeat split].
  unfold detect_collection_class, register_detection_rule. cbn [_detection_rules].
  rewrite first_match_app. destruct (first_match (_detection_rules cls) raw_data);
    [reflexivity|].
  cbn [first_match]. by destruct (detection_func raw_data) as [[|]|e].
Qed.

(** X22.  A class registered under a name is found under that name, and the
    classes under other names are found as before; entity classes and
    collection classes do not see each other.  The default collection class
    is the one first registered, unless its name is registered again, in
    which case the class registered last under that name is the default. *)
Theorem registry_lookup_after_register {C : Type} (cls : EntityTypeRegistry C)
    (name other_name : string) (registered : C) :
  get_collection_class name (register_collection_class name registered cls)
  = Some registered
  /\ get_entity_class name (register_entity_class name registered cls) = Some registered
  /\ (other_name <> name ->
      get_collection_class other_name (register_collection_class name registered cls)
      = get_collection_class other_name cls
      /\ get_entity_class other_name (register_entity_class name registered cls)
         = get_entity_class other_name cls)
  /\ get_collection_class other_name (register_entity_class name registered cls)
     = get_collection_class other_name cls
  /\ get_entity_class other_name (register_collection_class name registered cls)
     = get_entity_class other_name cls
  /\ get_default_collection_class (register_collection_class name registered cls)
     = match _collection_classes cls with
       | [] => Some registered
       | (first_name, first_class) :: _ =>
           if String.eqb first_name name then Some registered else Some first_class
       end.
Proof.
  unfold get_collection_class, get_entity_class, get_default_collection_class,
    register_collection_class, register_entity_class.
  cbn [_collection_classes _entity_classes].
  split; [apply get_set_eq|]. split; [apply get_set_eq|].
  split; [intros Hne; split; apply get_set_ne; congruence|].
  split; [reflexivity|]. split; [reflexivity|].
  destruct (_collection_classes cls) as [|[first_name first_class] rest]; [reflexivity|].
  cbn [set]. by destruct (String.eqb first_name name).
Qed.

Lemma registry_lookup_after_register_witness :
  get_collection_class "DatasetCollection"
    (register_collection_class "Other" FccDataset_class loaded_registry)
  = get_collection_class "DatasetCollection" loaded_registry.
Proof.
  refine (proj1 (proj1 (proj2 (proj2
            (registry_lookup_after_register loaded_registry "Other" "DatasetCollection"
               FccDataset_class))) _)).
  discriminate.
Defined.

(** X23.  The parser and the registry agree on what an FCC collection is.  After
    the module is loaded, the registry detects [DatasetCollection] for a
    decoded document exactly when its root is an object whose [processes]
    entry is a list, and that class is the default.  Those are the
    documents [_parse_json_content] hands to the validation of the
    collection; every other document that decodes ends in a [ValueError]. *)
Theorem parser_agrees_with_detection `{Codec} (json_content : string) (raw_data : json) :
  json_loads json_content = Ok raw_data ->
  get_default_collection_class loaded_registry = Some DatasetCollection_class
  /\ (detect_collection_class raw_data loaded_registry = Some DatasetCollection_class
      <-> exists o items, raw_data = JObj o /\ get o "processes" = Some (JList items))
  /\ (detect_collection_class raw_data loaded_registry <> Some DatasetCollection_class ->
      detect_collection_class raw_data loaded_registry = None)
  /\ (detect_collection_class raw_data loaded_registry = Some DatasetCollection_class ->
      _parse_json_content json_content
      = match model_validate raw_data with
        | Ok collection => Ok collection
        | Raise e =>
            match exn_kind_of e with
            | JSONDecodeError => Raise (Exn ValueError "Invalid JSON format")
            | _ => Raise (Exn ValueError ("Invalid data format: " ++ exn_msg e)%string)
            end
        end)
  /\ (detect_collection_class raw_data loaded_registry = None ->
      exists msg, _parse_json_content json_content = Raise (Exn ValueError msg)).
Proof.
  intros Hloads.
  assert (detect_collection_class raw_data loaded_registry
          = match _detect_fcc_format raw_data with
            | Ok true => Some DatasetCollection_class
            | _ => None
            end) as Hdetect.
  { unfold detect_collection_class, loaded_registry. cbn.
    by destruct (_detect_fcc_format raw_data) as [[|]|e]. }
  rewrite Hdetect. unfold _parse_json_content. rewrite Hloads.
  split; [reflexivity|].
  destruct raw_data as [|b|n|f|s|items|o]; cbn [_detect_fcc_format].
  1-4: by (split; [split; [discriminate | intros (o & items & [=] & _)]|];
           split; [reflexivity|]; split; [discriminate | eauto]).
  - destruct (PyStr.contains "processes" s);
      (split; [split; [discriminate | intros (o & items' & [=] & _)]|]);
      (split; [reflexivity|]); (split; [discriminate | eauto]).
  - destruct (existsb _ items);
      (split; [split; [discriminate | intros (o & items' & [=] & _)]|]);
      (split; [reflexivity|]); (split; [discriminate | eauto]).
  - destruct (get o "processes") as [[| | | | |items|]|] eqn:Eg.
    6:{ split; [split; [eauto | reflexivity]|].
        split; [contradiction|]. split; [reflexivity | discriminate]. }
    all: split; [split; [discriminate | intros (o' & items' & [= <-] & E); congruence]|];
         (split; [reflexivity|]); (split; [discriminate | cbn; eauto]).
Qed.

Lemma parser_agrees_with_detection_witness :
  detect_collection_class (JObj [("experiments", JList [])]) loaded_registry = None
  /\ exists msg, _parse_json_content "other.json" = Raise (Exn ValueError msg).
Proof.
  assert (json_loads "other.json" = Ok (JObj [("experiments", JList [])])) as Hloads
    by reflexivity.
  destruct (parser_agrees_with_detection "other.json" (JObj [("experiments", JList [])])
              Hloads) as (_ & _ & _ & _ & Hnone).
  split; [reflexivity | exact (Hnone eq_refl)].
Defined.

(** ** The first import of a record, and records that cannot be imported *)

Section FirstImportFacts.
Variable config : Config.
Variable name : string.
Variable fks : dict (option Z).
Hypothesis fks_wf : wf fks.
Hypothesis fks_columns : fk_columns fks.

Lemma get_raw (col : string) :
  get (map (fun kv => (fst kv, pyval_of_id (snd kv))) fks) col
  = pyval_of_id <$> get fks col.
Proof.
  clear fks_wf fks_columns. induction fks as [|[k0 v0] rest IH]; [reflexivity|].
  cbn [map get fst snd]. destruct (String.eqb k0 col); [reflexivity | exact IH].
Qed.

Lemma entity_dict_name (metadata : pyval) :
  get (entity_dict_of config name metadata fks) "name" = Some (PyStr name).
Proof.
  unfold entity_dict_of. rewrite get_set_ne by discriminate.
  rewrite get_update by (unfold wf; rewrite keys_raw; exact fks_wf).
  rewrite get_raw_None; [reflexivity|]. by apply fk_columns_not.
Qed.

Lemma entity_dict_foreign_key (metadata : pyval) (col : string) (v : option Z) :
  get fks col = Some v ->
  col <> "uuid" /\ col <> "metadata"
  /\ get (entity_dict_of config name metadata fks) col = Some (pyval_of_id v).
Proof.
  intros Hcol.
  assert (PyStr.endswith col "_id" = true) as Hend.
  { unfold fk_columns in fks_columns. rewrite Forall_forall in fks_columns.
    apply fks_columns, list_elem_of_In. apply get_Some_In in Hcol.
    exact (in_map fst _ _ Hcol). }
  assert (col <> "uuid") as Hu by (intros ->; discriminate).
  assert (col <> "metadata") as Hm by (intros ->; discriminate).
  split; [exact Hu|]. split; [exact Hm|].
  unfold entity_dict_of. rewrite get_set_ne by congruence.
  rewrite get_update by (unfold wf; rewrite keys_raw; exact fks_wf).
  by rewrite get_raw, Hcol.
Qed.

End FirstImportFacts.

(** X24.  The first import of a record stores the record: when the main table
    holds no row under the identifier and its check constraint accepts
    every row, the creation of the main entity returns, and the row then
    stored under the identifier holds the identifier, the name, the
    metadata without its empty values, and for every foreign key its
    identifier, or no value when it is null. *)
Theorem first_import_stores_record (config : Config) (name : string)
    (metadata : dict json) (fks : dict (option Z)) (t : string) (w : Pg.world)
    (l : list log_entry) (rows : gmap string Pg.row) :
  wf fks -> fk_columns fks ->
  Pg.main_tables w !! t = Some rows ->
  rows !! generate_dataset_uuid config name fks = None ->
  (forall r, Pg.main_check w r = true) ->
  exists w' row,
    _create_main_entity_with_conflict_resolution config name metadata fks t (w, l)
    = (Ok tt, (w', l))
    /\ main_rows w' t !! generate_dataset_uuid config name fks = Some row
    /\ row !! "uuid" = Some (Pg.SqlText (generate_dataset_uuid config name fks))
    /\ row !! "name" = Some (Pg.SqlText name)
    /\ row !! "metadata"
       = Some (Pg.SqlJsonb (JObj (_filter_empty_metadata_values metadata)))
    /\ forall col v, get fks col = Some v -> row !! col = Pg.SqlInt <$> v.
Proof.
  intros Hwf Hfk Ht Hnew Hcheck.
  unfold _create_main_entity_with_conflict_resolution, _create_main_entity.
  fold (entity_dict_of config name (PyMetadata metadata) fks).
  pose proof (entity_dict_wf config name fks (PyMetadata metadata)) as HE.
  pose proof (entity_dict_uuid config name fks (PyMetadata metadata)) as Hu.
  pose proof (entity_dict_metadata config name fks Hwf Hfk (PyMetadata metadata)) as Hmd.
  pose proof (entity_dict_name config name fks Hwf Hfk (PyMetadata metadata)) as Hname.
  pose proof (entity_dict_foreign_key config name fks Hwf Hfk (PyMetadata metadata))
    as Hfks.
  remember (generate_dataset_uuid config name fks) as u eqn:Hu_def. clear Hu_def.
  remember (entity_dict_of config name (PyMetadata metadata) fks) as E eqn:HE_def.
  clear HE_def.
  set (merged := set E "metadata" (PyJsonText (_filter_empty_metadata_values metadata))).
  assert (_merge_metadata_with_locked_fields E t (w, l) = (Ok merged, (w, l))) as Em.
  { unfold _merge_metadata_with_locked_fields. rewrite Hmd, Hu.
    unfold bind, perform. cbn [conn_fetchval_metadata pg_platform].
    cbv [default from_option id]. unfold Pg.fetchval_metadata. rewrite Ht, Hnew.
    reflexivity. }
  assert (wf merged) as Hwm by (by apply wf_set).
  assert (get merged "uuid" = Some (PyStr u)) as Hum
    by (subst merged; by rewrite get_set_ne by discriminate).
  destruct (upsert_outcome merged t u w l Hwm Hum) as (r & w' & Eu & Hcase).
  assert (exists unit_value, r = Ok unit_value) as [[] ->].
  { revert Eu. unfold _upsert_entity, perform.
    cbn [conn_execute_upsert pg_platform]. unfold Pg.execute_upsert.
    cbn [q_table q_columns q_conflict q_set]. rewrite Ht.
    rewrite row_of_lookup by exact Hwm. rewrite Hum. cbn [Pg.sql_of].
    rewrite Hcheck, Hnew. cbn [negb]. intros [= <- _]. eauto. }
  destruct Hcase as (rows' & row & Et' & -> & Hrow).
  rewrite Ht in Et'. injection Et' as <-. rewrite Hnew in Hrow. subst row.
  unfold bind at 1, attempt at 1. unfold bind at 1. rewrite Em, Eu.
  eexists _, _. split; [reflexivity|]. split.
  { unfold main_rows. cbn [Pg.main_tables Pg.with_main_tables].
    rewrite lookup_insert_eq. cbn [default from_option id]. apply lookup_insert_eq. }
  rewrite !row_of_lookup by exact Hwm. subst merged.
  rewrite Hum, get_set_eq, get_set_ne, Hname by discriminate.
  repeat (split; [reflexivity|]).
  intros col v Hcol. destruct (Hfks col v Hcol) as (Hcu & Hcm & Hget).
  rewrite row_of_lookup by exact Hwm. rewrite get_set_ne by congruence.
  rewrite Hget. by destruct v.
Qed.

Lemma first_import_stores_record_witness :
  exists (w' : Pg.world) (row : Pg.row),
    _create_main_entity_with_conflict_resolution Sample.config "p1"
      [("status", JStr "done"); ("comment", JNull)]
      [("accelerator_id", Some 1); ("detector_id", None)] "datasets"
      (Sample.fresh Sample.no_check, [])
    = (Ok tt, (w', []))
    /\ row !! "metadata" = Some (Pg.SqlJsonb (JObj [("status", JStr "done")]))
    /\ row !! "accelerator_id" = Some (Pg.SqlInt 1)
    /\ row !! "detector_id" = (None : option Pg.sqlval).
Proof.
  assert (fk_columns [("accelerator_id", Some 1); ("detector_id", None)]) as Hfk
    by (repeat constructor).
  destruct (first_import_stores_record Sample.config "p1"
              [("status", JStr "done"); ("comment", JNull)]
              [("accelerator_id", Some 1); ("detector_id", None)] "datasets"
              (Sample.fresh Sample.no_check) [] ∅ ltac:(solve_wf) Hfk eq_refl
              (lookup_empty _) (fun _ => eq_refl))
    as (w' & row & E & _ & _ & _ & Hmd & Hcols).
  exists w', row. split; [exact E|]. split; [exact Hmd|].
  split; [exact (Hcols "accelerator_id" (Some 1) eq_refl)
         | exact (Hcols "detector_id" None eq_refl)].
Defined.

(** X25.  A record whose stored metadata is a JSON value other than an object
    cannot be imported again: the merge raises an [AttributeError] or a
    [TypeError], the failure is logged, and the store is left as it is. *)
Theorem non_object_metadata_blocks_import (config : Config) (name : string)
    (metadata : dict json) (fks : dict (option Z)) (t : string) (w : Pg.world)
    (l : list log_entry) (old : Pg.row) (stored : json) :
  wf fks -> fk_columns fks ->
  main_rows w t !! generate_dataset_uuid config name fks = Some old ->
  old !! "metadata" = Some (Pg.SqlJsonb stored) ->
  (forall d, stored <> JObj d) ->
  exists e,
    _create_main_entity_with_conflict_resolution config name metadata fks t (w, l)
    = (Raise e, (w, l ++ [creation_error name e]))
    /\ (exn_kind_of e = AttributeError \/ exn_kind_of e = TypeError).
Proof.
  intros Hwf Hfk Hold Hmd Hstored.
  unfold _create_main_entity_with_conflict_resolution, _create_main_entity.
  fold (entity_dict_of config name (PyMetadata metadata) fks).
  pose proof (entity_dict_uuid config name fks (PyMetadata metadata)) as Hu.
  pose proof (entity_dict_metadata config name fks Hwf Hfk (PyMetadata metadata)) as HEmd.
  remember (generate_dataset_uuid config name fks) as u eqn:Hu_def. clear Hu_def.
  remember (entity_dict_of config name (PyMetadata metadata) fks) as E eqn:HE_def.
  clear HE_def.
  assert (exists rows, Pg.main_tables w !! t = Some rows /\ rows !! u = Some old)
    as (rows & Ht & Hrow).
  { unfold main_rows in Hold. destruct (Pg.main_tables w !! t) as [rows|]; [eauto|].
    cbn in Hold. by rewrite lookup_empty in Hold. }
  assert (exists e,
            _merge_metadata_with_locked_fields E t (w, l) = (Raise e, (w, l))
            /\ (exn_kind_of e = AttributeError \/ exn_kind_of e = TypeError))
    as (e & Em & Hkind).
  { unfold _merge_metadata_with_locked_fields. rewrite HEmd, Hu.
    unfold bind, perform. cbn [conn_fetchval_metadata pg_platform].
    cbv [default from_option id]. unfold Pg.fetchval_metadata. rewrite Ht, Hrow, Hmd.
    cbn [fetched_truthy _parse_existing_metadata]. unfold merge_and_filter, reraise.
    destruct stored as [| | | | |items|d]; try (eexists; split; [reflexivity|]; by left).
    - destruct metadata as [|[key v] rest]; [eexists; split; [reflexivity|]; by left|].
      destruct (is_lock_key key); eexists; (split; [reflexivity|]); [by right | by left].
    - by destruct (Hstored d). }
  exists e. split; [|exact Hkind].
  unfold bind at 1, attempt at 1. unfold bind at 1. rewrite Em. reflexivity.
Qed.

Lemma non_object_metadata_blocks_import_witness :
  exists e,
    _create_main_entity_with_conflict_resolution Sample.config "p1"
      [("status", JStr "B")] [] "datasets"
      (Pg.with_main_tables (Sample.fresh Sample.no_check)
         {[ "datasets" :=
              {[ Sample.p1_uuid :=
                   {[ "name" := Pg.SqlText "p1";
                      "metadata" := Pg.SqlJsonb (JList []) ]} ]} ]}, [])
    = (Raise e, (Pg.with_main_tables (Sample.fresh Sample.no_check)
                   {[ "datasets" :=
                        {[ Sample.p1_uuid :=
                             {[ "name" := Pg.SqlText "p1";
                                "metadata" := Pg.SqlJsonb (JList []) ]} ]} ]},
                 [creation_error "p1" e])).
Proof.
  assert (fk_columns []) as Hfk by constructor.
  assert (forall d, JList [] <> JObj d) as Hnot by discriminate.
  destruct (non_object_metadata_blocks_import Sample.config "p1" [("status", JStr "B")] []
              "datasets"
              (Pg.with_main_tables (Sample.fresh Sample.no_check)
                 {[ "datasets" :=
                      {[ Sample.p1_uuid :=
                           {[ "name" := Pg.SqlText "p1";
                              "metadata" := Pg.SqlJsonb (JList []) ]} ]} ]})
              []
              {[ "name" := Pg.SqlText "p1"; "metadata" := Pg.SqlJsonb (JList []) ]}
              (JList []) wf_nil Hfk)
    as (e & E & _); [vm_compute; reflexivity | vm_compute; reflexivity | exact Hnot |].
  exists e. exact E.
Defined.

(** ** The cache of a batch *)

Section BatchCacheFacts.
Context {W : Type} `{Platform W}.

Lemma set_add_In (names : list string) (x n : string) :
  In n (set_add names x) <-> In n names \/ n = x.
Proof.
  unfold set_add. destruct (existsb (String.eqb x) names) eqn:E.
  - split; [by left|]. intros [Hin| ->]; [exact Hin|].
    apply existsb_exists in E as (y & Hy & Hxy). by apply String.eqb_eq in Hxy as ->.
  - rewrite in_app_iff. cbn. intuition.
Qed.

Lemma collect_record (dataset_data : FccDataset) (items : dict entity_info) :
  forall unique_entities,
    let result :=
      fold_left
        (fun unique_entities item =>
           let '(entity_key, info) := item in
           match entity_name_of dataset_data (field_name info) with
           | Some entity_name =>
               let names := default [] (get unique_entities entity_key) in
               set unique_entities entity_key (set_add names entity_name)
           | None => unique_entities
           end)
        items unique_entities in
    (wf unique_entities -> wf result)
    /\ (forall k n, collected unique_entities k n -> collected result k n)
    /\ (forall k info n,
          In (k, info) items ->
          entity_name_of dataset_data (field_name info) = Some n ->
          collected result k n).
Proof.
  induction items as [|[k0 info0] items IH]; intros unique; cbn [fold_left].
  - split; [auto|]. split; [auto|]. intros k info n [].
  - set (unique1 := match entity_name_of dataset_data (field_name info0) with
                    | Some entity_name =>
                        set unique k0 (set_add (default [] (get unique k0)) entity_name)
                    | None => unique
                    end).
    destruct (IH unique1) as (Hwf & Hkeep & Hnew).
    assert (forall k n, collected unique k n -> collected unique1 k n) as Hstep.
    { intros k n (names & Hget & Hin). subst unique1.
      destruct (entity_name_of dataset_data (field_name info0)) as [x|]; [|by exists names].
      destruct (decide (k0 = k)) as [->|Hne].
      - eexists. split; [apply get_set_eq|]. rewrite Hget. cbn. apply set_add_In. by left.
      - exists names. by rewrite get_set_ne. }
    split; [|split].
    + intros Hu. apply Hwf. subst unique1.
      destruct (entity_name_of dataset_data (field_name info0)); [by apply wf_set | exact Hu].
    + intros k n Hc. by apply Hkeep, Hstep.
    + intros k info n [[= -> ->]|Hin] Hname; [|by apply (Hnew k info n)].
      apply Hkeep. subst unique1. rewrite Hname.
      eexists. split; [apply get_set_eq|]. apply set_add_In. by right.
Qed.

Lemma collect_batch (entity_structure : dict entity_info) (batch : list FccDataset) :
  wf (collect_unique_entities entity_structure batch)
  /\ forall dataset_data k info n,
       In dataset_data batch ->
       In (k, info) entity_structure ->
       entity_name_of dataset_data (field_name info) = Some n ->
       collected (collect_unique_entities entity_structure batch) k n.
Proof.
  unfold collect_unique_entities.
  assert (forall unique : dict (list string),
            let result :=
              fold_left
                (fun unique_entities dataset_data =>
                   fold_left
                     (fun unique_entities item =>
                        let '(entity_key, info) := item in
                        match entity_name_of dataset_data (field_name info) with
                        | Some entity_name =>
                            let names := default [] (get unique_entities entity_key) in
                            set unique_entities entity_key (set_add names entity_name)
                        | None => unique_entities
                        end)
                     entity_structure unique_entities)
                batch unique in
            (wf unique -> wf result)
            /\ (forall k n, collected unique k n -> collected result k n)
            /\ forall dataset_data k info n,
                 In dataset_data batch ->
                 In (k, info) entity_structure ->
                 entity_name_of dataset_data (field_name info) = Some n ->
                 collected result k n) as Hfold.
  { induction batch as [|d batch IH]; intros unique; cbn [fold_left].
    - split; [auto|]. split; [auto|]. intros d k info n [].
    - destruct (collect_record d entity_structure unique) as (Hwf1 & Hkeep1 & Hnew1).
      match goal with |- context [fold_left _ batch ?u1] =>
        destruct (IH u1) as (Hwf & Hkeep & Hnew) end.
      split; [auto|]. split; [auto|].
      intros dataset_data k info n [<-|Hin] Hitem Hname; [|by apply (Hnew dataset_data k info n)].
      apply Hkeep. by apply (Hnew1 k info n). }
  destruct (Hfold []) as (Hwf & _ & Hnew). split; [apply Hwf, wf_nil | exact Hnew].
Qed.

(** The inner loop: the names of one category. *)
Lemma cache_names (table entity_key : string) (names : list string) :
  forall (navigation_cache : dict (dict Z)) st cache st',
    is_Some (get navigation_cache entity_key) ->
    foldM
      (fun navigation_cache name =>
         entity_id <- _get_or_create_entity table name None ;;
         let by_name := default [] (get navigation_cache entity_key) in
         ret (set navigation_cache entity_key (set by_name name entity_id)))
      names navigation_cache st = (Ok cache, st') ->
    (forall k, k <> entity_key -> get cache k = get navigation_cache k)
    /\ (forall n, cached navigation_cache entity_key n -> cached cache entity_key n)
    /\ (forall n, In n names -> cached cache entity_key n).
Proof.
  induction names as [|name names IH]; intros cache0 st cache st' Hsome; cbn [foldM].
  - intros [= <- <-]. split; [auto|]. split; [auto|]. intros n [].
  - intros (cache1 & st1 & E1 & E2)%bind_inv_ok.
    apply bind_inv_ok in E1 as (id & st0 & _ & E1). injection E1 as <- <-.
    set (cache1 := set cache0 entity_key
                       (set (default [] (get cache0 entity_key)) name id)) in *.
    apply IH in E2 as (Hother & Hkept & Hnames);
      [|subst cache1; rewrite get_set_eq; eauto].
    assert (forall n, cached cache0 entity_key n -> cached cache1 entity_key n) as Hstep.
    { intros n (by_name & id' & Hget & Hn). subst cache1. rewrite Hget. cbn.
      destruct (decide (name = n)) as [->|Hne].
      - eexists _, id. split; [apply get_set_eq | apply get_set_eq].
      - eexists _, id'. split; [apply get_set_eq|]. by rewrite get_set_ne. }
    split; [|split].
    + intros k Hk. rewrite (Hother k Hk). subst cache1. by apply get_set_ne.
    + intros n Hn. by apply Hkept, Hstep.
    + intros n [<-|Hin]; [|by apply Hnames].
      apply Hkept. subst cache1. eexists _, id.
      split; [apply get_set_eq | apply get_set_eq].
Qed.

(** The outer loop: the categories. *)
Lemma cache_categories (entity_structure : dict entity_info)
    (unique_entities : dict (list string)) :
  wf unique_entities ->
  forall (navigation_cache : dict (dict Z)) st cache st',
    foldM
      (fun navigation_cache item =>
         let '(entity_key, names) := item in
         match get entity_structure entity_key with
         | None => raise KeyError entity_key
         | Some info =>
             let navigation_cache := set navigation_cache entity_key [] in
             foldM
               (fun navigation_cache name =>
                  entity_id <- _get_or_create_entity (table_name info) name None ;;
                  let by_name := default [] (get navigation_cache entity_key) in
                  ret (set navigation_cache entity_key (set by_name name entity_id)))
               names navigation_cache
         end)
      unique_entities navigation_cache st = (Ok cache, st') ->
    (forall k, ~ In k (keys unique_entities) -> get cache k = get navigation_cache k)
    /\ (forall k names n,
          In (k, names) unique_entities -> In n names -> cached cache k n).
Proof.
  unfold wf. induction unique_entities as [|[key names] rest IH];
    intros Hnd cache0 st cache st'; cbn [foldM].
  - intros [= <- <-]. split; [auto|]. intros k names n [].
  - apply NoDup_cons in Hnd as [Hkey Hnd].
    intros (cache1 & st1 & E1 & E2)%bind_inv_ok.
    destruct (get entity_structure key) as [info|]; [|discriminate].
    apply cache_names in E1 as (Hother1 & _ & Hnames1);
      [|rewrite get_set_eq; eauto].
    apply (IH Hnd) in E2 as (Hother & Hrest).
    split.
    + intros k Hk. cbn [keys map fst In] in Hk.
      rewrite Hother by tauto. rewrite Hother1 by (intros ->; tauto).
      apply get_set_ne. intros ->. tauto.
    + intros k names' n [[= -> ->]|Hin] Hn; [|by apply (Hrest k names' n)].
      destruct (Hnames1 n Hn) as (by_name & id & Hget & Hid).
      exists by_name, id. split; [|exact Hid].
      rewrite Hother; [exact Hget|]. intros Hin. apply Hkey. by apply list_elem_of_In.
Qed.

End BatchCacheFacts.

(** X26.  When the references of a batch have been resolved, the cache holds an
    identifier for every reference a record of the batch names in a
    configured category: on the batch path such a foreign key is never
    null. *)
Theorem batch_cache_covers_batch {W : Type} `{Platform W} (database : Config)
    (navigation_order : list string) (batch : list FccDataset)
    (st st' : W * list log_entry) (navigation_cache : dict (dict Z)) :
  cfg_navigation_order database = Some navigation_order ->
  _preprocess_batch_navigation_entities database batch st = (Ok navigation_cache, st') ->
  forall dataset_data entity_key entity_name,
    In dataset_data batch ->
    In entity_key navigation_order ->
    entity_name_of dataset_data entity_key = Some entity_name ->
    cached navigation_cache entity_key entity_name
    /\ exists id, cached_id dataset_data navigation_cache entity_key = Some id.
Proof.
  intros Hcfg Hrun d k n Hd Hk Hname.
  destruct (structure_run database navigation_order st Hcfg)
    as (navigation_tables & st1 & Es).
  pose proof (structure_lookup navigation_order navigation_tables) as Hget.
  set (es := structure_from_schema navigation_order navigation_tables) in *.
  assert (exists info, In (k, info) es /\ field_name info = k) as (info & Hin & Hfield).
  { pose proof (Hget k) as Hgk.
    rewrite bool_decide_eq_true_2 in Hgk by (by apply list_elem_of_In).
    apply get_Some_In in Hgk. eexists. split; [exact Hgk | reflexivity]. }
  unfold _preprocess_batch_navigation_entities in Hrun.
  rewrite (bind_ok _ _ _ _ _ Es) in Hrun. fold es in Hrun.
  destruct es as [|item es'] eqn:Ees; [destruct Hin|]. rewrite <- Ees in *.
  destruct (collect_batch es batch) as [Hwf Hcollected].
  apply (cache_categories es _ Hwf) in Hrun as [_ Hcached].
  destruct (Hcollected d k info n Hd Hin ltac:(by rewrite Hfield)) as (names & Hnames & Hn).
  assert (cached navigation_cache k n) as Hc.
  { apply (Hcached k names n); [by apply get_Some_In | exact Hn]. }
  split; [exact Hc|]. destruct Hc as (by_name & id & Hby & Hid).
  exists id. unfold cached_id, _get_entity_name_for_dataset. rewrite Hby.
  destruct (String.eqb_spec k EmptyString) as [->|_]; [discriminate|].
  by rewrite Hname.
Qed.

Lemma batch_cache_covers_batch_witness :
  exists navigation_cache st',
    _preprocess_batch_navigation_entities Sample.config Sample.five
      (Sample.fresh Sample.no_check, []) = (Ok navigation_cache, st')
    /\ exists id, cached_id Sample.p1 navigation_cache "detector" = Some id.
Proof.
  assert (exists navigation_cache st',
            _preprocess_batch_navigation_entities Sample.config Sample.five
              (Sample.fresh Sample.no_check, []) = (Ok navigation_cache, st'))
    as (cache & st' & E) by (eexists _, _; vm_compute; reflexivity).
  exists cache, st'. split; [exact E|].
  refine (proj2 (batch_cache_covers_batch (W:=Pg.world) Sample.config
                   ["accelerator"; "stage"; "campaign"; "detector"; "file_type"]
                   Sample.five _ _ cache eq_refl E
                   (Sample.dataset (Some "p1") (Some "FCC-ee") (Some "IDEA")
                      [("status", JStr "done")])
                   "detector" "IDEA" _ _ eq_refl)).
  - left. reflexivity.
  - cbn. tauto.
Defined.

(** ** The two paths and the identifier *)

(** X27.  The batch path and the individual path give a record the same
    identifier when the configured categories are the five the batch path
    knows, in any order, and every reference is resolved to the same
    identifier on both: the individual path then has the five columns of
    the batch path, and the order of the columns does not count. *)
Theorem paths_agree_on_identifier {W : Type} `{Platform W} (database : Config)
    (dataset_data : FccDataset) (dataset_name : string)
    (navigation_order : list string) (navigation_cache : dict (dict Z))
    (st st' : W * list log_entry) (fks : dict (option Z)) :
  cfg_navigation_order database = Some navigation_order ->
  navigation_order ≡ₚ ["accelerator"; "stage"; "campaign"; "detector"; "file_type"] ->
  _create_navigation_entities database dataset_data dataset_name st = (Ok fks, st') ->
  (forall entity_key,
     In entity_key navigation_order ->
     get fks (entity_key ++ "_id")%string
     = Some (cached_id dataset_data navigation_cache entity_key)) ->
  generate_dataset_uuid database dataset_name fks
  = generate_dataset_uuid database dataset_name
      (_get_foreign_key_ids_from_cache dataset_data navigation_cache).
Proof.
  intros Hcfg Hperm Erun Hids.
  destruct (navigation_entities_keys database dataset_data dataset_name navigation_order
              st Hcfg) as (fks2 & st2 & E & Hwf & Hcols & _).
  rewrite Erun in E. injection E as <- <-.
  assert (_get_foreign_key_ids_from_cache dataset_data navigation_cache
          = [ ("accelerator_id", cached_id dataset_data navigation_cache "accelerator");
              ("stage_id", cached_id dataset_data navigation_cache "stage");
              ("campaign_id", cached_id dataset_data navigation_cache "campaign");
              ("detector_id", cached_id dataset_data navigation_cache "detector");
              ("file_type_id", cached_id dataset_data navigation_cache "file_type") ])
    as Hcache.
  { unfold _get_foreign_key_ids_from_cache, entity_key_mappings.
    cbn [fold_left]. rewrite !cache_step. reflexivity. }
  assert (forall entity_key,
            In entity_key navigation_order <->
            In entity_key ["accelerator"; "stage"; "campaign"; "detector"; "file_type"])
    as Hfive.
  { intros entity_key. rewrite <- !list_elem_of_In. by rewrite Hperm. }
  assert (forall col,
            In col (keys fks) <->
            In col ["accelerator_id"; "stage_id"; "campaign_id"; "detector_id";
                    "file_type_id"]) as Hkeys.
  { intros col. rewrite Hcols. split.
    - intros (entity_key & Hin & ->). apply Hfive in Hin. cbn [In] in Hin |- *.
      destruct Hin as [<-|[<-|[<-|[<-|[<-|[]]]]]]; tauto.
    - intros Hin. cbn [In] in Hin.
      destruct Hin as [<-|[<-|[<-|[<-|[<-|[]]]]]];
        [exists "accelerator"|exists "stage"|exists "campaign"|exists "detector"
        |exists "file_type"];
        (split; [apply Hfive; cbn [In]; tauto | reflexivity]). }
  apply uuid_ext; rewrite Hcache.
  - apply NoDup_Permutation.
    + exact Hwf.
    + cbn [keys map fst]. by apply (bool_decide_unpack _).
    + intros col. rewrite !list_elem_of_In. apply Hkeys.
  - intros col. destruct (get fks col) as [v|] eqn:Eg.
    + pose proof (get_Some_In _ _ _ Eg) as Hin. apply (in_map fst) in Hin.
      cbn [fst] in Hin. apply Hcols in Hin as (entity_key & Hin & ->).
      rewrite (Hids _ Hin) in Eg. rewrite <- Eg. apply Hfive in Hin. cbn [In] in Hin.
      destruct Hin as [<-|[<-|[<-|[<-|[<-|[]]]]]]; reflexivity.
    + symmetry. apply get_None. intros Hin. apply get_None in Eg. apply Eg, Hkeys.
      exact Hin.
Qed.

Lemma paths_agree_on_identifier_witness :
  exists fks st',
    _create_navigation_entities Sample.config Sample.p1 "p1"
      (Sample.fresh Sample.no_check, []) = (Ok fks, st')
    /\ generate_dataset_uuid Sample.config "p1" fks
       = generate_dataset_uuid Sample.config "p1"
           (_get_foreign_key_ids_from_cache Sample.p1
              [("accelerator", [("FCC-ee", 1)]); ("detector", [("IDEA", 1)])]).
Proof.
  assert (exists fks st',
            _create_navigation_entities Sample.config Sample.p1 "p1"
              (Sample.fresh Sample.no_check, []) = (Ok fks, st')
            /\ forall entity_key,
                 In entity_key ["accelerator"; "stage"; "campaign"; "detector"; "file_type"] ->
                 get fks (entity_key ++ "_id")%string
                 = Some (cached_id Sample.p1
                           [("accelerator", [("FCC-ee", 1)]); ("detector", [("IDEA", 1)])]
                           entity_key))
    as (fks & st' & E & Hids).
  { eexists _, _. split; [vm_compute; reflexivity|].
    intros entity_key Hin. cbn [In] in Hin.
    destruct Hin as [<-|[<-|[<-|[<-|[<-|[]]]]]]; vm_compute; reflexivity. }
  exists fks, st'. split; [exact E|].
  exact (paths_agree_on_identifier (W:=Pg.world) Sample.config Sample.p1 "p1"
           ["accelerator"; "stage"; "campaign"; "detector"; "file_type"] _ _ _ fks
           eq_refl (reflexivity _) E Hids).
Defined.

(** ** The fallback name of a record *)

Section FallbackNameFacts.
Context {W : Type} `{Platform W}.

Lemma string_of_uint_no_underscore (d : Decimal.uint) :
  ~ In "_"%char (list_ascii_of_string (NilEmpty.string_of_uint d)).
Proof.
  induction d; cbn [NilEmpty.string_of_uint list_ascii_of_string In];
    [tauto|..]; intros [Heq|Hin]; try discriminate; auto.
Qed.

Lemma str_of_int_no_underscore (z : Z) :
  ~ In "_"%char (list_ascii_of_string (PyStr.str_of_int z)).
Proof.
  unfold PyStr.str_of_int, NilZero.string_of_int, NilZero.string_of_uint.
  destruct (Z.to_int z) as [d|d].
  - destruct d; try apply (string_of_uint_no_underscore (_ _)).
    cbn. intros [Heq|[]]. discriminate.
  - cbn [list_ascii_of_string In]. intros [Heq|Hin]; [discriminate|]. revert Hin.
    destruct d; try apply (string_of_uint_no_underscore (_ _)).
    cbn. intros [Heq|[]]. discriminate.
Qed.

Lemma str_of_int_inj (z z' : Z) : PyStr.str_of_int z = PyStr.str_of_int z' -> z = z'.
Proof.
  unfold PyStr.str_of_int. intros Heq. apply DecimalZ.to_int_inj.
  assert (forall n, Z.to_int n <> Decimal.Pos Decimal.Nil
                    /\ Z.to_int n <> Decimal.Neg Decimal.Nil) as Hnil.
  { intros [|p|p]; cbn; split; try discriminate;
      intros [= Hp]; by apply DecimalPos.Unsigned.to_uint_nonnil in Hp. }
  destruct (Hnil z) as [Hz1 Hz2]. destruct (Hnil z') as [Hz1' Hz2'].
  pose proof (NilZero.isi _ Hz1 Hz2) as E. pose proof (NilZero.isi _ Hz1' Hz2') as E'.
  rewrite Heq in E. congruence.
Qed.

Lemma underscore_in_app (a s : string) :
  In "_"%char (list_ascii_of_string (a ++ String "_" s)).
Proof.
  induction a as [|c a IH]; [by left|]. right. exact IH.
Qed.

(** What follows the last underscore of a string is determined by the
    string. *)
Lemma after_last_underscore (a b s t : string) :
  ~ In "_"%char (list_ascii_of_string s) ->
  ~ In "_"%char (list_ascii_of_string t) ->
  (a ++ String "_" s)%string = (b ++ String "_" t)%string -> s = t.
Proof.
  intros Hs Ht. revert b. induction a as [|c a IH]; intros [|c' b] Heq.
  - by injection Heq.
  - injection Heq as _ ->. destruct Hs. apply underscore_in_app.
  - injection Heq as _ <-. destruct Ht. apply underscore_in_app.
  - injection Heq as _ Heq. by apply (IH b).
Qed.

Lemma fallback_name_run (dataset_data : FccDataset) (idx : Z) (st : W * list log_entry) :
  named dataset_data = false ->
  exists timestamp short_uuid st',
    _generate_dataset_name dataset_data idx st
    = (Ok ("unnamed_dataset_" ++ timestamp ++ "_" ++ short_uuid ++ "_" ++
           PyStr.str_of_int idx)%string, st').
Proof.
  intros Hn. destruct st as [w l]. unfold named in Hn. unfold _generate_dataset_name.
  destruct (process_name dataset_data) as [n|]; [rewrite Hn|];
    unfold bind, perform_total, logger, ret;
    destruct (datetime_now w) as [timestamp w1];
    destruct (uuid4 w1) as [u w2]; eexists _, _, _; reflexivity.
Qed.

End FallbackNameFacts.

(** X28.  A record without a process name, or with an empty one, is given a
    fallback name that starts with [unnamed_dataset_] and ends with an
    underscore and the index of the record.  The index alone tells the
    fallback names apart: whatever the clock and the random source give,
    two records at different indices of the collection never get the same
    fallback name. *)
Theorem fallback_names_differ {W : Type} `{Platform W} (dataset_data : FccDataset)
    (idx : Z) (st : W * list log_entry) :
  named dataset_data = false ->
  (exists name middle st',
     _generate_dataset_name dataset_data idx st = (Ok name, st')
     /\ name = ("unnamed_dataset_" ++ middle ++ "_" ++ PyStr.str_of_int idx)%string)
  /\ forall (other : FccDataset) (idx' : Z) (st0 st' st0' : W * list log_entry)
            (name name' : string),
       named other = false ->
       idx <> idx' ->
       _generate_dataset_name dataset_data idx st = (Ok name, st') ->
       _generate_dataset_name other idx' st0 = (Ok name', st0') ->
       name <> name'.
Proof.
  intros Hn. split.
  - destruct (fallback_name_run dataset_data idx st Hn) as (ts & u & st' & E).
    eexists _, (ts ++ "_" ++ u)%string, st'. split; [exact E|].
    by rewrite <- !string_app_assoc.
  - intros other idx' st0 st' st0' name name' Hn' Hidx E E' Heq.
    destruct (fallback_name_run dataset_data idx st Hn) as (ts & u & st1 & E1).
    destruct (fallback_name_run other idx' st0 Hn') as (ts' & u' & st1' & E1').
    rewrite E1 in E. rewrite E1' in E'. injection E as <- _. injection E' as <- _.
    apply Hidx, str_of_int_inj.
    apply (after_last_underscore ("unnamed_dataset_" ++ ts ++ "_" ++ u)
             ("unnamed_dataset_" ++ ts' ++ "_" ++ u')).
    + apply str_of_int_no_underscore.
    + apply str_of_int_no_underscore.
    + change (String "_" ?s) with ("_" ++ s)%string.
      rewrite <- !string_app_assoc. exact Heq.
Qed.

Lemma fallback_names_differ_witness :
  named (Sample.dataset None None None []) = false
  /\ exists name name' st' st0',
       _generate_dataset_name (Sample.dataset None None None []) 0
         (Sample.fresh Sample.no_check, []) = (Ok name, st')
       /\ _generate_dataset_name (Sample.dataset None None None []) 1
            (Sample.fresh Sample.no_check, []) = (Ok name', st0')
       /\ name <> name'.
Proof.
  split; [reflexivity|].
  assert (exists name st',
            _generate_dataset_name (Sample.dataset None None None []) 0
              (Sample.fresh Sample.no_check, []) = (Ok name, st')) as (name & st' & E)
    by (eexists _, _; vm_compute; reflexivity).
  assert (exists name' st0',
            _generate_dataset_name (Sample.dataset None None None []) 1
              (Sample.fresh Sample.no_check, []) = (Ok name', st0'))
    as (name' & st0' & E') by (eexists _, _; vm_compute; reflexivity).
  exists name, name', st', st0'. split; [exact E|]. split; [exact E'|].
  exact (proj2 (fallback_names_differ (W:=Pg.world) (Sample.dataset None None None []) 0
                  (Sample.fresh Sample.no_check, []) eq_refl)
           (Sample.dataset None None None []) 1 (Sample.fresh Sample.no_check, [])
           st' st0' name name' eq_refl ltac:(discriminate) E E').
Defined.
